(** * SSNIT records management: normaliser and query layer of [app.py]

    A shallow embedding of the data-normalisation and query functions of
    [src/app.py] ([load_data], [validate_unit_holder_id], [calculate_age],
    [search_by_unit_holder_id], [get_withdrawal_records],
    [get_retiree_records] and the export blocks of the three tabs), followed
    by the properties the specification states about them.

    Conventions of the model:
    - a pandas [DataFrame] is an ordered list of column names, an ordered
      list of rows, a row being a finite map from column name to cell, and
      the names of the columns of dtype [datetime64], which pandas keeps
      apart from the cells and which decide what a comparison does on a
      column without cells;
    - a Python exception is the [None] of [option];
    - the pandas and Python library calls whose behaviour is not part of the
      repository (date and number parsing, float and timestamp printing, the
      system clock) are the fields of the class [Runtime], and so is the one
      point on which the versions of pandas differ for this program, whether
      [Series.astype(str)] keeps a missing cell missing;
    - strings are sequences of code points below 256. *)

From Stdlib Require Import QArith Qabs.
From stdpp Require Import gmap strings list fin_maps pretty sorting.

Local Open Scope string_scope.
Local Open Scope Z_scope.

(** ** Python string methods *)

Module PyStr.

(** [str.isspace] on one code point below 256. *)
Definition is_space (a : Ascii.ascii) : bool :=
  let n := Ascii.N_of_ascii a in
  ((9 <=? n) && (n <=? 13) || (28 <=? n) && (n <=? 32)
   || (n =? 133) || (n =? 160))%N.

Fixpoint lstrip (s : string) : string :=
  match s with
  | String a s' => if is_space a then lstrip s' else s
  | EmptyString => EmptyString
  end.

Definition rstrip (s : string) : string := String.rev (lstrip (String.rev s)).

(** [str.strip()] *)
Definition strip (s : string) : string := rstrip (lstrip s).

Definition lower_char (a : Ascii.ascii) : Ascii.ascii :=
  let n := Ascii.N_of_ascii a in
  if ((65 <=? n) && (n <=? 90)
      || (192 <=? n) && (n <=? 222) && negb (n =? 215))%N
  then Ascii.ascii_of_N (n + 32) else a.

(** [str.lower()] *)
Fixpoint lower (s : string) : string :=
  match s with
  | String a s' => String (lower_char a) (lower s')
  | EmptyString => EmptyString
  end.

(** [len(s)] *)
Definition len (s : string) : Z := Z.of_nat (String.length s).

End PyStr.

(** ** Cells *)

(** [datetime.date] *)
Record Date := mkDate { year : Z; month : Z; day : Z }.

(** A pandas [Timestamp]: a calendar date and the time of day. *)
Record Timestamp := mkTimestamp { ts_date : Date; ts_nanos : Z }.

(** The scalars a cell, or an argument of the query functions, can hold. *)
Inductive Value :=
| VStr (s : string)
| VInt (n : Z)
| VFloat (q : Q)
| VNaN                      (* a missing value: float NaN *)
| VTimestamp (t : Timestamp)
| VNaT.                     (* a missing timestamp *)

(** What [pd.to_datetime] does with one scalar. *)
Inductive DtResult :=
| DtOk (t : Timestamp)
| DtNaT                     (* parsed as a missing date *)
| DtRaise.                  (* raised *)

(** The result of parsing a numeral. *)
Inductive Number := NInt (n : Z) | NFloat (q : Q).

Definition number_value (x : Number) : Value :=
  match x with NInt n => VInt n | NFloat q => VFloat q end.

#[global] Instance Q_eq_dec : EqDecision Q.
Proof. solve_decision. Defined.
#[global] Instance Date_eq_dec : EqDecision Date.
Proof. solve_decision. Defined.
#[global] Instance Timestamp_eq_dec : EqDecision Timestamp.
Proof. solve_decision. Defined.
#[global] Instance Value_eq_dec : EqDecision Value.
Proof. solve_decision. Defined.

(** The library functions and the clock the program calls. *)
Class Runtime := {
  today : Date;                           (* date.today() *)
  to_datetime : Value -> DtResult;        (* pd.to_datetime(x) on a scalar *)
  (* pd.to_datetime(series, errors='coerce'): the column is parsed as a
     whole, the format being taken from its first date; the answer is the
     timestamp at a position of the parsed column, None for NaT *)
  to_datetime_column : list Value -> nat -> option Timestamp;
  to_numeric_str : string -> option Number; (* numeral parser of pd.to_numeric *)
  float_str : Q -> string;                (* str(x) of a float *)
  timestamp_str : Timestamp -> string;    (* str(x) of a Timestamp *)
  (* Series.astype(str) on a missing cell: pandas 3 keeps it missing (true),
     the earlier versions write its text, 'nan' or 'NaT' (false) *)
  astype_str_keeps_missing : bool
}.

(** [pd.isna(x)] *)
Definition isna (v : Value) : bool :=
  match v with VNaN | VNaT => true | _ => false end.

Section Scalars.
Context `{Runtime}.

(** [str(x)] *)
Definition py_str (v : Value) : string :=
  match v with
  | VStr s => s
  | VInt n => pretty n
  | VFloat q => float_str q
  | VNaN => "nan"
  | VTimestamp t => timestamp_str t
  | VNaT => "NaT"
  end.

(** One cell of [Series.astype(str)]: the [str] of the cell, a missing cell
    staying missing or not with the version of pandas. *)
Definition astype_str (v : Value) : Value :=
  if isna v && astype_str_keeps_missing then VNaN else VStr (py_str v).

(** One cell of [Series.str.strip()] and of [Series.str.lower()]: a cell that
    holds no text is answered with a missing value. *)
Definition str_strip (v : Value) : Value :=
  match v with VStr s => VStr (PyStr.strip s) | _ => VNaN end.

Definition str_lower (v : Value) : Value :=
  match v with VStr s => VStr (PyStr.lower s) | _ => VNaN end.

(** [validate_unit_holder_id]; the argument is the content of the text box. *)
Definition validate_unit_holder_id (unit_holder_id : string) : bool * string :=
  if bool_decide (unit_holder_id = "") then (false, "Please enter a Unit Holder ID")
  else
    let unit_holder_clean := PyStr.strip unit_holder_id in
    if PyStr.len unit_holder_clean <? 3 then
      (false, "Unit Holder ID seems too short (currently "
              +:+ pretty (PyStr.len unit_holder_clean) +:+ " characters)")
    else (true, unit_holder_clean).

(** [x.date()]: a [Timestamp] gives its date, [NaT] gives [NaT] (the inner
    [None]), any other scalar has no such method (the outer [None]). *)
Definition date_method (v : Value) : option (option Date) :=
  match v with
  | VTimestamp t => Some (Some (ts_date t))
  | VNaT => Some None
  | _ => None
  end.

(** [(a1, a2) < (b1, b2)] on tuples of integers. *)
Definition tuple_lt (a b : Z * Z) : bool :=
  (a.1 <? b.1) || ((a.1 =? b.1) && (a.2 <? b.2)).

(** The arithmetic of line 175.  The fields of [NaT] are NaN, which makes
    the comparison false and the difference NaN. *)
Definition years_since (birth : option Date) : Value :=
  match birth with
  | Some b =>
      VInt (year today - year b
            - (if tuple_lt (month today, day today) (month b, day b)
               then 1 else 0))
  | None => VNaN
  end.

Definition dt_value (r : DtResult) : option Value :=
  match r with
  | DtOk t => Some (VTimestamp t)
  | DtNaT => Some VNaT
  | DtRaise => None
  end.

(** [calculate_age]: the [try] body runs in [option], the [except] clause
    turns [None] into the sentinel. *)
Definition calculate_age (birth_date : Value) : Value :=
  if isna birth_date then VStr "N/A"
  else
    default (VStr "N/A")
      (birth_date' ← (match birth_date with
                      | VStr _ => dt_value (to_datetime birth_date)
                      | _ => Some birth_date
                      end);
       d ← date_method birth_date';
       Some (years_since d)).

End Scalars.

(** ** Data frames *)

Abbreviation Row := (gmap string Value).

Record DataFrame := mkFrame {
  columns : list string;
  rows : list Row;
  datetimes : list string      (* the columns of dtype datetime64 *)
}.

#[global] Instance DataFrame_eq_dec : EqDecision DataFrame.
Proof. solve_decision. Defined.

(** [pd.DataFrame()] *)
Definition empty_frame : DataFrame := mkFrame [] [] [].

(** [c in df.columns] *)
Definition has_column (c : string) (df : DataFrame) : bool :=
  bool_decide (c ∈ columns df).

(** The cell of a row under a column; a row that has no entry reads as
    missing, as a short line of the input file does. *)
Definition cell (r : Row) (c : string) : Value := default VNaN (r !! c).

(** The dtypes after [df[c] = ...]: the column is of dtype datetime64 or it
    is not. *)
Definition with_dtype (c : string) (datetime : bool) (l : list string) : list string :=
  let others := List.filter (fun x => negb (bool_decide (x = c))) l in
  if datetime then c :: others else others.

(** [df[c] = f(row)] for values that are texts or numbers: an existing column
    is overwritten in place, a new one is appended on the right. *)
Definition assign (c : string) (f : Row -> Value) (df : DataFrame) : DataFrame :=
  mkFrame (if has_column c df then columns df else columns df ++ [c])
          ((fun r => <[c := f r]> r) <$> rows df)
          (with_dtype c false (datetimes df)).

(** [df[c] = df[src]]: the new column has the dtype of the one it copies. *)
Definition copy_column (c src : string) (df : DataFrame) : DataFrame :=
  mkFrame (if has_column c df then columns df else columns df ++ [c])
          ((fun r => <[c := cell r src]> r) <$> rows df)
          (with_dtype c (bool_decide (src ∈ datetimes df)) (datetimes df)).

(** [df[c] = df[src].apply(f)] for an [f] that answers no timestamp: the
    dtype of the new column is taken from the values, and on a column
    without cells [apply] answers a column of the dtype it was given. *)
Definition assign_apply (c src : string) (f : Value -> Value) (df : DataFrame)
  : DataFrame :=
  mkFrame (if has_column c df then columns df else columns df ++ [c])
          ((fun r => <[c := f (cell r src)]> r) <$> rows df)
          (with_dtype c (bool_decide (rows df = [])
                         && bool_decide (src ∈ datetimes df)) (datetimes df)).

(** [df[mask]], the mask computed row by row. *)
Definition select (p : Row -> bool) (df : DataFrame) : DataFrame :=
  mkFrame (columns df) (List.filter p (rows df)) (datetimes df).

(** A mask whose computation may raise. *)
Fixpoint filterM (p : Row -> option bool) (l : list Row) : option (list Row) :=
  match l with
  | [] => Some []
  | r :: l' =>
      b ← p r; rest ← filterM p l';
      Some (if b : bool then r :: rest else rest)
  end.

Definition selectM (p : Row -> option bool) (df : DataFrame) : option DataFrame :=
  rs ← filterM p (rows df); Some (mkFrame (columns df) rs (datetimes df)).

(** [df.iloc[[-1]]] *)
Definition iloc_last (df : DataFrame) : option DataFrame :=
  r ← last (rows df); Some (mkFrame (columns df) [r] (datetimes df)).

(** [df[cols]] for a list of column names; a name that is not a column is a
    [KeyError]. *)
Definition getitem_columns (cols : list string) (df : DataFrame) : option DataFrame :=
  if forallb (fun c => has_column c df) cols
  then Some (mkFrame cols
               ((fun r : Row => filter (fun kv => kv.1 ∈ cols) r) <$> rows df)
               (List.filter (fun c => bool_decide (c ∈ cols)) (datetimes df)))
  else None.

(** ** Chronological sort

    [df.sort_values(['Year', 'Month_numeric'], ascending=[True, True])].
    pandas turns each key column into integer codes, the rank of the value
    among the distinct values of the column with missing values given the
    largest code, and orders the rows by a stable lexicographic sort on the
    codes.  In a column that mixes them the numbers are ranked before the
    texts; only numbers and timestamps in one column cannot be ranked, and
    the sort raises [TypeError]. *)

Inductive Key :=
| KNum (q : Q)
| KStr (s : string)
| KTime (z : Z)
| KNull.

(** Chronological rank of a timestamp whose fields are in range. *)
Definition ts_ordinal (t : Timestamp) : Z :=
  (((year (ts_date t) * 12 + (month (ts_date t) - 1)) * 31
    + (day (ts_date t) - 1)) * 86400000000000) + ts_nanos t.

Definition key_of (v : Value) : Key :=
  match v with
  | VInt n => KNum (inject_Z n)
  | VFloat q => KNum q
  | VStr s => KStr s
  | VTimestamp t => KTime (ts_ordinal t)
  | VNaN | VNaT => KNull
  end.

(** The kind of a key: keys of one kind are compared by value. *)
Definition key_kind (k : Key) : nat :=
  match k with KNum _ => 0 | KTime _ => 1 | KStr _ => 2 | KNull => 3 end%nat.

(** Ascending order with missing values last.  Keys of different kinds are
    ordered by kind: numbers, or timestamps, before texts. *)
Definition key_leb (a b : Key) : bool :=
  match a, b with
  | KNum x, KNum y => Qle_bool x y
  | KStr x, KStr y => String.leb x y
  | KTime x, KTime y => x <=? y
  | _, _ => (key_kind a <=? key_kind b)%nat
  end.

(** The sort key of a row: (year, month rank). *)
Definition period (r : Row) : Key * Key :=
  (key_of (cell r "Year"), key_of (cell r "Month_numeric")).

Definition period_leb (a b : Key * Key) : bool :=
  if key_leb a.1 b.1
  then (if key_leb b.1 a.1 then key_leb a.2 b.2 else true)
  else false.

Fixpoint insert_row (r : Row) (l : list Row) : list Row :=
  match l with
  | [] => [r]
  | x :: l' =>
      if period_leb (period r) (period x) then r :: l else x :: insert_row r l'
  end.

(** Stable sort by [period]: rows with equal keys keep their order. *)
Definition stable_sort (l : list Row) : list Row := foldr insert_row [] l.

(** A key column can be ranked unless it holds both a number and a
    timestamp. *)
Definition column_sortable (c : string) (l : list Row) : bool :=
  let kinds := (fun r => key_kind (key_of (cell r c))) <$> l in
  negb (existsb (Nat.eqb 0) kinds && existsb (Nat.eqb 1) kinds).

Definition sort_values (df : DataFrame) : option DataFrame :=
  if column_sortable "Year" (rows df) && column_sortable "Month_numeric" (rows df)
  then Some (mkFrame (columns df) (stable_sort (rows df)) (datetimes df))
  else None.

(** The guarded sort every function applies:
    [if 'Year' in df.columns and 'Month_numeric' in df.columns: df = df.sort_values(...)]. *)
Definition has_period_columns (df : DataFrame) : bool :=
  has_column "Year" df && has_column "Month_numeric" df.

Definition sort_chronologically (df : DataFrame) : option DataFrame :=
  if has_period_columns df then sort_values df else Some df.

(** A linear check of the order, for concrete lists. *)
Fixpoint is_ascending (l : list Row) : bool :=
  match l with
  | a :: l' =>
      match l' with
      | b :: _ => period_leb (period a) (period b) && is_ascending l'
      | [] => true
      end
  | [] => true
  end.

(** ** The loader and the query layer *)

Definition date_columns : list string :=
  ["Date_of_Birth"; "combined"; "DOB"; "Birth_Date"].

Definition month_map : gmap string Z :=
  list_to_map
    [("jan", 1); ("january", 1); ("feb", 2); ("february", 2);
     ("mar", 3); ("march", 3); ("apr", 4); ("april", 4); ("may", 5);
     ("jun", 6); ("june", 6); ("jul", 7); ("july", 7);
     ("aug", 8); ("august", 8); ("sep", 9); ("september", 9);
     ("oct", 10); ("october", 10); ("nov", 11); ("november", 11);
     ("dec", 12); ("december", 12)].

(** [series != 0], cell by cell: only a number equal to zero compares equal. *)
Definition ne_zero (v : Value) : bool :=
  match v with
  | VInt n => negb (n =? 0)
  | VFloat q => negb (Qeq_bool q 0)
  | _ => true
  end.

(** [series >= k], cell by cell; ordering a string or a timestamp against an
    integer raises [TypeError], NaN compares false. *)
Definition ge_int (v : Value) (k : Z) : option bool :=
  match v with
  | VInt n => Some (k <=? n)
  | VFloat q => Some (Qle_bool (inject_Z k) q)
  | VNaN => Some false
  | VStr _ | VTimestamp _ | VNaT => None
  end.

(** [df[df[c] >= k]]: ordering a column of dtype datetime64 against an integer
    raises [TypeError] whatever the column holds, also when it has no cell;
    on any other column the cells decide. *)
Definition select_ge (c : string) (k : Z) (df : DataFrame) : option DataFrame :=
  if bool_decide (c ∈ datetimes df) then None
  else selectM (fun r => ge_int (cell r c) k) df.

Section Program.
Context `{Runtime}.

(** The cell at position [i] of [pd.to_datetime(df[c], errors='coerce')]. *)
Definition parsed_date (c : string) (df : DataFrame) (i : nat) : Value :=
  match to_datetime_column ((fun r => cell r c) <$> rows df) i with
  | Some t => VTimestamp t
  | None => VNaT
  end.

(** [df[c] = pd.to_datetime(df[c], errors='coerce')]: the column is replaced
    by the parsed one, position by position, and is of dtype datetime64. *)
Definition parse_dates (c : string) (df : DataFrame) : DataFrame :=
  mkFrame (if has_column c df then columns df else columns df ++ [c])
          (imap (fun i r => <[c := parsed_date c df i]> r) (rows df))
          (with_dtype c true (datetimes df)).

(** One cell of [pd.to_numeric(series, errors='coerce')]. *)
Definition to_numeric (v : Value) : Value :=
  match v with
  | VInt _ | VFloat _ => v
  | VStr s => from_option number_value VNaN (to_numeric_str s)
  | VNaN | VTimestamp _ | VNaT => VNaN
  end.

(** One cell of [series.fillna(0)]. *)
Definition fillna_zero (v : Value) : Value := if isna v then VInt 0 else v.

(** Lines 98-106: the first date column that is present is parsed and copied
    to ['birth_date']; the others are left alone.  With [errors='coerce'] the
    conversion answers a value it cannot read with [NaT], so the [except]
    clause of the loop has nothing to catch. *)
Fixpoint standardize_birth_date (cols : list string) (df : DataFrame) : DataFrame :=
  match cols with
  | [] => df
  | col :: cols' =>
      if has_column col df then
        let df := parse_dates col df in
        copy_column "birth_date" col df
      else standardize_birth_date cols' df
  end.

(** One cell of [series.map(month_map)]: a text that is not a key of the
    table, like a missing cell, maps to NaN. *)
Definition map_month (v : Value) : Value :=
  match v with
  | VStr label => from_option VInt VNaN (month_map !! label)
  | _ => VNaN
  end.

(** One cell of [series.astype(str).str.lower().str.strip().map(month_map)]. *)
Definition month_rank (v : Value) : Value :=
  map_month (str_strip (str_lower (astype_str v))).

(** Lines 93-95. *)
Definition clean_social_security (df : DataFrame) : DataFrame :=
  if has_column "Social Security #" df
  then assign "Social Security #"
         (fun r => str_strip (astype_str (cell r "Social Security #"))) df
  else df.

(** Lines 108-110. *)
Definition coerce_year (df : DataFrame) : DataFrame :=
  if has_column "Year" df
  then assign "Year" (fun r => to_numeric (cell r "Year")) df else df.

(** Lines 112-135: the labels are kept under ['Month_original'] and their
    ranks stored under ['Month_numeric']; ['Month'] itself is not touched. *)
Definition derive_month (df : DataFrame) : DataFrame :=
  if has_column "Month" df then
    let df := assign "Month_original" (fun r => astype_str (cell r "Month")) df in
    let df := assign "Month_numeric" (fun r => month_rank (cell r "Month")) df in
    assign "Month_numeric" (fun r => to_numeric (cell r "Month_numeric")) df
  else df.

(** Lines 141-143. *)
Definition clean_withdrawals (df : DataFrame) : DataFrame :=
  if has_column "Withdrawals" df
  then assign "Withdrawals"
         (fun r => fillna_zero (to_numeric (cell r "Withdrawals"))) df
  else df.

(** [load_data] from line 93 on, applied to the table [pd.read_csv] returned
    (the choice of the file in the directory is not part of the model);
    [None] is an exception inside the [try] block. *)
Definition normalize (df : DataFrame) : option DataFrame :=
  let df := clean_social_security df in
  let df := standardize_birth_date date_columns df in
  let df := coerce_year df in
  let df := derive_month df in
  df ← sort_chronologically df;
  Some (clean_withdrawals df).

(** [load_data]: the [except] clause answers an exception with an empty
    table. *)
Definition load_data (raw : DataFrame) : DataFrame :=
  default empty_frame (normalize raw).

(** [search_by_unit_holder_id] *)
Definition search_by_unit_holder_id (df : DataFrame) (unit_holder_id : Value)
  : option (DataFrame * DataFrame) :=
  if negb (has_column "Unit Holder ID" df) then Some (empty_frame, empty_frame)
  else
    let df_copy := df in
    let df_copy :=
      assign "Unit Holder ID"
        (fun r => str_strip (astype_str (cell r "Unit Holder ID"))) df_copy in
    let unit_holder_id := PyStr.strip (py_str unit_holder_id) in
    let all_results :=
      select (fun r => bool_decide (cell r "Unit Holder ID" = VStr unit_holder_id))
        df_copy in
    if (length (rows all_results) =? 0)%nat then Some (empty_frame, empty_frame)
    else
      all_results ← sort_chronologically all_results;
      latest_record ← iloc_last all_results;
      Some (latest_record, all_results).

(** [get_withdrawal_records] *)
Definition get_withdrawal_records (df : DataFrame) : option DataFrame :=
  if negb (has_column "Withdrawals" df) then Some empty_frame
  else
    let withdrawal_records := select (fun r => ne_zero (cell r "Withdrawals")) df in
    let withdrawal_records :=
      if has_column "birth_date" withdrawal_records
      then assign_apply "Age" "birth_date" calculate_age withdrawal_records
      else withdrawal_records in
    sort_chronologically withdrawal_records.

(** [get_retiree_records] *)
Definition get_retiree_records (df : DataFrame) : option DataFrame :=
  if negb (has_column "birth_date" df) then Some empty_frame
  else
    let df_with_age := df in
    let df_with_age := assign_apply "Age" "birth_date" calculate_age df_with_age in
    let numeric_ages :=
      select (fun r => negb (bool_decide (cell r "Age" = VStr "N/A")))
        df_with_age in
    retiree_records ← select_ge "Age" 60 numeric_ages;
    sort_chronologically retiree_records.

End Program.

(** ** Export blocks of the tabs *)

(** What the records-lookup tab shows for one content of the text box. *)
Inductive LookupView :=
| Idle
| Rejected (reason : string)
| NotFound (unit_holder_clean : string)
| Found (unit_holder_clean : string) (latest_record all_records : DataFrame)
    (export_latest : DataFrame) (export_all : option DataFrame).

Section Tabs.
Context `{Runtime}.

(** The three statements every export block repeats:
    [export = records.copy(); export = export[df.columns];
     if 'Month_original' in export.columns: export['Month'] = export['Month_original']]. *)
Definition export_frame (df records : DataFrame) : option DataFrame :=
  export_data ← getitem_columns (columns df) records;
  Some (if has_column "Month_original" export_data
        then copy_column "Month" "Month_original" export_data
        else export_data).

(** Lines 387-427 of [records_lookup_tab]: what is shown once the lookup has
    returned, with the tables behind the two download buttons. *)
Definition show_lookup (df : DataFrame) (unit_holder_clean : string)
    (found : DataFrame * DataFrame) : option LookupView :=
  let '(latest_record, all_records) := found in
  if (length (rows latest_record) =? 0)%nat then Some (NotFound unit_holder_clean)
  else
    export_latest ← export_frame df latest_record;
    export_all ← (if (1 <? length (rows all_records))%nat
                  then Some <$> export_frame df all_records
                  else Some None);
    Some (Found unit_holder_clean latest_record all_records
            export_latest export_all).

(** [records_lookup_tab], lines 375-427, without the rendering. *)
Definition records_lookup_tab (df : DataFrame) (unit_holder_input : string)
  : option LookupView :=
  if bool_decide (unit_holder_input = "") then Some Idle
  else
    let '(is_valid, result) := validate_unit_holder_id unit_holder_input in
    if negb is_valid then Some (Rejected result)
    else
      let unit_holder_clean := result in
      found ← search_by_unit_holder_id df (VStr unit_holder_clean);
      show_lookup df unit_holder_clean found.

(** The export of [withdrawals_tab]; [keep] stands for the secondary filters
    the user has set, [None] inside for "nothing to export". *)
Definition withdrawals_tab_export (df : DataFrame) (keep : Row -> bool)
  : option (option DataFrame) :=
  withdrawal_records ← get_withdrawal_records df;
  if (length (rows withdrawal_records) =? 0)%nat then Some None
  else
    let filtered_records := select keep withdrawal_records in
    if (0 <? length (rows filtered_records))%nat
    then Some <$> export_frame df filtered_records
    else Some None.

End Tabs.

(** The table behind the "Download Latest Record" button. *)
Definition exported_latest (view : option LookupView) : option DataFrame :=
  match view with
  | Some (Found _ _ _ export_latest _) => Some export_latest
  | _ => None
  end.

(** One row of an export: the columns of the dataset, the month label back
    under ['Month']. *)
Definition export_row (df : DataFrame) (r : Row) : Row :=
  let r' : Row := filter (fun kv => kv.1 ∈ columns df) r in
  if has_column "Month_original" df
  then <["Month" := cell r' "Month_original"]> r' else r'.

(** ** The same functions over a store of table objects

    pandas tables are mutable objects handled by reference.  Here a store
    holds the objects, a reference is a position in the store, and every
    statement of the three query functions is the store operation pandas
    performs: [copy], [df[mask]], [sort_values] and [iloc] build a new object,
    [df[c] = ...] updates the object it is applied to. *)

Module Imperative.

Abbreviation Heap := (list DataFrame).
Abbreviation Ref := nat.

(** A computation reads and updates the store and may raise. *)
Definition St (A : Type) : Type := Heap -> option A * Heap.

#[global] Instance St_ret : MRet St := fun A a h => (Some a, h).
#[global] Instance St_bind : MBind St := fun A B f m h =>
  match m h with
  | (Some a, h') => f a h'
  | (None, h') => (None, h')
  end.

Definition lift {A} (o : option A) : St A := fun h => (o, h).
Definition deref (l : Ref) : St DataFrame := fun h => (h !! l, h).
Definition new_frame (d : DataFrame) : St Ref := fun h => (Some (length h), (h ++ [d])%list).
Definition store (l : Ref) (d : DataFrame) : St unit := fun h => (Some tt, <[l := d]> h).

(** [df.copy()] *)
Definition copy (l : Ref) : St Ref := d ← deref l; new_frame d.
(** [df[c] = f(row)] *)
Definition setitem (l : Ref) (c : string) (f : Row -> Value) : St unit :=
  d ← deref l; store l (assign c f d).
(** [df[c] = df[src].apply(f)] *)
Definition setitem_apply (l : Ref) (c src : string) (f : Value -> Value) : St unit :=
  d ← deref l; store l (assign_apply c src f d).
(** [df[mask]] *)
Definition getitem_mask (l : Ref) (p : Row -> bool) : St Ref :=
  d ← deref l; new_frame (select p d).
(** [df[df[c] >= k]] *)
Definition getitem_ge (l : Ref) (c : string) (k : Z) : St Ref :=
  d ← deref l; d' ← lift (select_ge c k d); new_frame d'.
(** The guarded [df = df.sort_values(...)]: the sorted table is a new object,
    without the columns the variable keeps its object. *)
Definition sort_guarded (l : Ref) : St Ref :=
  d ← deref l;
  if has_period_columns d then d' ← lift (sort_values d); new_frame d'
  else mret l.
(** [df.iloc[[-1]]] *)
Definition take_last (l : Ref) : St Ref :=
  d ← deref l; d' ← lift (iloc_last d); new_frame d'.

Section Program.
Context `{Runtime}.

Definition search_by_unit_holder_id (df : Ref) (unit_holder_id : Value)
  : St (Ref * Ref) :=
  d ← deref df;
  if negb (has_column "Unit Holder ID" d) then
    e1 ← new_frame empty_frame; e2 ← new_frame empty_frame; mret (e1, e2)
  else
    df_copy ← copy df;
    setitem df_copy "Unit Holder ID"
      (fun r => str_strip (astype_str (cell r "Unit Holder ID")));;
    let unit_holder_id := PyStr.strip (py_str unit_holder_id) in
    selected ← getitem_mask df_copy
      (fun r => bool_decide (cell r "Unit Holder ID" = VStr unit_holder_id));
    all_results ← copy selected;
    a ← deref all_results;
    if (length (rows a) =? 0)%nat then
      e1 ← new_frame empty_frame; e2 ← new_frame empty_frame; mret (e1, e2)
    else
      all_results ← sort_guarded all_results;
      latest_record ← take_last all_results;
      mret (latest_record, all_results).

Definition get_withdrawal_records (df : Ref) : St Ref :=
  d ← deref df;
  if negb (has_column "Withdrawals" d) then new_frame empty_frame
  else
    selected ← getitem_mask df (fun r => ne_zero (cell r "Withdrawals"));
    withdrawal_records ← copy selected;
    w ← deref withdrawal_records;
    (if has_column "birth_date" w
     then setitem_apply withdrawal_records "Age" "birth_date" calculate_age
     else mret tt);;
    sort_guarded withdrawal_records.

Definition get_retiree_records (df : Ref) : St Ref :=
  d ← deref df;
  if negb (has_column "birth_date" d) then new_frame empty_frame
  else
    df_with_age ← copy df;
    setitem_apply df_with_age "Age" "birth_date" calculate_age;;
    selected ← getitem_mask df_with_age
      (fun r => negb (bool_decide (cell r "Age" = VStr "N/A")));
    numeric_ages ← copy selected;
    selected ← getitem_ge numeric_ages "Age" 60;
    retiree_records ← copy selected;
    sort_guarded retiree_records.

End Program.

End Imperative.

(** ** A runtime to execute the model

    [iso_runtime] fixes the clock at 2024-06-14 and answers as pandas does on
    ISO dates ([YYYY-MM-DD]), on the empty string and the spellings of a
    missing value, and on plain integer numerals.  On any other text, and on
    a number given as a date (which pandas reads as nanoseconds since 1970),
    it reports a failure.  A column of dates is parsed in the ISO format,
    which is what pandas does with a column of texts whose dates are ISO
    dates: a cell in any other form is then [NaT].  [iso_runtime] writes a
    missing cell as text, as pandas did before version 3, and
    [iso_runtime_pandas3] keeps it missing.  The runtimes are used to run
    the functions on concrete tables; the general statements below hold for
    every runtime. *)

Module Iso.

Definition digit (a : Ascii.ascii) : option Z :=
  let n := Z.of_N (Ascii.N_of_ascii a) in
  if (48 <=? n) && (n <=? 57) then Some (n - 48) else None.

Fixpoint digits_acc (s : string) (acc : Z) : option Z :=
  match s with
  | EmptyString => Some acc
  | String a s' => d ← digit a; digits_acc s' (10 * acc + d)
  end.

(** A non-empty run of decimal digits. *)
Definition digits (s : string) : option Z :=
  match s with EmptyString => None | _ => digits_acc s 0 end.

Definition parse_int (s : string) : option Number :=
  let s := PyStr.strip s in
  if bool_decide (String.substring 0 1 s = "-")
  then n ← digits (String.substring 1 (String.length s - 1) s); Some (NInt (- n))
  else n ← digits s; Some (NInt n).

Definition nat_strings : list string := ["NaT"; "nat"; "NAT"; "nan"; "NaN"; "NAN"].

Definition leap_year (y : Z) : bool :=
  ((y mod 4 =? 0) && negb (y mod 100 =? 0)) || (y mod 400 =? 0).

Definition days_in_month (y m : Z) : Z :=
  if m =? 2 then (if leap_year y then 29 else 28)
  else if (m =? 4) || (m =? 6) || (m =? 9) || (m =? 11) then 30
  else 31.

(** A date of the calendar within the years a [Timestamp] can hold. *)
Definition valid_date (y m d : Z) : bool :=
  (1678 <=? y) && (y <=? 2261) && (1 <=? m) && (m <=? 12)
  && (1 <=? d) && (d <=? days_in_month y m).

Definition parse_date (s : string) : DtResult :=
  if bool_decide (s = "") || bool_decide (s ∈ nat_strings) then DtNaT
  else if negb (String.length s =? 10)%nat then DtRaise
  else
    match digits (String.substring 0 4 s), digits (String.substring 5 2 s),
          digits (String.substring 8 2 s) with
    | Some y, Some m, Some d =>
        if bool_decide (String.substring 4 1 s = "-")
           && bool_decide (String.substring 7 1 s = "-") && valid_date y m d
        then DtOk (mkTimestamp (mkDate y m d) 0)
        else DtRaise
    | _, _, _ => DtRaise
    end.

Definition parse_scalar (v : Value) : DtResult :=
  match v with
  | VStr s => parse_date s
  | VTimestamp t => DtOk t
  | VNaN | VNaT => DtNaT
  | VInt _ | VFloat _ => DtRaise
  end.

(** [n] in decimal, padded with zeros on the left. *)
Definition pad (width : nat) (n : Z) : string :=
  let s := pretty n in
  String.concat "" (replicate (width - String.length s) "0") +:+ s.

(** [YYYY-MM-DD HH:MM:SS], the text of a timestamp on a whole second. *)
Definition show_timestamp (t : Timestamp) : string :=
  let d := ts_date t in
  let secs := ts_nanos t / 1000000000 in
  pad 4 (year d) +:+ "-" +:+ pad 2 (month d) +:+ "-" +:+ pad 2 (day d) +:+ " "
  +:+ pad 2 (secs / 3600) +:+ ":" +:+ pad 2 (secs / 60 mod 60) +:+ ":"
  +:+ pad 2 (secs mod 60).

(** The text of a float: Python's for an integral value; for any other
    value the numerator and the denominator, which is not Python's text (no
    example prints such a float). *)
Definition show_float (q : Q) : string :=
  if (Zpos (Qden q) =? 1) then pretty (Qnum q) +:+ ".0"
  else pretty (Qnum q) +:+ "/" +:+ pretty (Zpos (Qden q)).

(** A column parsed in the ISO format, with [errors='coerce']. *)
Definition parse_column (column : list Value) (i : nat) : option Timestamp :=
  match parse_scalar <$> column !! i with
  | Some (DtOk t) => Some t
  | _ => None
  end.

End Iso.

Definition iso_runtime : Runtime :=
  {| today := mkDate 2024 6 14;
     to_datetime := Iso.parse_scalar;
     to_datetime_column := Iso.parse_column;
     to_numeric_str := Iso.parse_int;
     float_str := Iso.show_float;
     timestamp_str := Iso.show_timestamp;
     astype_str_keeps_missing := false |}.

(** The same runtime a day later. *)
Definition iso_runtime_next_day : Runtime :=
  {| today := mkDate 2024 6 15;
     to_datetime := Iso.parse_scalar;
     to_datetime_column := Iso.parse_column;
     to_numeric_str := Iso.parse_int;
     float_str := Iso.show_float;
     timestamp_str := Iso.show_timestamp;
     astype_str_keeps_missing := false |}.

(** The same runtime with the [astype(str)] of pandas 3. *)
Definition iso_runtime_pandas3 : Runtime :=
  {| today := mkDate 2024 6 14;
     to_datetime := Iso.parse_scalar;
     to_datetime_column := Iso.parse_column;
     to_numeric_str := Iso.parse_int;
     float_str := Iso.show_float;
     timestamp_str := Iso.show_timestamp;
     astype_str_keeps_missing := true |}.

(** Building a table from its header and its lines. *)
Definition row_of (cols : list string) (vals : list Value) : Row :=
  list_to_map (zip cols vals).

(** [pd.read_csv] parses no dates: no column of the table it answers is of
    dtype datetime64. *)
Definition table (cols : list string) (lines : list (list Value)) : DataFrame :=
  mkFrame cols (row_of cols <$> lines) [].

(** The lines of a table, each read in column order. *)
Definition lines (df : DataFrame) : list (list Value) :=
  (fun r => cell r <$> columns df) <$> rows df.

(** ** Tables used in the examples *)

(** Two records of holder A1, the later one first in the file. *)
Definition scenario_table : DataFrame :=
  table ["Unit Holder ID"; "Year"; "Month"]
    [[VStr "A1"; VInt 2022; VStr "Dec"]; [VStr "A1"; VInt 2021; VStr "Jan"]].

(** The same file without its month column. *)
Definition yearly_table : DataFrame :=
  table ["Unit Holder ID"; "Year"] [[VStr "A1"; VInt 2022]; [VStr "A1"; VInt 2021]].

(** A record whose month label is not a month, of an earlier year than the
    other record. *)
Definition unknown_month_table : DataFrame :=
  table ["Unit Holder ID"; "Year"; "Month"]
    [[VStr "A1"; VInt 2021; VStr "Jan"]; [VStr "A1"; VInt 2020; VStr "13th"]].

(** One record stored under the identifier "123". *)
Definition stored_123_table : DataFrame :=
  table ["Unit Holder ID"; "Year"; "Month"] [[VStr "123"; VInt 2021; VStr "Jan"]].

(** An identifier column of whole numbers with an empty cell, which pandas
    reads as a column of floats. *)
Definition float_id_table : DataFrame :=
  table ["Unit Holder ID"; "Year"; "Month"]
    [[VFloat 123; VInt 2021; VStr "Jan"]; [VNaN; VInt 2021; VStr "Feb"]].

(** One record whose identifier is stored with surrounding blanks, and the
    same record stored without them. *)
Definition padded_id_table : DataFrame :=
  table ["Unit Holder ID"; "Year"; "Month"] [[VStr " A12 "; VInt 2021; VStr "Jan"]].

Definition plain_id_table : DataFrame :=
  table ["Unit Holder ID"; "Year"; "Month"] [[VStr "A12"; VInt 2021; VStr "Jan"]].

(** Withdrawals as a file can hold them: positive, zero, negative, missing
    and not a number. *)
Definition withdrawals_table : DataFrame :=
  table ["Unit Holder ID"; "Year"; "Month"; "Withdrawals"]
    [[VStr "W1"; VInt 2021; VStr "Jan"; VInt 100];
     [VStr "W2"; VInt 2021; VStr "Feb"; VInt 0];
     [VStr "W3"; VInt 2021; VStr "Mar"; VFloat (-101 # 2)];
     [VStr "W4"; VInt 2021; VStr "Apr"; VNaN];
     [VStr "W5"; VInt 2021; VStr "May"; VStr "none"]].

(** Birth dates around the sixtieth birthday on 2024-06-14, a missing one
    and an unreadable one. *)
Definition birthdays_table : DataFrame :=
  table ["Unit Holder ID"; "DOB"]
    [[VStr "R1"; VStr "1950-01-01"];
     [VStr "R2"; VStr "2000-06-15"];
     [VStr "R3"; VNaN];
     [VStr "R4"; VStr "unknown"];
     [VStr "R5"; VStr "1964-06-14"];
     [VStr "R6"; VStr "1964-06-15"]].

(** A file with its header line and no record. *)
Definition header_only_table : DataFrame :=
  table ["Unit Holder ID"; "Year"; "Month"; "Withdrawals"; "DOB"] [].

(** The cells of every row under the given columns. *)
Definition project (cols : list string) (df : DataFrame) : list (list Value) :=
  (fun r => cell r <$> cols) <$> rows df.

(** ** Vocabulary of the statements *)

Definition row_le (a b : Row) : Prop := period_leb (period a) (period b) = true.

(** Sorted ascending by (year, month rank): every row is below every later
    row. *)
Definition ascending (l : list Row) : Prop := StronglySorted row_le l.

(** No key column holds both numbers and timestamps, so that ranking it does
    not raise. *)
Definition sortable (l : list Row) : Prop :=
  column_sortable "Year" l = true /\ column_sortable "Month_numeric" l = true.

(** The year, or the month rank, of a row is missing. *)
Definition null_year (r : Row) : Prop := (period r).1 = KNull.
Definition null_month (r : Row) : Prop := (period r).2 = KNull.
Definition same_year (a b : Row) : Prop :=
  key_leb (period a).1 (period b).1 = true /\ key_leb (period b).1 (period a).1 = true.

(** The withdrawals amount of a record of a table: the number in its
    ['Withdrawals'] cell, and zero when the table has no such column or the
    cell holds no number. *)
Definition withdrawals_of (df : DataFrame) (r : Row) : Q :=
  if has_column "Withdrawals" df then
    match cell r "Withdrawals" with
    | VInt n => inject_Z n
    | VFloat q => q
    | _ => 0%Q
    end
  else 0%Q.

Definition is_number (v : Value) : Prop := exists x, v = number_value x.

(** No cell of a key column is a number while another is a timestamp. *)
Definition kinds_agree (c : string) (l : list Row) : Prop :=
  forall r1 r2, r1 ∈ l -> r2 ∈ l ->
    key_kind (key_of (cell r1 c)) = 0%nat ->
    key_kind (key_of (cell r2 c)) ≠ 1%nat.

(** The table [d'] has the cells of [d] under column [c], row by row. *)
Definition keeps (c : string) (d d' : DataFrame) : Prop :=
  has_column c d' = has_column c d
  /\ Forall2 (fun r r' : Row => cell r' c = cell r c) (rows d) (rows d').

(** Missing keys come last within their level: no year after a missing
    year, and within one year no month rank after a missing month rank. *)
Definition nulls_last (l : list Row) : Prop :=
  forall l1 a l2 b l3, l = (l1 ++ a :: l2 ++ b :: l3)%list ->
    (null_year a -> null_year b) /\ (same_year a b -> null_month a -> null_month b).

Definition chronological (l : list Row) : Prop := ascending l /\ nulls_last l.

(** The placement the specification words: a row without year or without month rank
    is followed only by such rows. *)
Definition nulls_after_all (l : list Row) : Prop :=
  forall l1 a l2 b l3, l = (l1 ++ a :: l2 ++ b :: l3)%list ->
    null_year a \/ null_month a -> null_year b \/ null_month b.

(** A row lacks its year or its month rank. *)
Definition has_null (r : Row) : bool :=
  match (period r).1, (period r).2 with
  | KNull, _ | _, KNull => true
  | _, _ => false
  end.

(** A text of white space only, and a text with white space around it. *)
Fixpoint all_space (s : string) : bool :=
  match s with
  | String a s' => PyStr.is_space a && all_space s'
  | EmptyString => true
  end.

Definition padded (core s : string) : Prop :=
  exists pre post, all_space pre = true /\ all_space post = true
    /\ s = pre +:+ core +:+ post.

(** A character of the decimal form of an integer: a digit or the sign. *)
Definition numeral_char (a : Ascii.ascii) : bool :=
  let n := Ascii.N_of_ascii a in
  ((48 <=? n) && (n <=? 57) || (n =? 45))%N.

Fixpoint all_numeral (s : string) : bool :=
  match s with
  | String a s' => numeral_char a && all_numeral s'
  | EmptyString => true
  end.

Section Vocabulary.
Context `{Runtime}.

(** A stored row whose identifier has the trimmed string form of the query. *)
Definition matches (unit_holder_id : Value) (r : Row) : Prop :=
  str_strip (astype_str (cell r "Unit Holder ID"))
  = VStr (PyStr.strip (py_str unit_holder_id)).

#[global] Instance matches_dec uid r : Decision (matches uid r).
Proof. unfold matches. apply _. Defined.

(** The row as the lookup returns it, its identifier in trimmed string form. *)
Definition trimmed_id (r : Row) : Row :=
  <["Unit Holder ID" := str_strip (astype_str (cell r "Unit Holder ID"))]> r.

(** The matching rows, in the order of the table, identifier trimmed. *)
Definition matching_rows (df : DataFrame) (unit_holder_id : Value) : list Row :=
  trimmed_id <$> List.filter (fun r => bool_decide (matches unit_holder_id r)) (rows df).

(** The row with its computed age. *)
Definition with_age (r : Row) : Row :=
  <["Age" := calculate_age (cell r "birth_date")]> r.

(** The record as [get_withdrawal_records] returns it: the age is added when
    the table has a ['birth_date'] column. *)
Definition withdrawal_view (df : DataFrame) (r : Row) : Row :=
  if has_column "birth_date" df then with_age r else r.

(** The rows [get_withdrawal_records] keeps, in the order of the table. *)
Definition withdrawal_rows (df : DataFrame) : list Row :=
  withdrawal_view df
    <$> List.filter (fun r => ne_zero (cell r "Withdrawals")) (rows df).

(** The age test of [get_retiree_records] on one row. *)
Definition is_retiree (r : Row) : bool :=
  match calculate_age (cell r "birth_date") with
  | VInt n => 60 <=? n
  | _ => false
  end.

(** The rows [get_retiree_records] keeps, in the order of the table. *)
Definition retiree_rows (df : DataFrame) : list Row :=
  with_age <$> List.filter is_retiree (rows df).

(** The reason given for an input that is too short. *)
Definition too_short_reason (s : string) : string :=
  "Unit Holder ID seems too short (currently "
  +:+ pretty (PyStr.len (PyStr.strip s)) +:+ " characters)".

(** The exact calendar age on the reference date. *)
Definition calendar_age (reference birth : Date) : Z :=
  year reference - year birth
  - (if bool_decide (month reference < month birth
                     \/ (month reference = month birth /\ day reference < day birth))
     then 1 else 0).

End Vocabulary.

(** ** The rest of the program: file choice, sidebar, tab filters *)

(** [s.endswith(suffix)] *)
Definition endswith (suffix s : string) : bool :=
  (String.length suffix <=? String.length s)%nat
  && bool_decide
       (String.substring (String.length s - String.length suffix)
          (String.length suffix) s = suffix).

(** Lines 78-79 of [load_data]: the names of the directory that end in
    [.csv], in the order of the listing. *)
Definition csv_files (listing : list string) : list string :=
  List.filter (endswith ".csv") listing.

(** Lines 80-88: no file, or [Combined.csv] when it is there, or the first
    one. *)
Definition file_to_use (listing : list string) : option string :=
  match csv_files listing with
  | [] => None
  | first :: _ =>
      Some (if bool_decide ("Combined.csv" ∈ csv_files listing)
            then "Combined.csv" else first)
  end.

Section WholeLoader.
Context `{Runtime}.

(** [load_data] as a whole, given what [os.listdir('.')] and [pd.read_csv]
    answer; a file that cannot be read, like an exception of the
    normalisation, ends in the [except] clause. *)
Definition load_data_from (listing : list string)
    (read_csv : string -> option DataFrame) : DataFrame * string :=
  match file_to_use listing with
  | None => (empty_frame, "")
  | Some file =>
      match read_csv file ≫= normalize with
      | Some df => (df, file)
      | None => (empty_frame, "")
      end
  end.

End WholeLoader.

(** ** Vocabulary of the further statements *)

(** Two rows of one period: the sort ranks neither before the other. *)
Definition same_period (a b : Row) : bool :=
  period_leb (period a) (period b) && period_leb (period b) (period a).

(** The order of the calendar on dates. *)
Definition date_le (a b : Date) : Prop :=
  year a < year b
  \/ (year a = year b
      /\ (month a < month b \/ (month a = month b /\ day a <= day b))).

Definition date_lt (a b : Date) : Prop :=
  year a < year b
  \/ (year a = year b
      /\ (month a < month b \/ (month a = month b /\ day a < day b))).

(** The English month names, by rank. *)
Definition month_names : list (Z * string) :=
  [(1, "january"); (2, "february"); (3, "march"); (4, "april"); (5, "may");
   (6, "june"); (7, "july"); (8, "august"); (9, "september"); (10, "october");
   (11, "november"); (12, "december")].

(** A label names the month: in full, or by its first three letters. *)
Definition names_month (label : string) (n : Z) : Prop :=
  exists name, (n, name) ∈ month_names
    /\ (label = name \/ label = String.substring 0 3 name).

(** ** The rows the loader returns *)

(** The columns after [df[c] = ...]. *)
Definition add_column (c : string) (cols : list string) : list string :=
  if bool_decide (c ∈ cols) then cols else (cols ++ [c])%list.

(** The column [load_data] reads the birth dates from: the first name of
    [date_columns] that the file has. *)
Definition birth_column (raw : DataFrame) : option string :=
  head (List.filter (fun c => has_column c raw) date_columns).

(** The columns of the loaded table. *)
Definition loaded_columns (raw : DataFrame) : list string :=
  let cols := columns raw in
  let cols := match birth_column raw with
              | Some _ => add_column "birth_date" cols
              | None => cols
              end in
  if has_column "Month" raw
  then add_column "Month_numeric" (add_column "Month_original" cols)
  else cols.

Section LoaderRows.
Context `{Runtime}.

(** What [load_data] has done to the row at position [i] of the file when it
    sorts; the birth date is the one the parsed date column has at that
    position. *)
Definition sorted_row (raw : DataFrame) (i : nat) (r : Row) : Row :=
  let r : Row :=
    if has_column "Social Security #" raw
    then <["Social Security #" := str_strip (astype_str (cell r "Social Security #"))]> r
    else r in
  let r : Row :=
    match birth_column raw with
    | Some c => <["birth_date" := parsed_date c raw i]> (<[c := parsed_date c raw i]> r)
    | None => r
    end in
  let r : Row :=
    if has_column "Year" raw then <["Year" := to_numeric (cell r "Year")]> r
    else r in
  if has_column "Month" raw
  then <["Month_numeric" := month_rank (cell r "Month")]>
         (<["Month_original" := astype_str (cell r "Month")]> r)
  else r.

(** What [load_data] does to the row at position [i] of the file. *)
Definition loaded_row (raw : DataFrame) (i : nat) (r : Row) : Row :=
  let r := sorted_row raw i r in
  if has_column "Withdrawals" raw
  then <["Withdrawals" := fillna_zero (to_numeric (cell r "Withdrawals"))]> r
  else r.

(** The rows of the file as [load_data] cleans them, in the order of the
    file. *)
Definition loaded_rows (raw : DataFrame) : list Row :=
  imap (loaded_row raw) (rows raw).

End LoaderRows.

(** A table that brings its own month ranks, a text and a number, and has
    no month column. *)
Definition mixed_rank_table : DataFrame :=
  table ["Unit Holder ID"; "Year"; "Month_numeric"]
    [[VStr "A1"; VInt 2021; VStr "Feb"]; [VStr "A2"; VInt 2021; VInt 1]].

(** ** The page: [main] *)

(** [df.empty]: one of the two axes has length zero. *)
Definition df_empty (df : DataFrame) : bool :=
  (length (columns df) =? 0)%nat || (length (rows df) =? 0)%nat.

Section Sidebar.
Context `{Runtime}.

(** Lines 591-595 of [main]: whether the page stops at "No data available". *)
Definition main_stops (listing : list string)
    (read_csv : string -> option DataFrame) : bool :=
  df_empty (load_data_from listing read_csv).1.

(** Lines 611-613: the "Withdrawal Records" metric; [None] when it is not
    shown. *)
Definition withdrawal_count (df : DataFrame) : option nat :=
  if has_column "Withdrawals" df
  then Some (length (rows (select (fun r => ne_zero (cell r "Withdrawals")) df)))
  else None.

(** Lines 616-622: the "Retirees (60+)" metric; the outer [None] is an
    exception, the inner one a metric that is not shown. *)
Definition retiree_count (df : DataFrame) : option (option nat) :=
  if has_column "birth_date" df then
    let df_temp := df in
    let df_temp := assign_apply "Age" "birth_date" calculate_age df_temp in
    let numeric_ages :=
      select (fun r => negb (bool_decide (cell r "Age" = VStr "N/A"))) df_temp in
    retirees ← select_ge "Age" 60 numeric_ages;
    Some (Some (length (rows retirees)))
  else Some None.

End Sidebar.

(** A file whose only record has no month. *)
Definition missing_month_table : DataFrame :=
  table ["Unit Holder ID"; "Year"; "Month"] [[VStr "A12"; VInt 2021; VNaN]].

(** ** The filters and the listings of the tabs *)

(** [series > 0], [series < 0], [series <= k] and [abs(series) >= m], cell by
    cell, with the conventions of [ge_int]. *)
Definition gt_zero (v : Value) : option bool :=
  match v with
  | VInt n => Some (0 <? n)
  | VFloat q => Some (negb (Qle_bool q 0))
  | VNaN => Some false
  | VStr _ | VTimestamp _ | VNaT => None
  end.

Definition lt_zero (v : Value) : option bool :=
  match v with
  | VInt n => Some (n <? 0)
  | VFloat q => Some (negb (Qle_bool 0 q))
  | VNaN => Some false
  | VStr _ | VTimestamp _ | VNaT => None
  end.

Definition le_int (v : Value) (k : Z) : option bool :=
  match v with
  | VInt n => Some (n <=? k)
  | VFloat q => Some (Qle_bool q (inject_Z k))
  | VNaN => Some false
  | VStr _ | VTimestamp _ | VNaT => None
  end.

Definition abs_ge (v : Value) (m : Q) : option bool :=
  match v with
  | VInt n => Some (Qle_bool m (Qabs (inject_Z n)))
  | VFloat q => Some (Qle_bool m (Qabs q))
  | VNaN => Some false
  | VStr _ | VTimestamp _ | VNaT => None
  end.

(** [s.replace(old, new)] for a non-empty [old]: the occurrences are replaced
    from the left, [skip] counting the characters of an occurrence still to
    be dropped. *)
Fixpoint replace_from (old new : string) (skip : nat) (s : string) : string :=
  match s with
  | EmptyString => EmptyString
  | String a s' =>
      match skip with
      | S k => replace_from old new k s'
      | O =>
          if String.prefix old s
          then new +:+ replace_from old new (String.length old - 1) s'
          else String a (replace_from old new 0 s')
      end
  end.

Definition str_replace (old new s : string) : string := replace_from old new 0 s.

(** One cell of the mask of [Series.str.contains(..., na=False)]: a missing
    cell is not a match. *)
Definition found_in (found : string -> bool) (v : Value) : bool :=
  match v with VStr s => found s | _ => false end.

(** The choices of the "Withdrawal Type" box. *)
Inductive WithdrawalType := AllTypes | PositiveOnly | NegativeOnly.

(** What a tab shows under "Results". *)
Inductive TabResults :=
| NoMatch
| Listed (count : nat) (shown exported : DataFrame).

Section TabBlocks.
Context `{Runtime}.

(** [Series.str.contains(pat, case=False, na=False)]: the pattern is compiled
    as a regular expression, which raises when it is not one ([None]), and
    searched for in each cell. *)
Variable str_contains : string -> option (string -> bool).

(** Lines 460-463 and 540-543: the search box of a tab. *)
Definition search_holder (unit_holder_search : string)
    (filtered_records : DataFrame) : option DataFrame :=
  if bool_decide (unit_holder_search = "") then Some filtered_records
  else if has_column "Unit Holder ID" filtered_records then
    found ← str_contains unit_holder_search;
    Some (select (fun r => found_in found (astype_str (cell r "Unit Holder ID")))
            filtered_records)
  else None.

(** [df[p(df[c])]]: a [KeyError] without the column. *)
Definition select_on (c : string) (p : Value -> option bool) (df : DataFrame)
  : option DataFrame :=
  if has_column c df then selectM (fun r => p (cell r c)) df else None.

(** Lines 457-471 of [withdrawals_tab]. *)
Definition withdrawal_filters (withdrawal_records : DataFrame)
    (unit_holder_search : string) (min_amount : option Q)
    (withdrawal_type : WithdrawalType) : option DataFrame :=
  let filtered_records := withdrawal_records in
  filtered_records ← search_holder unit_holder_search filtered_records;
  filtered_records ←
    match min_amount with
    | Some m => select_on "Withdrawals" (fun v => abs_ge v m) filtered_records
    | None => Some filtered_records
    end;
  match withdrawal_type with
  | PositiveOnly => select_on "Withdrawals" gt_zero filtered_records
  | NegativeOnly => select_on "Withdrawals" lt_zero filtered_records
  | AllTypes => Some filtered_records
  end.

(** Lines 537-548 of [retirees_tab]. *)
Definition retiree_filters (retiree_records : DataFrame)
    (unit_holder_search : string) (min_age max_age : Z) : option DataFrame :=
  let filtered_records := retiree_records in
  filtered_records ← search_holder unit_holder_search filtered_records;
  select_on "Age"
    (fun v => above ← ge_int v min_age; below ← le_int v max_age;
              Some (above && below))
    filtered_records.

(** Lines 483-492 and 558-567: the table a tab displays. *)
Definition listing (display_columns : list string) (filtered_records : DataFrame)
  : option DataFrame :=
  let display_df := filtered_records in
  let display_df :=
    if has_column "Month_original" display_df
    then copy_column "Month" "Month_original" display_df
    else display_df in
  let display_columns := str_replace "Month_original" "Month" <$> display_columns in
  getitem_columns display_columns display_df.

(** Lines 478-480. *)
Definition withdrawals_display_columns (filtered_records : DataFrame) : list string :=
  let display_columns :=
    ["Contributor Name"; "Unit Holder ID"; "Withdrawals"; "Year"; "Month_original"] in
  if has_column "Age" filtered_records
  then (display_columns ++ ["Age"])%list else display_columns.

(** Line 555. *)
Definition retirees_display_columns : list string :=
  ["Contributor Name"; "Unit Holder ID"; "Age"; "birth_date"; "Year"; "Month_original"].

(** Lines 473-509 and 550-584: the listing and the export of the filtered
    records. *)
Definition tab_results (df : DataFrame) (display_columns : list string)
    (filtered_records : DataFrame) : option TabResults :=
  if (0 <? length (rows filtered_records))%nat then
    shown ← listing display_columns filtered_records;
    export_data ← export_frame df filtered_records;
    Some (Listed (length (rows filtered_records)) shown export_data)
  else Some NoMatch.

(** [withdrawals_tab] from line 457 on, given the records of line 433. *)
Definition withdrawals_results (df withdrawal_records : DataFrame)
    (unit_holder_search : string) (min_amount : option Q)
    (withdrawal_type : WithdrawalType) : option TabResults :=
  filtered_records ←
    withdrawal_filters withdrawal_records unit_holder_search min_amount
      withdrawal_type;
  tab_results df (withdrawals_display_columns filtered_records) filtered_records.

(** [retirees_tab] from line 537 on, given the records of line 515. *)
Definition retirees_results (df retiree_records : DataFrame)
    (unit_holder_search : string) (min_age max_age : Z) : option TabResults :=
  filtered_records ←
    retiree_filters retiree_records unit_holder_search min_age max_age;
  tab_results df retirees_display_columns filtered_records.

End TabBlocks.

(** A matcher to execute the model: on a pattern of letters, digits and
    blanks, which a regular expression reads literally, it searches the cell
    for the pattern without regard to case; on any other pattern it reports
    a failure. *)
Definition plain_char (a : Ascii.ascii) : bool :=
  let n := Ascii.N_of_ascii a in
  ((48 <=? n) && (n <=? 57) || (65 <=? n) && (n <=? 90)
   || (97 <=? n) && (n <=? 122) || (n =? 32))%N.

Fixpoint all_plain (s : string) : bool :=
  match s with
  | String a s' => plain_char a && all_plain s'
  | EmptyString => true
  end.

Definition literal_contains (pattern : string) : option (string -> bool) :=
  if all_plain pattern
  then Some (fun s =>
               bool_decide (is_Some (String.index 0 (PyStr.lower pattern)
                                       (PyStr.lower s))))
  else None.

(** A file with every column the tabs name: a retiree with a withdrawal, a
    member whose recorded birth year makes them older than 120 with a
    negative adjustment, and a young member without withdrawal. *)
Definition members_table : DataFrame :=
  table ["Contributor Name"; "Unit Holder ID"; "Year"; "Month"; "Withdrawals"; "DOB"]
    [[VStr "Ama"; VStr "M1"; VInt 2021; VStr "Jan"; VInt 100; VStr "1950-01-01"];
     [VStr "Kofi"; VStr "M2"; VInt 2021; VStr "Feb"; VFloat (-101 # 2); VStr "1900-03-01"];
     [VStr "Esi"; VStr "M3"; VInt 2021; VStr "Mar"; VInt 0; VStr "2000-06-15"]].

(** Withdrawal records as the tab filters them. *)
Definition amounts_table : DataFrame :=
  table ["Unit Holder ID"; "Withdrawals"]
    [[VStr "W1"; VInt 100]; [VStr "W3"; VFloat (-101 # 2)]; [VStr "W10"; VInt 20]].

(** Retiree records as the tab filters them. *)
Definition ages_table : DataFrame :=
  table ["Unit Holder ID"; "Age"]
    [[VStr "R1"; VInt 74]; [VStr "R7"; VInt 124]; [VStr "R5"; VInt 60]].

(** ** The record card: [display_record] *)

Section RecordCard.
Context `{Runtime}.

(** [{record[c].iloc[0] if c in record.columns else 'N/A'}] in an f-string;
    [iloc[0]] raises on a table without rows. *)
Definition shown (c : string) (record : DataFrame) : option string :=
  if has_column c record
  then r ← head (rows record); Some (py_str (cell r c))
  else Some "N/A".

(** [{record[c].iloc[0] if c in record.columns and not pd.isna(record[c].iloc[0]) else 'N/A'}] *)
Definition shown_unless_missing (c : string) (record : DataFrame) : option string :=
  if has_column c record
  then r ← head (rows record);
       Some (if isna (cell r c) then "N/A" else py_str (cell r c))
  else Some "N/A".

(** Lines 254-300 of [display_record]: the lines of the card, each with its
    label.  The inner [None] of [birth_date] is Python's [None], which
    [pd.isna] takes for missing. *)
Definition display_record (record : DataFrame) : option (list (string * string)) :=
  name ← shown "Contributor Name" record;
  unit_holder ← shown "Unit Holder ID" record;
  ssnit ← shown "Social Security #" record;
  birth_date ← (if has_column "birth_date" record
                then r ← head (rows record); Some (Some (cell r "birth_date"))
                else Some None);
  let age :=
    match birth_date with
    | Some v => calculate_age v
    | None => VStr "N/A"
    end in
  let date_of_birth :=
    match birth_date with
    | Some v => if isna v then "N/A" else py_str v
    | None => "N/A"
    end in
  address ← shown_unless_missing "Address" record;
  year ← shown "Year" record;
  month ← shown_unless_missing "Month_original" record;
  employer ← shown_unless_missing "Employer Code" record;
  scheme ← shown_unless_missing "Scheme Code" record;
  begin_bal ← shown_unless_missing "Begin Bal" record;
  end_bal ← shown_unless_missing "End Bal" record;
  withdrawals ← shown_unless_missing "Withdrawals" record;
  contribution ← shown_unless_missing "Contribution" record;
  app_contribute ← shown_unless_missing "App Contribute" record;
  misc ← shown_unless_missing "Misc Contri." record;
  Some [("Name", name); ("Unit Holder ID", unit_holder); ("SSNIT Number", ssnit);
        ("Date of Birth", date_of_birth); ("Age", py_str age);
        ("Address", address); ("Year", year); ("Month", month);
        ("Employer Code", employer); ("Scheme Code", scheme);
        ("Begin Balance", begin_bal); ("End Balance", end_bal);
        ("Withdrawals", withdrawals); ("Contribution", contribution);
        ("App Contribute", app_contribute); ("Misc Contri.", misc)].

End RecordCard.
(** * Properties *)

(** ** Order on keys *)

Lemma string_leb_trans a b c :
  String.leb a b = true -> String.leb b c = true -> String.leb a c = true.
Proof.
  unfold String.leb. revert b c.
  induction a as [|x a IH]; intros [|y b] [|z c]; simpl; try done.
  unfold Ascii.compare.
  destruct (N.compare_spec (Ascii.N_of_ascii x) (Ascii.N_of_ascii y)) as [Exy|Lxy|Gxy];
    destruct (N.compare_spec (Ascii.N_of_ascii y) (Ascii.N_of_ascii z)) as [Eyz|Lyz|Gyz];
    try done.
  - rewrite Exy, Eyz, N.compare_refl. apply IH.
  - intros _ _. rewrite Exy. by apply N.compare_lt_iff in Lyz as ->.
  - intros _ _. rewrite <- Eyz. by apply N.compare_lt_iff in Lxy as ->.
  - intros _ _.
    assert (Ascii.N_of_ascii x < Ascii.N_of_ascii z)%N as Hlt by lia.
    by apply N.compare_lt_iff in Hlt as ->.
Qed.

Lemma string_leb_total a b : String.leb a b = false -> String.leb b a = true.
Proof. destruct (String.leb_total a b) as [->| ->]; done. Qed.

Lemma key_leb_total a b : key_leb a b = false -> key_leb b a = true.
Proof.
  destruct a, b; simpl; try done.
  - intros Hf. apply Qle_bool_iff, Qlt_le_weak, Qnot_le_lt.
    intros Hle. apply Qle_bool_iff in Hle. congruence.
  - apply string_leb_total.
  - intros Hf. apply Z.leb_gt in Hf. apply Z.leb_le. lia.
Qed.

Lemma key_leb_trans a b c :
  key_leb a b = true -> key_leb b c = true -> key_leb a c = true.
Proof.
  destruct a, b, c; simpl; try done.
  - rewrite !Qle_bool_iff. apply Qle_trans.
  - apply string_leb_trans.
  - rewrite !Z.leb_le. lia.
Qed.

Lemma period_leb_total a b : period_leb a b = false -> period_leb b a = true.
Proof.
  unfold period_leb.
  destruct (key_leb a.1 b.1) eqn:E1, (key_leb b.1 a.1) eqn:E2; try done.
  - apply key_leb_total.
  - apply key_leb_total in E1. congruence.
Qed.

Lemma period_leb_trans a b c :
  period_leb a b = true -> period_leb b c = true -> period_leb a c = true.
Proof.
  unfold period_leb.
  destruct (key_leb a.1 b.1) eqn:Eab; [|done].
  destruct (key_leb b.1 c.1) eqn:Ebc; [|by destruct (key_leb b.1 a.1)].
  rewrite (key_leb_trans _ _ _ Eab Ebc).
  destruct (key_leb c.1 a.1) eqn:Eca; [|done].
  rewrite (key_leb_trans _ _ _ Ebc Eca), (key_leb_trans _ _ _ Eca Eab).
  apply key_leb_trans.
Qed.

Lemma row_le_trans a b c : row_le a b -> row_le b c -> row_le a c.
Proof. apply period_leb_trans. Qed.

Lemma row_le_total a b : ~ row_le a b -> row_le b a.
Proof.
  unfold row_le. intros Hn. apply period_leb_total.
  by destruct (period_leb (period a) (period b)).
Qed.

(** ** The stable sort *)

Lemma insert_row_perm r l : insert_row r l ≡ₚ r :: l.
Proof.
  induction l as [|x l IH]; simpl; [done|].
  destruct (period_leb (period r) (period x)); [done|].
  rewrite IH. apply Permutation_swap.
Qed.

Lemma stable_sort_perm l : stable_sort l ≡ₚ l.
Proof.
  induction l as [|x l IH]; simpl; [done|].
  by rewrite insert_row_perm, IH.
Qed.

Lemma elem_of_stable_sort r l : r ∈ stable_sort l <-> r ∈ l.
Proof. by rewrite stable_sort_perm. Qed.

Lemma insert_row_ascending r l : ascending l -> ascending (insert_row r l).
Proof.
  unfold ascending. induction l as [|x l IH]; simpl; intros Hs.
  - repeat constructor.
  - apply StronglySorted_inv in Hs as [Hl Hx].
    destruct (period_leb (period r) (period x)) eqn:E.
    + constructor; [by constructor|]. constructor; [done|].
      eapply Forall_impl; [exact Hx|]. intros y Hy. by apply row_le_trans with x.
    + constructor; [by apply IH|].
      rewrite insert_row_perm. constructor; [|done].
      apply row_le_total. unfold row_le. congruence.
Qed.

Lemma stable_sort_ascending l : ascending (stable_sort l).
Proof.
  induction l as [|x l IH]; simpl; [constructor|]. by apply insert_row_ascending.
Qed.

(** Sorting a list that is already in order changes nothing. *)
Lemma stable_sort_fixed l : ascending l -> stable_sort l = l.
Proof.
  unfold ascending. induction l as [|x l IH]; simpl; [done|]. intros Hs.
  apply StronglySorted_inv in Hs as [Hl Hx]. rewrite (IH Hl).
  destruct l as [|y l]; simpl; [done|].
  apply Forall_inv in Hx. unfold row_le in Hx. by rewrite Hx.
Qed.

Lemma ascending_filter p l : ascending l -> ascending (List.filter p l).
Proof.
  unfold ascending. induction l as [|x l IH]; simpl; [done|]. intros Hs.
  apply StronglySorted_inv in Hs as [Hl Hx].
  destruct (p x); [|by apply IH].
  constructor; [by apply IH|].
  apply Forall_forall. intros y Hy%list_elem_of_In%filter_In.
  destruct Hy as [Hy _]. rewrite Forall_forall in Hx. by apply Hx, list_elem_of_In.
Qed.

Lemma ascending_fmap (g : Row -> Row) l :
  (forall r, period (g r) = period r) -> ascending l -> ascending (g <$> l).
Proof.
  unfold ascending. intros Hg. induction 1 as [|x l Hl IH Hx]; simpl; constructor; [done|].
  apply Forall_fmap. eapply Forall_impl; [exact Hx|].
  intros y Hy. unfold row_le. simpl. by rewrite !Hg.
Qed.

(** In an ascending list a row without year is followed only by rows without
    year, and among rows of one year a row without month rank is followed
    only by rows without month rank. *)
Lemma ascending_nulls_last l1 a l2 b l3 :
  ascending (l1 ++ a :: l2 ++ b :: l3) ->
  (null_year a -> null_year b)
  /\ (same_year a b -> null_month a -> null_month b).
Proof.
  unfold ascending. intros Hs.
  apply StronglySorted_app in Hs as (_ & _ & Hs).
  apply StronglySorted_inv in Hs as [_ Ha].
  rewrite Forall_app, Forall_cons in Ha. destruct Ha as (_ & Hab & _).
  unfold row_le, period_leb, null_year, null_month, same_year in *.
  split.
  - intros Hn. rewrite Hn in Hab. by destruct ((period b).1).
  - intros [H1 H2] Hn. rewrite H1, H2, Hn in Hab. by destruct ((period b).2).
Qed.

Lemma ascending_is_ascending l : ascending l -> is_ascending l = true.
Proof.
  unfold ascending. induction 1 as [|a l Hl IH Ha]; [done|].
  destruct l as [|b l]; [done|]. simpl in *. rewrite IH.
  apply Forall_inv in Ha. unfold row_le in Ha. by rewrite Ha.
Qed.

(** ** When ranking a key column does not raise *)

Lemma existsb_kind c l k :
  existsb (Nat.eqb k) ((fun r : Row => key_kind (key_of (cell r c))) <$> l) = true
  <-> exists r, r ∈ l /\ key_kind (key_of (cell r c)) = k.
Proof.
  rewrite existsb_exists. split.
  - intros (x & Hx & E). apply Nat.eqb_eq in E as <-.
    apply list_elem_of_In, list_elem_of_fmap in Hx as (r & E & Hr). eauto.
  - intros (r & Hr & E). exists k. split; [|by apply Nat.eqb_eq].
    apply list_elem_of_In, list_elem_of_fmap. eauto.
Qed.

Lemma column_sortable_spec c l : column_sortable c l = true <-> kinds_agree c l.
Proof.
  unfold column_sortable, kinds_agree. cbv zeta.
  rewrite negb_true_iff, andb_false_iff, <- !not_true_iff_false, !existsb_kind.
  split.
  - intros Hno r1 r2 H1 H2 E1 E2. destruct Hno as [Hno|Hno]; apply Hno; eauto.
  - intros Hall.
    destruct (existsb (Nat.eqb 0) ((fun r : Row => key_kind (key_of (cell r c))) <$> l))
      eqn:E.
    + apply existsb_kind in E as (r1 & H1 & E1). right.
      intros (r2 & H2 & E2). by apply (Hall r1 r2).
    + left. intros Hx. apply existsb_kind in Hx. congruence.
Qed.

(** Rows drawn from a sortable list, with their keys, are sortable. *)
Lemma sortable_sub l l' :
  (forall r', r' ∈ l' -> exists r, r ∈ l /\ period r' = period r) ->
  sortable l -> sortable l'.
Proof.
  unfold sortable. rewrite !column_sortable_spec. intros Hsub [HY HM].
  split; intros r1 r2 H1 H2;
    destruct (Hsub _ H1) as (s1 & Hs1 & [= E1y E1m]),
             (Hsub _ H2) as (s2 & Hs2 & [= E2y E2m]).
  - rewrite E1y, E2y. by apply HY.
  - rewrite E1m, E2m. by apply HM.
Qed.

(** Numbers and texts in one key column do not keep it from being ranked. *)
Lemma kinds_agree_no_timestamp c l :
  (forall r, r ∈ l -> key_kind (key_of (cell r c)) ≠ 1%nat) -> kinds_agree c l.
Proof. intros Hl r1 r2 _ H2 _. by apply Hl. Qed.


Lemma sortable_nil : sortable [].
Proof. done. Qed.

Lemma sort_values_sortable df :
  sortable (rows df) ->
  sort_values df = Some (mkFrame (columns df) (stable_sort (rows df)) (datetimes df)).
Proof. unfold sort_values. by intros [-> ->]. Qed.

Lemma sort_values_Some df df' :
  sort_values df = Some df' ->
  sortable (rows df)
  /\ df' = mkFrame (columns df) (stable_sort (rows df)) (datetimes df).
Proof.
  unfold sort_values, sortable.
  destruct (column_sortable "Year" (rows df)), (column_sortable "Month_numeric" (rows df));
    simpl; intros [= <-]; done.
Qed.

(** The guarded sort keeps the columns and permutes the rows; with both key
    columns present its result is in ascending order. *)
Lemma sort_chronologically_Some df df' :
  sort_chronologically df = Some df' ->
  columns df' = columns df
  /\ rows df' ≡ₚ rows df
  /\ rows df' = (if has_period_columns df then stable_sort (rows df) else rows df).
Proof.
  unfold sort_chronologically. destruct (has_period_columns df).
  - intros [_ ->]%sort_values_Some. simpl. split_and!; [done| |done].
    apply stable_sort_perm.
  - by intros [= <-].
Qed.

Lemma sort_chronologically_total df :
  (has_period_columns df = true -> sortable (rows df)) ->
  sort_chronologically df
  = Some (if has_period_columns df
          then mkFrame (columns df) (stable_sort (rows df)) (datetimes df) else df).
Proof.
  unfold sort_chronologically. destruct (has_period_columns df); [|done].
  intros Hs. by apply sort_values_sortable, Hs.
Qed.

(** ** Cells and column assignment *)

Lemma cell_insert_eq (r : Row) c v : cell (<[c := v]> r) c = v.
Proof. unfold cell. by rewrite lookup_insert_eq. Qed.

Lemma cell_insert_ne (r : Row) c c' v : c ≠ c' -> cell (<[c := v]> r) c' = cell r c'.
Proof. intros Hne. unfold cell. by rewrite lookup_insert_ne. Qed.

Lemma period_insert (r : Row) c v :
  c ≠ "Year" -> c ≠ "Month_numeric" -> period (<[c := v]> r) = period r.
Proof. intros H1 H2. unfold period. by rewrite !cell_insert_ne. Qed.

Lemma has_column_assign c c' f df :
  has_column c' (assign c f df) = has_column c' df || bool_decide (c' = c).
Proof.
  unfold assign, has_column. simpl.
  destruct (bool_decide (c ∈ columns df)) eqn:Ec.
  - apply bool_decide_eq_true in Ec.
    destruct (bool_decide (c' = c)) eqn:E; [|by rewrite orb_false_r].
    apply bool_decide_eq_true in E as ->. rewrite orb_true_r.
    by apply bool_decide_eq_true_2.
  - apply eq_true_iff_eq. rewrite orb_true_iff, !bool_decide_eq_true.
    rewrite elem_of_app, list_elem_of_singleton. tauto.
Qed.

Lemma has_period_columns_assign c f df :
  c ≠ "Year" -> c ≠ "Month_numeric" ->
  has_period_columns (assign c f df) = has_period_columns df.
Proof.
  intros H1 H2. unfold has_period_columns. rewrite !has_column_assign.
  rewrite !(bool_decide_eq_false_2 (_ = c)) by done. by rewrite !orb_false_r.
Qed.

(** The other ways of setting a column name the columns as [assign] does. *)
Lemma has_column_copy_column c c' src df :
  has_column c' (copy_column c src df) = has_column c' df || bool_decide (c' = c).
Proof. apply (has_column_assign c c' (fun _ => VNaN) df). Qed.

Lemma has_column_assign_apply c c' src f df :
  has_column c' (assign_apply c src f df) = has_column c' df || bool_decide (c' = c).
Proof. apply (has_column_assign c c' (fun _ => VNaN) df). Qed.

Lemma has_period_columns_assign_apply c src f df :
  c ≠ "Year" -> c ≠ "Month_numeric" ->
  has_period_columns (assign_apply c src f df) = has_period_columns df.
Proof. apply (has_period_columns_assign c (fun _ => VNaN) df). Qed.

Lemma rows_copy_column c src df :
  rows (copy_column c src df) = rows (assign c (fun r => cell r src) df).
Proof. reflexivity. Qed.

Lemma rows_assign_apply c src f df :
  rows (assign_apply c src f df) = rows (assign c (fun r => f (cell r src)) df).
Proof. reflexivity. Qed.

(** What [with_dtype] leaves in the list. *)
Lemma elem_of_with_dtype c c' (b : bool) l :
  c' ∈ with_dtype c b l <-> (c' = c /\ b = true) \/ (c' ≠ c /\ c' ∈ l).
Proof.
  unfold with_dtype.
  assert (c' ∈ List.filter (fun x => negb (bool_decide (x = c))) l <-> c' ≠ c /\ c' ∈ l)
    as Hf.
  { rewrite list_elem_of_In, filter_In, <- list_elem_of_In.
    rewrite negb_true_iff, bool_decide_eq_false. tauto. }
  destruct b.
  - rewrite elem_of_cons, Hf. split; [intros [->|?]; auto|intros [[-> _]|?]; auto].
  - rewrite Hf. split; [auto|]. by intros [[_ ?]|?].
Qed.

(** ** Age *)

Section Age.
Context `{Runtime}.

Lemma tuple_lt_spec (a b : Z * Z) :
  tuple_lt a b = bool_decide (a.1 < b.1 \/ (a.1 = b.1 /\ a.2 < b.2)).
Proof.
  unfold tuple_lt. apply eq_true_iff_eq.
  rewrite orb_true_iff, andb_true_iff, bool_decide_eq_true.
  rewrite !Z.ltb_lt, Z.eqb_eq. tauto.
Qed.

(** A timestamp gives the exact calendar age. *)
Lemma calculate_age_timestamp t :
  calculate_age (VTimestamp t) = VInt (calendar_age today (ts_date t)).
Proof. unfold calculate_age. simpl. by rewrite tuple_lt_spec. Qed.

(** So does a string that parses to a date. *)
Lemma calculate_age_parsed s t :
  to_datetime (VStr s) = DtOk t ->
  calculate_age (VStr s) = VInt (calendar_age today (ts_date t)).
Proof. intros Ht. unfold calculate_age. simpl. rewrite Ht. simpl. by rewrite tuple_lt_spec. Qed.

(** A missing value gives the sentinel. *)
Lemma calculate_age_missing v : isna v = true -> calculate_age v = VStr "N/A".
Proof. intros Hna. unfold calculate_age. by rewrite Hna. Qed.

(** A string on which the parser raises gives the sentinel. *)
Lemma calculate_age_unparseable s :
  to_datetime (VStr s) = DtRaise -> calculate_age (VStr s) = VStr "N/A".
Proof. intros Ht. unfold calculate_age. simpl. by rewrite Ht. Qed.

(** A number has no [date] method and gives the sentinel. *)
Lemma calculate_age_number x : calculate_age (number_value x) = VStr "N/A".
Proof. by destruct x. Qed.

(** The function on every scalar. *)
Lemma calculate_age_table v :
  calculate_age v
  = match v with
    | VNaN | VNaT | VInt _ | VFloat _ => VStr "N/A"
    | VTimestamp t => VInt (calendar_age today (ts_date t))
    | VStr s =>
        match to_datetime (VStr s) with
        | DtOk t => VInt (calendar_age today (ts_date t))
        | DtNaT => VNaN
        | DtRaise => VStr "N/A"
        end
    end.
Proof.
  destruct v; try done.
  - destruct (to_datetime (VStr s)) as [t| |] eqn:E.
    + by apply calculate_age_parsed.
    + unfold calculate_age. simpl. by rewrite E.
    + by apply calculate_age_unparseable.
  - apply calculate_age_timestamp.
Qed.

(** The three shapes of an age. *)
Lemma calculate_age_cases v :
  calculate_age v = VStr "N/A" \/ calculate_age v = VNaN
  \/ exists n, calculate_age v = VInt n.
Proof.
  unfold calculate_age. destruct v; simpl; eauto.
  destruct (to_datetime (VStr s)); simpl; eauto.
Qed.

(** C2, the case the function misses.  A string that [pd.to_datetime] reads
    as a missing date (the empty string, ["NaT"], ["nan"]) passes the
    [pd.isna] test as a string, is parsed to [NaT] inside the [try] block, and
    the arithmetic on the fields of [NaT] yields NaN: the function returns
    NaN, not the sentinel ["N/A"] it returns for [NaT] itself. *)
Theorem calculate_age_string_read_as_missing s :
  to_datetime (VStr s) = DtNaT ->
  calculate_age (VStr s) = VNaN /\ calculate_age VNaT = VStr "N/A".
Proof. intros Ht. unfold calculate_age. simpl. by rewrite Ht. Qed.

End Age.

Lemma calculate_age_string_read_as_missing_witness :
  @to_datetime iso_runtime (VStr "NaT") = DtNaT
  /\ @calculate_age iso_runtime (VStr "NaT") = VNaN
  /\ @calculate_age iso_runtime VNaT = VStr "N/A".
Proof.
  split; [reflexivity|].
  apply (@calculate_age_string_read_as_missing iso_runtime "NaT"). reflexivity.
Defined.

(** The boundary vectors of the specification: born 2000-06-15, the age is 23
    on 2024-06-14 and 24 on 2024-06-15, from a timestamp and from its text. *)
Example calculate_age_day_before_birthday :
  @calculate_age iso_runtime (VTimestamp (mkTimestamp (mkDate 2000 6 15) 0)) = VInt 23
  /\ @calculate_age iso_runtime (VStr "2000-06-15") = VInt 23.
Proof. split; reflexivity. Qed.

Example calculate_age_on_birthday :
  @calculate_age iso_runtime_next_day (VTimestamp (mkTimestamp (mkDate 2000 6 15) 0)) = VInt 24
  /\ @calculate_age iso_runtime_next_day (VStr "2000-06-15") = VInt 24.
Proof. split; reflexivity. Qed.

(** ** Identifier validation *)

Section Validation.
Context `{Runtime}.

(** C9.  The input is rejected exactly when it is empty or its trimmed form
    has fewer than three characters; the reason names the defect (nothing
    entered, or too short with the current length), and the tab then shows
    the reason without calling the lookup, whatever the table is.  Any other
    input is accepted, validation yields its trimmed form, and the tab calls
    the lookup with that trimmed form. *)
Theorem validate_unit_holder_id_spec (input : string) :
  (input = "" \/ PyStr.len (PyStr.strip input) < 3 ->
     validate_unit_holder_id input
     = (false, if bool_decide (input = "") then "Please enter a Unit Holder ID"
               else too_short_reason input)
     /\ forall df, input ≠ "" ->
          records_lookup_tab df input = Some (Rejected (too_short_reason input)))
  /\ (~ (input = "" \/ PyStr.len (PyStr.strip input) < 3) ->
        validate_unit_holder_id input = (true, PyStr.strip input)
        /\ forall df,
             records_lookup_tab df input
             = search_by_unit_holder_id df (VStr (PyStr.strip input))
                 ≫= show_lookup df (PyStr.strip input)).
Proof.
  unfold records_lookup_tab, validate_unit_holder_id.
  split.
  - intros Hshort. case_bool_decide as He; [done|].
    destruct Hshort as [?|Hlen]; [done|].
    apply Z.ltb_lt in Hlen. rewrite Hlen. done.
  - intros Hok. case_bool_decide as He; [tauto|].
    destruct (PyStr.len (PyStr.strip input) <? 3) eqn:E; [|done].
    apply Z.ltb_lt in E. tauto.
Qed.

End Validation.

Lemma validate_unit_holder_id_spec_witness :
  ("  ab " = "" \/ PyStr.len (PyStr.strip "  ab ") < 3)
  /\ validate_unit_holder_id "  ab "
     = (false, "Unit Holder ID seems too short (currently 2 characters)")
  /\ ~ (" abc " = "" \/ PyStr.len (PyStr.strip " abc ") < 3)
  /\ validate_unit_holder_id " abc " = (true, "abc").
Proof.
  assert (PyStr.len (PyStr.strip "  ab ") < 3) as Hshort by (vm_compute; reflexivity).
  assert (~ (" abc " = "" \/ PyStr.len (PyStr.strip " abc ") < 3)) as Hok.
  { intros [Hempty|Hlen]; [discriminate|vm_compute in Hlen; discriminate]. }
  split; [by right|]. split.
  - apply (proj1 (@validate_unit_holder_id_spec iso_runtime "  ab ")). by right.
  - split; [exact Hok|].
    apply (proj2 (@validate_unit_holder_id_spec iso_runtime " abc ") Hok).
Defined.

(** ** Identifier lookup *)

Section Lookup.
Context `{Runtime}.

Lemma filter_fmap (p : Row -> bool) (g : Row -> Row) l :
  List.filter p (g <$> l) = g <$> List.filter (fun r => p (g r)) l.
Proof.
  induction l as [|x l IH]; csimpl; [done|].
  destruct (p (g x)); csimpl; by rewrite IH.
Qed.

Lemma period_trimmed_id r : period (trimmed_id r) = period r.
Proof. by apply period_insert. Qed.

Lemma elem_of_matching_rows df uid r' :
  r' ∈ matching_rows df uid
  <-> exists r, r ∈ rows df /\ matches uid r /\ r' = trimmed_id r.
Proof.
  unfold matching_rows. rewrite list_elem_of_fmap. split.
  - intros (r & -> & Hr%list_elem_of_In%filter_In). destruct Hr as [Hr Hm].
    apply bool_decide_eq_true in Hm. apply list_elem_of_In in Hr. eauto.
  - intros (r & Hr & Hm & ->). exists r. split; [done|].
    apply list_elem_of_In, filter_In. rewrite bool_decide_eq_true.
    split; [by apply list_elem_of_In|done].
Qed.

Lemma sortable_matching_rows df uid :
  sortable (rows df) -> sortable (matching_rows df uid).
Proof.
  apply sortable_sub. intros r' (r & Hr & _ & ->)%elem_of_matching_rows.
  exists r. by rewrite period_trimmed_id.
Qed.

(** The function, with the rows it selects named. *)
Lemma search_by_unit_holder_id_unfold df uid :
  has_column "Unit Holder ID" df = true ->
  search_by_unit_holder_id df uid
  = match matching_rows df uid with
    | [] => Some (empty_frame, empty_frame)
    | _ :: _ =>
        all_results ← sort_chronologically
                        (mkFrame (columns df) (matching_rows df uid)
                           (with_dtype "Unit Holder ID" false (datetimes df)));
        latest_record ← iloc_last all_results;
        Some (latest_record, all_results)
    end.
Proof.
  intros Hcol. unfold search_by_unit_holder_id. rewrite Hcol. simpl.
  unfold select, assign. rewrite Hcol. simpl.
  rewrite filter_fmap.
  assert (List.filter
            (fun r => bool_decide
               (cell (<["Unit Holder ID" :=
                         str_strip (astype_str (cell r "Unit Holder ID"))]> r)
                     "Unit Holder ID" = VStr (PyStr.strip (py_str uid))))
            (rows df)
          = List.filter (fun r => bool_decide (matches uid r)) (rows df)) as ->.
  { apply filter_ext. intros r. by rewrite cell_insert_eq. }
  fold (matching_rows df uid) in *.
  change (fun r : Row =>
            <["Unit Holder ID" := str_strip (astype_str (cell r "Unit Holder ID"))]> r)
    with trimmed_id.
  fold (matching_rows df uid).
  by destruct (matching_rows df uid).
Qed.

(** No identifier column, or no row with the identifier: two empty tables. *)
Lemma search_by_unit_holder_id_absent df uid :
  has_column "Unit Holder ID" df = false
  \/ (forall r, r ∈ rows df -> ~ matches uid r) ->
  search_by_unit_holder_id df uid = Some (empty_frame, empty_frame).
Proof.
  destruct (has_column "Unit Holder ID" df) eqn:Hcol.
  - intros [?|Hno]; [done|]. rewrite search_by_unit_holder_id_unfold by done.
    destruct (matching_rows df uid) as [|r' l] eqn:E; [done|].
    assert (r' ∈ matching_rows df uid) as Hin by (rewrite E; left).
    apply elem_of_matching_rows in Hin as (r & Hr & Hm & _). by destruct (Hno r).
  - intros _. unfold search_by_unit_holder_id. by rewrite Hcol.
Qed.

(** With a matching row, the history is the matching rows, re-sorted when both
    key columns are present, and the latest record is its last row. *)
Lemma search_by_unit_holder_id_found df uid :
  has_column "Unit Holder ID" df = true ->
  (has_period_columns df = true -> sortable (rows df)) ->
  matching_rows df uid ≠ [] ->
  exists latest hist r,
    search_by_unit_holder_id df uid = Some (latest, hist)
    /\ columns hist = columns df /\ columns latest = columns df
    /\ rows hist = (if has_period_columns df then stable_sort (matching_rows df uid)
                    else matching_rows df uid)
    /\ last (rows hist) = Some r /\ rows latest = [r].
Proof.
  intros Hcol Hsort Hne. rewrite search_by_unit_holder_id_unfold by done.
  destruct (matching_rows df uid) as [|r0 l0] eqn:E; [done|]. rewrite <- E. clear Hne.
  set (found := mkFrame (columns df) (matching_rows df uid) _).
  assert (has_period_columns found = has_period_columns df) as Hg by done.
  rewrite sort_chronologically_total; last first.
  { rewrite Hg. intros Hp. by apply sortable_matching_rows, Hsort. }
  rewrite Hg. simpl.
  set (hist := if has_period_columns df then _ else _).
  assert (rows hist ≡ₚ matching_rows df uid) as Hperm.
  { unfold hist. destruct (has_period_columns df); simpl; [apply stable_sort_perm|done]. }
  destruct (last (rows hist)) as [r|] eqn:El.
  - exists (mkFrame (columns hist) [r] (datetimes hist)), hist, r.
    unfold iloc_last. rewrite El. simpl.
    split_and!; try done; unfold hist; by destruct (has_period_columns df).
  - apply last_None in El. rewrite El, E in Hperm.
    by apply Permutation_nil_cons in Hperm.
Qed.

End Lookup.

(** ** The loader *)

Section Loader.
Context `{Runtime}.

Lemma keeps_refl c d : keeps c d d.
Proof. split; [done|]. induction (rows d); by constructor. Qed.

Lemma keeps_elem_of c d d' :
  keeps c d d' ->
  (forall r', r' ∈ rows d' -> exists r, r ∈ rows d /\ cell r' c = cell r c)
  /\ (forall r, r ∈ rows d -> exists r', r' ∈ rows d' /\ cell r' c = cell r c).
Proof.
  intros [_ HF]. induction HF as [|r r' l l' Hr _ [IH1 IH2]].
  - split; intros ? Hin; inversion Hin.
  - split.
    + intros x [->|Hx]%elem_of_cons; [exists r; split; [left|done]|].
      destruct (IH1 x Hx) as (y & Hy & E). exists y. split; [by right|done].
    + intros x [->|Hx]%elem_of_cons; [exists r'; split; [left|done]|].
      destruct (IH2 x Hx) as (y & Hy & E). exists y. split; [by right|done].
Qed.

Lemma keeps_trans c d1 d2 d3 : keeps c d1 d2 -> keeps c d2 d3 -> keeps c d1 d3.
Proof.
  intros [H1 F1] [H2 F2]. split; [congruence|].
  revert F2. generalize (rows d3). induction F1 as [|r r' l l' Hr _ IH];
    intros l3 F2; inversion F2; subst; constructor; [congruence|by apply IH].
Qed.

Lemma keeps_assign c c' f d : c' ≠ c -> keeps c d (assign c' f d).
Proof.
  intros Hne. split.
  - rewrite has_column_assign. rewrite (bool_decide_eq_false_2 (c = c')) by done.
    by rewrite orb_false_r.
  - simpl. induction (rows d); constructor; [by rewrite cell_insert_ne|done].
Qed.

Lemma keeps_guarded c (b : bool) d d' : keeps c d d' -> keeps c d (if b then d' else d).
Proof. destruct b; [done|]. intros _. apply keeps_refl. Qed.

Lemma keeps_copy_column c c' src d : c' ≠ c -> keeps c d (copy_column c' src d).
Proof. apply (keeps_assign c c' (fun r => cell r src) d). Qed.

Lemma Forall2_imap_insert c c' (g : nat -> Row -> Value) (l : list Row) :
  c' ≠ c ->
  Forall2 (fun r r' : Row => cell r' c = cell r c) l
    (imap (fun i r => <[c' := g i r]> r) l).
Proof.
  intros Hne. revert g. induction l as [|r l IH]; intros g; [constructor|].
  rewrite imap_cons. constructor; [by rewrite cell_insert_ne|].
  apply (IH (fun i => g (S i))).
Qed.

Lemma keeps_parse_dates c c' d :
  has_column c' d = true -> c' ≠ c -> keeps c d (parse_dates c' d).
Proof.
  intros Hc Hne. split.
  - unfold has_column, parse_dates. simpl. by rewrite Hc.
  - apply (Forall2_imap_insert c c' (fun i _ => parsed_date c' d i)). done.
Qed.

Lemma keeps_standardize_birth_date c cols d :
  c ∉ cols -> c ≠ "birth_date" -> keeps c d (standardize_birth_date cols d).
Proof.
  intros Hc Hb. induction cols as [|col cols IH]; simpl; [apply keeps_refl|].
  apply not_elem_of_cons in Hc as [Hcol Hc].
  destruct (has_column col d) eqn:E; [|by apply IH].
  eapply keeps_trans; [apply keeps_parse_dates|apply keeps_copy_column]; congruence.
Qed.

(** Before the sort the loader leaves the ['Withdrawals'] column as read. *)
Lemma keeps_withdrawals_before_sort d :
  keeps "Withdrawals" d
    (derive_month (coerce_year (standardize_birth_date date_columns
                                  (clean_social_security d)))).
Proof.
  set (d1 := clean_social_security d).
  set (d2 := standardize_birth_date date_columns d1).
  set (d3 := coerce_year d2).
  assert (keeps "Withdrawals" d d1) as K1.
  { apply keeps_guarded, keeps_assign. done. }
  assert (keeps "Withdrawals" d1 d2) as K2.
  { apply keeps_standardize_birth_date; [|done].
    unfold date_columns. rewrite !not_elem_of_cons.
    split_and!; try done. apply not_elem_of_nil. }
  assert (keeps "Withdrawals" d2 d3) as K3.
  { apply keeps_guarded, keeps_assign. done. }
  assert (keeps "Withdrawals" d3 (derive_month d3)) as K4.
  { apply keeps_guarded.
    eapply keeps_trans; [eapply keeps_trans|]; apply keeps_assign; done. }
  eauto using keeps_trans.
Qed.

Lemma sort_chronologically_ordered d d' :
  sort_chronologically d = Some d' ->
  has_period_columns d' = has_period_columns d
  /\ (has_period_columns d = true -> sortable (rows d') /\ ascending (rows d')).
Proof.
  unfold sort_chronologically. destruct (has_period_columns d) eqn:Hg.
  - intros [Hs ->]%sort_values_Some. split; [done|]. intros _. simpl. split.
    + eapply sortable_sub; [|exact Hs]. intros r Hr.
      rewrite elem_of_stable_sort in Hr. eauto.
    + apply stable_sort_ascending.
  - intros [= <-]. by rewrite Hg.
Qed.

Lemma rows_clean_withdrawals d :
  rows (clean_withdrawals d)
  = (fun r : Row =>
       if has_column "Withdrawals" d
       then <["Withdrawals" := fillna_zero (to_numeric (cell r "Withdrawals"))]> r
       else r) <$> rows d.
Proof.
  unfold clean_withdrawals. destruct (has_column "Withdrawals" d); [done|].
  by rewrite list_fmap_id.
Qed.

Lemma has_period_columns_clean_withdrawals d :
  has_period_columns (clean_withdrawals d) = has_period_columns d.
Proof.
  unfold clean_withdrawals. destruct (has_column "Withdrawals" d); [|done].
  by apply has_period_columns_assign.
Qed.

Lemma has_withdrawals_clean_withdrawals d :
  has_column "Withdrawals" (clean_withdrawals d) = has_column "Withdrawals" d.
Proof.
  unfold clean_withdrawals. destruct (has_column "Withdrawals" d) eqn:E; [|done].
  rewrite has_column_assign. by rewrite E.
Qed.

(** What the loader returns is ordered whenever it has both key columns, and
    its key columns can be ranked again. *)
Lemma normalize_ordered raw ds :
  normalize raw = Some ds ->
  has_period_columns ds = true -> sortable (rows ds) /\ ascending (rows ds).
Proof.
  unfold normalize. cbv zeta.
  destruct (sort_chronologically _) as [d|] eqn:Es; simpl; [|done].
  intros [= <-]. rewrite has_period_columns_clean_withdrawals. intros Hg.
  apply sort_chronologically_ordered in Es as [Hcols Hord].
  destruct Hord as [Hs Ha]; [congruence|].
  rewrite rows_clean_withdrawals. split.
  - eapply sortable_sub; [|exact Hs].
    intros r' (r & -> & Hr)%list_elem_of_fmap. exists r. split; [done|].
    destruct (has_column "Withdrawals" d); [by apply period_insert|done].
  - apply ascending_fmap; [|done]. intros r.
    destruct (has_column "Withdrawals" d); [by apply period_insert|done].
Qed.

Lemma load_data_ordered raw :
  has_period_columns (load_data raw) = true ->
  sortable (rows (load_data raw)) /\ ascending (rows (load_data raw)).
Proof.
  unfold load_data. destruct (normalize raw) as [ds|] eqn:E; simpl; [|done].
  by apply normalize_ordered with raw.
Qed.

(** The ['Withdrawals'] cells of the loaded table are the coerced cells of
    the table read, and each is a number. *)
Lemma normalize_withdrawals raw ds :
  normalize raw = Some ds ->
  has_column "Withdrawals" ds = has_column "Withdrawals" raw
  /\ (has_column "Withdrawals" raw = true ->
      (forall r, r ∈ rows ds -> exists r0, r0 ∈ rows raw
         /\ cell r "Withdrawals" = fillna_zero (to_numeric (cell r0 "Withdrawals")))
      /\ (forall r0, r0 ∈ rows raw -> exists r, r ∈ rows ds
         /\ cell r "Withdrawals" = fillna_zero (to_numeric (cell r0 "Withdrawals")))).
Proof.
  unfold normalize. cbv zeta.
  pose proof (keeps_withdrawals_before_sort raw) as [Hcol Hrows].
  destruct (sort_chronologically _) as [d|] eqn:Es; simpl; [|done].
  intros [= <-].
  apply sort_chronologically_Some in Es as (Hc & Hp & _).
  assert (has_column "Withdrawals" d = has_column "Withdrawals" raw) as Hd.
  { rewrite <- Hcol. unfold has_column. by rewrite Hc. }
  rewrite has_withdrawals_clean_withdrawals, rows_clean_withdrawals, Hd.
  destruct (keeps_elem_of _ _ _ (conj Hcol Hrows)) as [Hback Hforth].
  split; [done|]. intros ->. split.
  - intros r (r1 & -> & Hr1)%list_elem_of_fmap. rewrite cell_insert_eq.
    rewrite Hp in Hr1. destruct (Hback _ Hr1) as (r0 & Hr0 & ->). eauto.
  - intros r0 Hr0. destruct (Hforth _ Hr0) as (r1 & Hr1 & <-).
    rewrite <- Hp in Hr1. eexists. split; [apply list_elem_of_fmap; eauto|].
    by rewrite cell_insert_eq.
Qed.

End Loader.

(** ** Withdrawal and retiree filters *)

Section Filters.
Context `{Runtime}.

Lemma period_with_age r : period (with_age r) = period r.
Proof. by apply period_insert. Qed.

Lemma period_withdrawal_view df r : period (withdrawal_view df r) = period r.
Proof. unfold withdrawal_view. destruct (has_column _ df); [apply period_with_age|done]. Qed.

Lemma cell_withdrawal_view df r c : c ≠ "Age" -> cell (withdrawal_view df r) c = cell r c.
Proof.
  intros Hc. unfold withdrawal_view, with_age.
  destruct (has_column _ df); [by apply cell_insert_ne|done].
Qed.

Lemma elem_of_withdrawal_rows df r' :
  r' ∈ withdrawal_rows df
  <-> exists r, r ∈ rows df /\ ne_zero (cell r "Withdrawals") = true
                /\ r' = withdrawal_view df r.
Proof.
  unfold withdrawal_rows. rewrite list_elem_of_fmap. split.
  - intros (r & -> & Hr%list_elem_of_In%filter_In). destruct Hr as [Hr Hz].
    apply list_elem_of_In in Hr. eauto.
  - intros (r & Hr & Hz & ->). exists r. split; [done|].
    apply list_elem_of_In, filter_In. split; [by apply list_elem_of_In|done].
Qed.

Lemma elem_of_retiree_rows df r' :
  r' ∈ retiree_rows df
  <-> exists r, r ∈ rows df /\ is_retiree r = true /\ r' = with_age r.
Proof.
  unfold retiree_rows. rewrite list_elem_of_fmap. split.
  - intros (r & -> & Hr%list_elem_of_In%filter_In). destruct Hr as [Hr Hz].
    apply list_elem_of_In in Hr. eauto.
  - intros (r & Hr & Hz & ->). exists r. split; [done|].
    apply list_elem_of_In, filter_In. split; [by apply list_elem_of_In|done].
Qed.

Lemma get_withdrawal_records_present df :
  has_column "Withdrawals" df = true ->
  (has_period_columns df = true -> sortable (rows df)) ->
  exists res,
    get_withdrawal_records df = Some res
    /\ has_period_columns res = has_period_columns df
    /\ rows res = (if has_period_columns df then stable_sort (withdrawal_rows df)
                   else withdrawal_rows df).
Proof.
  intros Hcol Hsort. unfold get_withdrawal_records. rewrite Hcol. simpl.
  set (kept := select _ df).
  set (viewed := if has_column "birth_date" kept then _ else kept).
  assert (has_column "birth_date" kept = has_column "birth_date" df) as Hb by done.
  assert (rows viewed = withdrawal_rows df) as Hrows.
  { unfold viewed, withdrawal_rows, withdrawal_view. rewrite Hb.
    destruct (has_column "birth_date" df); simpl; [done|]. by rewrite list_fmap_id. }
  assert (has_period_columns viewed = has_period_columns df) as Hg.
  { unfold viewed. destruct (has_column "birth_date" kept); [|done].
    by rewrite has_period_columns_assign_apply. }
  rewrite sort_chronologically_total; last first.
  { rewrite Hg, Hrows. intros Hp. eapply sortable_sub; [|by apply Hsort].
    intros r' (r & Hr & _ & ->)%elem_of_withdrawal_rows.
    exists r. by rewrite period_withdrawal_view. }
  eexists. split; [done|]. rewrite Hg.
  destruct (has_period_columns df); simpl; by rewrite ?Hrows.
Qed.

(** Once the sentinel rows are gone the comparison of the cells with 60 does
    not raise. *)
Lemma retiree_filter l :
  filterM (fun r => ge_int (cell r "Age") 60)
    (List.filter (fun r => negb (bool_decide (cell r "Age" = VStr "N/A")))
       (with_age <$> l))
  = Some (with_age <$> List.filter is_retiree l).
Proof.
  induction l as [|x l IH]; csimpl; [done|].
  assert (cell (with_age x) "Age" = calculate_age (cell x "birth_date")) as Hage
    by apply cell_insert_eq.
  unfold is_retiree at 1. rewrite Hage.
  destruct (calculate_age_cases (cell x "birth_date")) as [E|[E|[n E]]];
    rewrite E; csimpl; rewrite ?Hage, ?E; csimpl; rewrite IH; csimpl; [done..|].
  by destruct (60 <=? n).
Qed.

(** The ages of a table without rows are of dtype datetime64 when its birth
    dates are, and only then. *)
Lemma age_is_datetime (p : Row -> bool) df :
  "Age" ∈ datetimes (select p (assign_apply "Age" "birth_date" calculate_age df))
  <-> rows df = [] /\ "birth_date" ∈ datetimes df.
Proof.
  simpl. rewrite elem_of_with_dtype, andb_true_iff, !bool_decide_eq_true.
  split; [by intros [[_ ?]|[? _]]|by left].
Qed.

(** The comparison with 60 raises on a table without rows whose birth dates
    are of dtype datetime64. *)
Lemma get_retiree_records_raises df :
  has_column "birth_date" df = true ->
  rows df = [] -> "birth_date" ∈ datetimes df ->
  get_retiree_records df = None.
Proof.
  intros Hcol Hrows Hdt. unfold get_retiree_records. rewrite Hcol. simpl negb. cbv iota zeta.
  unfold select_ge. rewrite bool_decide_eq_true_2; [done|].
  by apply age_is_datetime.
Qed.

Lemma get_retiree_records_present df :
  has_column "birth_date" df = true ->
  (rows df ≠ [] \/ "birth_date" ∉ datetimes df) ->
  (has_period_columns df = true -> sortable (rows df)) ->
  exists res,
    get_retiree_records df = Some res
    /\ has_period_columns res = has_period_columns df
    /\ rows res = (if has_period_columns df then stable_sort (retiree_rows df)
                   else retiree_rows df).
Proof.
  intros Hcol Hdata Hsort. unfold get_retiree_records. rewrite Hcol. simpl negb.
  cbv iota zeta. unfold select_ge. rewrite bool_decide_eq_false_2; last first.
  { rewrite age_is_datetime. intros [? ?]. by destruct Hdata. }
  unfold selectM. simpl.
  change (fun r : Row => <["Age" := calculate_age (cell r "birth_date")]> r) with with_age.
  rewrite retiree_filter. simpl.
  set (kept := mkFrame _ _ _).
  assert (has_period_columns kept = has_period_columns df) as Hg.
  { by rewrite <- (has_period_columns_assign "Age" (fun _ => VNaN) df). }
  rewrite sort_chronologically_total; last first.
  { rewrite Hg. intros Hp. eapply sortable_sub; [|by apply Hsort].
    intros r' (r & Hr & _ & ->)%elem_of_retiree_rows.
    exists r. by rewrite period_with_age. }
  eexists. split; [done|]. rewrite Hg.
  by destruct (has_period_columns df).
Qed.

(** What the function has returned when it returns. *)
Lemma get_retiree_records_returned df res :
  has_column "birth_date" df = true ->
  get_retiree_records df = Some res ->
  has_period_columns res = has_period_columns df
  /\ rows res = (if has_period_columns df then stable_sort (retiree_rows df)
                 else retiree_rows df).
Proof.
  intros Hcol. unfold get_retiree_records. rewrite Hcol. simpl negb. cbv iota zeta.
  unfold select_ge. case_bool_decide; [done|]. unfold selectM. simpl.
  change (fun r : Row => <["Age" := calculate_age (cell r "birth_date")]> r) with with_age.
  rewrite retiree_filter. simpl.
  set (kept := mkFrame _ _ _).
  assert (has_period_columns kept = has_period_columns df) as Hg.
  { by rewrite <- (has_period_columns_assign "Age" (fun _ => VNaN) df). }
  intros (Hc & _ & Hr)%sort_chronologically_Some. split.
  - rewrite <- Hg. unfold has_period_columns, has_column. by rewrite Hc.
  - by rewrite Hr, Hg.
Qed.

End Filters.

(** ** The rows the loader returns *)

Lemma elem_of_add_column c c' cols : c' ∈ add_column c cols <-> c' ∈ cols \/ c' = c.
Proof.
  unfold add_column. case_bool_decide as Hc.
  - split; [by left|]. by intros [?| ->].
  - rewrite elem_of_app, list_elem_of_singleton. done.
Qed.

Lemma columns_assign c f df : columns (assign c f df) = add_column c (columns df).
Proof. reflexivity. Qed.

Lemma columns_copy_column c src df :
  columns (copy_column c src df) = add_column c (columns df).
Proof. reflexivity. Qed.

Lemma has_column_ext c d d' : columns d = columns d' -> has_column c d = has_column c d'.
Proof. unfold has_column. by intros ->. Qed.

Lemma head_filter_Some (p : string -> bool) l c :
  head (List.filter p l) = Some c -> c ∈ l /\ p c = true.
Proof.
  intros Hh. apply head_Some_elem_of in Hh.
  by rewrite list_elem_of_In, filter_In, <- list_elem_of_In in Hh.
Qed.

Lemma birth_column_Some raw c :
  birth_column raw = Some c -> c ∈ date_columns /\ has_column c raw = true.
Proof. apply head_filter_Some. Qed.

Lemma birth_column_ext d d' : columns d = columns d' -> birth_column d = birth_column d'.
Proof.
  intros E. unfold birth_column. f_equal.
  apply filter_ext. intros c. by apply has_column_ext.
Qed.

Lemma imap_id {A} (l : list A) : imap (fun _ x => x) l = l.
Proof. induction l as [|x l IH]; [done|]. rewrite imap_cons. by f_equal. Qed.

(** Another column is of dtype datetime64 after [df[c] = ...] exactly when it
    was before. *)
Lemma elem_of_with_dtype_ne c c' b l : c' ≠ c -> c' ∈ with_dtype c b l <-> c' ∈ l.
Proof.
  intros Hne. rewrite elem_of_with_dtype. split; [by intros [[? _]|[_ ?]]|by right].
Qed.

Ltac cells :=
  repeat first [rewrite cell_insert_eq | rewrite cell_insert_ne by done].

Ltac birth_cases raw :=
  let c := fresh "c" in let E := fresh "E" in let Hc := fresh "Hc" in
  destruct (birth_column raw) as [c|] eqn:E;
  [apply birth_column_Some in E as [Hc _]; unfold date_columns in Hc;
   repeat (apply elem_of_cons in Hc as [->|Hc]); [..|by apply elem_of_nil in Hc]|].

Section LoaderSteps.
Context `{Runtime}.

Lemma map_month_kind v : map_month v = VNaN \/ exists n, map_month v = VInt n.
Proof.
  unfold map_month. destruct v as [s| | | | |]; auto.
  destruct (month_map !! s) as [n|]; [right|left]; [by exists n|done].
Qed.

Lemma to_numeric_month_rank v : to_numeric (month_rank v) = month_rank v.
Proof.
  unfold month_rank. by destruct (map_month_kind (str_strip (str_lower (astype_str v))))
    as [->|[n ->]].
Qed.

Lemma columns_parse_dates c df :
  columns (parse_dates c df) = add_column c (columns df).
Proof. reflexivity. Qed.

Lemma standardize_birth_date_unfold cols df :
  standardize_birth_date cols df
  = match head (List.filter (fun c => has_column c df) cols) with
    | Some c => copy_column "birth_date" c (parse_dates c df)
    | None => df
    end.
Proof.
  induction cols as [|c cols IH]; [done|]. simpl.
  destruct (has_column c df); [done|apply IH].
Qed.

(** The parsed column depends on the cells of the column only. *)
Lemma parsed_date_ext c d d' i :
  (fun r : Row => cell r c) <$> rows d = (fun r : Row => cell r c) <$> rows d' ->
  parsed_date c d i = parsed_date c d' i.
Proof. unfold parsed_date. by intros ->. Qed.

Lemma parsed_date_cases c d i :
  (exists t, parsed_date c d i = VTimestamp t) \/ parsed_date c d i = VNaT.
Proof. unfold parsed_date. destruct (to_datetime_column _ _); eauto. Qed.

Lemma date_column_not_social_security c :
  c ∈ date_columns -> c ≠ "Social Security #".
Proof.
  intros Hc ->. unfold date_columns in Hc.
  repeat (apply elem_of_cons in Hc as [Hc|Hc]; [discriminate Hc|]).
  by apply elem_of_nil in Hc.
Qed.

(** The table [load_data] sorts. *)
Lemma before_sort raw :
  let d := derive_month (coerce_year (standardize_birth_date date_columns
                                        (clean_social_security raw))) in
  columns d = loaded_columns raw /\ rows d = imap (sorted_row raw) (rows raw).
Proof.
  set (d1 := clean_social_security raw).
  assert (columns d1 = columns raw
          /\ rows d1 = (fun r : Row =>
               if has_column "Social Security #" raw
               then <["Social Security #" :=
                        str_strip (astype_str (cell r "Social Security #"))]> r
               else r) <$> rows raw) as [Hc1 Hr1].
  { unfold d1, clean_social_security.
    destruct (has_column "Social Security #" raw) eqn:E.
    - split; [|done]. rewrite columns_assign. unfold add_column.
      unfold has_column in E. by rewrite E.
    - split; [done|]. by rewrite list_fmap_id. }
  set (d2 := standardize_birth_date date_columns d1).
  assert (columns d2 = match birth_column raw with
                       | Some _ => add_column "birth_date" (columns raw)
                       | None => columns raw
                       end
          /\ rows d2 = imap (fun i (r : Row) =>
               match birth_column raw with
               | Some c => <["birth_date" := parsed_date c raw i]>
                             (<[c := parsed_date c raw i]> r)
               | None => r
               end) (rows d1)) as [Hc2 Hr2].
  { unfold d2. rewrite standardize_birth_date_unfold.
    change (head _) with (birth_column d1). rewrite (birth_column_ext d1 raw Hc1).
    destruct (birth_column raw) as [c|] eqn:E.
    - apply birth_column_Some in E as [Hdate E].
      rewrite <- (has_column_ext c d1 raw Hc1) in E.
      split.
      + rewrite columns_copy_column, columns_parse_dates. unfold add_column at 2.
        unfold has_column in E. rewrite E. by rewrite Hc1.
      + rewrite rows_copy_column. unfold assign, parse_dates. simpl rows.
        rewrite fmap_imap. apply imap_ext. intros i r _. simpl.
        rewrite cell_insert_eq.
        assert (parsed_date c d1 i = parsed_date c raw i) as ->; [|done].
        apply parsed_date_ext. rewrite Hr1, <- list_fmap_compose.
        apply list_fmap_ext. intros _ r' _. simpl.
        destruct (has_column "Social Security #" raw); [|done].
        apply cell_insert_ne. intros <-. by apply (date_column_not_social_security _ Hdate).
    - split; [done|]. by rewrite imap_id. }
  assert (forall c, c ≠ "birth_date" -> has_column c d2 = has_column c raw) as Hh2.
  { intros c Hc. unfold has_column. rewrite Hc2.
    destruct (birth_column raw); [|done].
    apply eq_true_iff_eq. rewrite !bool_decide_eq_true, elem_of_add_column.
    split; [by intros [?|?]|by left]. }
  set (d3 := coerce_year d2).
  assert (columns d3 = columns d2
          /\ rows d3 = (fun r : Row =>
               if has_column "Year" raw then <["Year" := to_numeric (cell r "Year")]> r
               else r) <$> rows d2) as [Hc3 Hr3].
  { unfold d3, coerce_year. rewrite (Hh2 "Year") by done.
    destruct (has_column "Year" raw) eqn:E.
    - split; [|done]. rewrite columns_assign. unfold add_column.
      rewrite <- (Hh2 "Year") in E by done. unfold has_column in E. by rewrite E.
    - split; [done|]. by rewrite list_fmap_id. }
  intros d. subst d. fold d1 d2 d3.
  unfold derive_month. rewrite (has_column_ext "Month" d3 d2 Hc3), (Hh2 "Month") by done.
  unfold loaded_columns, sorted_row.
  destruct (has_column "Month" raw) eqn:E.
  - split.
    + rewrite !columns_assign, Hc3, Hc2. unfold add_column at 1.
      rewrite bool_decide_eq_true_2; [done|].
      apply elem_of_add_column. by right.
    + unfold assign. simpl rows. rewrite Hr3, Hr2, Hr1, <- !list_fmap_compose.
      rewrite imap_fmap, fmap_imap. apply imap_ext. intros i r _. simpl.
      rewrite cell_insert_eq, insert_insert_eq.
      rewrite cell_insert_ne by done.
      by rewrite to_numeric_month_rank.
  - split; [by rewrite Hc3, Hc2|].
    rewrite Hr3, Hr2, Hr1. rewrite imap_fmap, fmap_imap. done.
Qed.

Lemma insert_row_fmap (g : Row -> Row) r l :
  (forall r, period (g r) = period r) ->
  insert_row (g r) (g <$> l) = g <$> insert_row r l.
Proof.
  intros Hg. induction l as [|x l IH]; [done|]. csimpl.
  rewrite !Hg. destruct (period_leb (period r) (period x)); [done|].
  csimpl. by rewrite IH.
Qed.

Lemma stable_sort_fmap (g : Row -> Row) l :
  (forall r, period (g r) = period r) ->
  stable_sort (g <$> l) = g <$> stable_sort l.
Proof.
  intros Hg. induction l as [|x l IH]; [done|]. csimpl.
  change (stable_sort (g x :: (g <$> l))) with (insert_row (g x) (stable_sort (g <$> l))).
  change (stable_sort (x :: l)) with (insert_row x (stable_sort l)).
  by rewrite IH, insert_row_fmap.
Qed.

Lemma cell_sorted_row_other raw i r col :
  col ∉ ["Social Security #"; "Year"; "birth_date"; "Month_original"; "Month_numeric"] ->
  birth_column raw ≠ Some col ->
  cell (sorted_row raw i r) col = cell r col.
Proof.
  intros Hcol Hb. unfold sorted_row.
  rewrite !not_elem_of_cons in Hcol. destruct Hcol as (?&?&?&?&?&_).
  destruct (has_column "Month" raw), (has_column "Year" raw),
    (has_column "Social Security #" raw), (birth_column raw) as [c|];
    repeat (rewrite cell_insert_ne by congruence); done.
Qed.

Lemma cell_sorted_row_social_security raw i r :
  has_column "Social Security #" raw = true ->
  cell (sorted_row raw i r) "Social Security #"
  = str_strip (astype_str (cell r "Social Security #")).
Proof.
  intros E. unfold sorted_row. rewrite E.
  destruct (has_column "Month" raw), (has_column "Year" raw);
    birth_cases raw; by cells.
Qed.

Lemma cell_sorted_row_year raw i r :
  cell (sorted_row raw i r) "Year"
  = if has_column "Year" raw then to_numeric (cell r "Year") else cell r "Year".
Proof.
  unfold sorted_row.
  destruct (has_column "Month" raw), (has_column "Year" raw),
    (has_column "Social Security #" raw); birth_cases raw; by cells.
Qed.

Lemma cell_sorted_row_month raw i r :
  has_column "Month" raw = true ->
  cell (sorted_row raw i r) "Month_numeric" = month_rank (cell r "Month")
  /\ cell (sorted_row raw i r) "Month_original" = astype_str (cell r "Month")
  /\ cell (sorted_row raw i r) "Month" = cell r "Month".
Proof.
  intros Hm. unfold sorted_row. rewrite Hm.
  destruct (has_column "Year" raw), (has_column "Social Security #" raw);
    birth_cases raw; by cells.
Qed.

Lemma cell_sorted_row_birth raw i r c :
  birth_column raw = Some c ->
  cell (sorted_row raw i r) "birth_date" = parsed_date c raw i
  /\ cell (sorted_row raw i r) c = parsed_date c raw i.
Proof.
  intros Hb. unfold sorted_row. rewrite Hb.
  apply birth_column_Some in Hb as [Hc _]. unfold date_columns in Hc.
  repeat (apply elem_of_cons in Hc as [->|Hc]); [..|by apply elem_of_nil in Hc];
    destruct (has_column "Month" raw), (has_column "Year" raw),
      (has_column "Social Security #" raw); by cells.
Qed.

Lemma cell_sorted_row_withdrawals raw i r :
  cell (sorted_row raw i r) "Withdrawals" = cell r "Withdrawals".
Proof.
  unfold sorted_row.
  destruct (has_column "Month" raw), (has_column "Year" raw),
    (has_column "Social Security #" raw); birth_cases raw; by cells.
Qed.

Lemma cell_sorted_row_month_numeric raw i r :
  cell (sorted_row raw i r) "Month_numeric"
  = if has_column "Month" raw then month_rank (cell r "Month")
    else cell r "Month_numeric".
Proof.
  unfold sorted_row.
  destruct (has_column "Month" raw), (has_column "Year" raw),
    (has_column "Social Security #" raw); birth_cases raw; by cells.
Qed.

Lemma birth_column_not_withdrawals raw c : birth_column raw = Some c -> c ≠ "Withdrawals".
Proof.
  intros [Hc _]%birth_column_Some ->. unfold date_columns in Hc.
  repeat (apply elem_of_cons in Hc as [Hc|Hc]; [discriminate Hc|]).
  by apply elem_of_nil in Hc.
Qed.

Lemma cell_loaded_row raw i r col :
  col ≠ "Withdrawals" -> cell (loaded_row raw i r) col = cell (sorted_row raw i r) col.
Proof.
  intros Hcol. unfold loaded_row.
  destruct (has_column "Withdrawals" raw); [|done]. by rewrite cell_insert_ne.
Qed.

Lemma cell_loaded_row_withdrawals raw i r :
  has_column "Withdrawals" raw = true ->
  cell (loaded_row raw i r) "Withdrawals" = fillna_zero (to_numeric (cell r "Withdrawals")).
Proof.
  intros E. unfold loaded_row. rewrite E, cell_insert_eq.
  by rewrite cell_sorted_row_withdrawals.
Qed.

Lemma period_loaded_row raw i r :
  period (loaded_row raw i r) = period (sorted_row raw i r).
Proof. unfold period. by rewrite !cell_loaded_row. Qed.

Lemma has_column_loaded_columns raw c :
  bool_decide (c ∈ loaded_columns raw)
  = has_column c raw
    || bool_decide (c = "birth_date") && bool_decide (is_Some (birth_column raw))
    || has_column "Month" raw
       && (bool_decide (c = "Month_original") || bool_decide (c = "Month_numeric")).
Proof.
  apply eq_true_iff_eq. unfold loaded_columns, has_column.
  destruct (bool_decide ("Month" ∈ columns raw)) eqn:Em, (birth_column raw) as [b|] eqn:Eb;
    rewrite ?orb_true_iff, ?andb_true_iff, ?orb_true_iff, ?bool_decide_eq_true,
      ?elem_of_add_column, ?orb_true_iff, ?andb_true_iff, ?bool_decide_eq_true;
    try (rewrite is_Some_alt); intuition (try discriminate; auto).
Qed.

(** The key columns of the table the loader sorts. *)
Lemma has_period_columns_before_sort raw d :
  columns d = loaded_columns raw ->
  has_period_columns d
  = has_column "Year" raw && (has_column "Month_numeric" raw || has_column "Month" raw).
Proof.
  intros Hc. unfold has_period_columns. unfold has_column at 1 2.
  rewrite Hc, !has_column_loaded_columns.
  rewrite !(bool_decide_eq_false_2 (_ = _)) by done.
  rewrite (bool_decide_eq_true_2 ("Month_numeric" = "Month_numeric")) by done.
  by destruct (has_column "Year" raw), (has_column "Month_numeric" raw),
    (has_column "Month" raw).
Qed.

Lemma sublist_loaded_columns raw :
  exists extra, loaded_columns raw = (columns raw ++ extra)%list
    /\ extra `sublist_of` ["birth_date"; "Month_original"; "Month_numeric"].
Proof.
  unfold loaded_columns, add_column.
  destruct (has_column "Month" raw), (birth_column raw);
    repeat case_bool_decide;
    rewrite <- ?(assoc_L (++)); simpl;
    first [ by (exists []; split; [by rewrite app_nil_r|apply sublist_nil_l])
          | eexists; split; [reflexivity|];
            repeat first [apply sublist_nil_l | apply sublist_skip | apply sublist_cons] ].
Qed.

Lemma normalize_unfold raw :
  normalize raw
  = d ← sort_chronologically
          (derive_month (coerce_year (standardize_birth_date date_columns
                                        (clean_social_security raw))));
    Some (clean_withdrawals d).
Proof. reflexivity. Qed.

Lemma normalize_rows raw df :
  normalize raw = Some df ->
  columns df = loaded_columns raw
  /\ has_period_columns df
     = has_column "Year" raw && (has_column "Month_numeric" raw || has_column "Month" raw)
  /\ rows df = (if has_period_columns df
                then stable_sort (loaded_rows raw) else loaded_rows raw).
Proof.
  rewrite normalize_unfold. destruct (before_sort raw) as [Hc Hr].
  set (d4 := derive_month _) in *.
  destruct (sort_chronologically d4) as [d5|] eqn:Hs; [|done]. simpl. intros [= <-].
  apply sort_chronologically_Some in Hs as (Hc5 & _ & Hr5).
  assert (has_column "Withdrawals" d5 = has_column "Withdrawals" raw) as HW.
  { unfold has_column at 1. rewrite Hc5, Hc, has_column_loaded_columns.
    rewrite !(bool_decide_eq_false_2 ("Withdrawals" = _)) by done.
    by rewrite andb_false_r, !orb_false_r. }
  assert (has_period_columns d5 = has_period_columns d4) as HP.
  { unfold has_period_columns. by rewrite !(has_column_ext _ d5 d4 Hc5). }
  assert (columns (clean_withdrawals d5) = columns d5) as Hcw.
  { unfold clean_withdrawals. destruct (has_column "Withdrawals" d5) eqn:E; [|done].
    rewrite columns_assign. unfold add_column. unfold has_column in E. by rewrite E. }
  split_and!.
  - by rewrite Hcw, Hc5.
  - rewrite has_period_columns_clean_withdrawals, HP.
    by apply has_period_columns_before_sort.
  - rewrite has_period_columns_clean_withdrawals, HP, rows_clean_withdrawals, HW, Hr5, Hr.
    set (g := fun r : Row => if has_column "Withdrawals" raw
                             then <["Withdrawals" := _]> r else r).
    assert (forall r, period (g r) = period r) as Hg.
    { intros r. unfold g. destruct (has_column "Withdrawals" raw); [|done].
      by apply period_insert. }
    assert (g <$> imap (sorted_row raw) (rows raw) = loaded_rows raw) as Hl.
    { by rewrite fmap_imap. }
    destruct (has_period_columns d4).
    + by rewrite <- stable_sort_fmap, Hl.
    + apply Hl.
Qed.

(** Loading raises only when the sort does. *)
Lemma normalize_total raw :
  (has_column "Year" raw && (has_column "Month_numeric" raw || has_column "Month" raw)
   = true -> sortable (imap (sorted_row raw) (rows raw))) ->
  is_Some (normalize raw).
Proof.
  intros Hs. rewrite normalize_unfold. destruct (before_sort raw) as [Hc Hr].
  set (d4 := derive_month _) in *.
  rewrite sort_chronologically_total; [done|].
  rewrite (has_period_columns_before_sort raw d4 Hc), Hr. exact Hs.
Qed.

(** The loaded table has as many rows as the file. *)
Lemma normalize_length raw df :
  normalize raw = Some df -> length (rows df) = length (rows raw).
Proof.
  intros (_ & _ & Hr)%normalize_rows. rewrite Hr. unfold loaded_rows.
  destruct (has_period_columns df); [rewrite stable_sort_perm|]; apply length_imap.
Qed.

(** A row of the loaded table is a row of the file, cleaned. *)
Lemma elem_of_normalize raw df r :
  normalize raw = Some df -> r ∈ rows df ->
  exists i r0, rows raw !! i = Some r0 /\ r = loaded_row raw i r0.
Proof.
  intros (_ & _ & Hr)%normalize_rows Hin.
  assert (r ∈ loaded_rows raw) as Hl.
  { rewrite Hr in Hin. destruct (has_period_columns df); [|done].
    by rewrite elem_of_stable_sort in Hin. }
  apply elem_of_lookup_imap in Hl as (i & r0 & -> & Hi). eauto.
Qed.

(** The guarded sort keeps the dtypes. *)
Lemma sort_chronologically_datetimes d d' :
  sort_chronologically d = Some d' -> datetimes d' = datetimes d.
Proof.
  unfold sort_chronologically. destruct (has_period_columns d).
  - by intros [_ ->]%sort_values_Some.
  - by intros [= <-].
Qed.

(** When the file has a date column, the [birth_date] column of the loaded
    table is a column of that table and is of dtype datetime64. *)
Lemma normalize_birth_date raw df c :
  normalize raw = Some df -> birth_column raw = Some c ->
  has_column "birth_date" df = true /\ "birth_date" ∈ datetimes df.
Proof.
  intros Hn Hb. split.
  { apply normalize_rows in Hn as (Hc & _). unfold has_column.
    rewrite Hc, has_column_loaded_columns, Hb.
    rewrite (bool_decide_eq_true_2 ("birth_date" = "birth_date")) by done.
    rewrite (bool_decide_eq_true_2 (is_Some (Some c))) by done.
    by rewrite orb_true_r. }
  rewrite normalize_unfold in Hn.
  destruct (sort_chronologically _) as [d5|] eqn:Hs; [|done]. simpl in Hn.
  injection Hn as <-. apply sort_chronologically_datetimes in Hs.
  set (d1 := clean_social_security raw) in *.
  set (d2 := standardize_birth_date date_columns d1) in *.
  assert ("birth_date" ∈ datetimes d2) as H2.
  { unfold d2. rewrite standardize_birth_date_unfold.
    change (head _) with (birth_column d1).
    assert (columns d1 = columns raw) as Hc1.
    { unfold d1, clean_social_security.
      destruct (has_column "Social Security #" raw) eqn:E; [|done].
      rewrite columns_assign. unfold add_column. unfold has_column in E. by rewrite E. }
    rewrite (birth_column_ext d1 raw Hc1), Hb.
    unfold copy_column, parse_dates. cbn [datetimes]. apply elem_of_with_dtype. left.
    split; [done|]. apply bool_decide_eq_true_2, elem_of_with_dtype. by left. }
  assert ("birth_date" ∈ datetimes (coerce_year d2)) as H3.
  { unfold coerce_year. destruct (has_column "Year" d2); [|done].
    by apply elem_of_with_dtype_ne. }
  assert ("birth_date" ∈ datetimes (derive_month (coerce_year d2))) as H4.
  { unfold derive_month. destruct (has_column "Month" _); [|done].
    unfold assign. cbn [datetimes]. by rewrite !elem_of_with_dtype_ne. }
  rewrite <- Hs in H4. unfold clean_withdrawals.
  destruct (has_column "Withdrawals" d5); [|done]. by apply elem_of_with_dtype_ne.
Qed.

End LoaderSteps.

(** ** Strings *)

Module PyStrFacts.
Import PyStr.

Lemma app_cons a s t : String a s +:+ t = String a (s +:+ t).
Proof. reflexivity. Qed.

Lemma app_nil_l t : "" +:+ t = t.
Proof. reflexivity. Qed.

Lemma app_nil_r s : s +:+ "" = s.
Proof. induction s as [|a s IH]; [done|]. by rewrite app_cons, IH. Qed.

Lemma app_assoc s t u : (s +:+ t) +:+ u = s +:+ (t +:+ u).
Proof. induction s as [|a s IH]; [done|]. by rewrite !app_cons, IH. Qed.

Lemma rev_app_spec s t : String.rev_app s t = String.rev s +:+ t.
Proof.
  unfold String.rev. revert t. induction s as [|a s IH]; intros t; simpl; [done|].
  rewrite (IH (String a "")), IH, app_assoc. done.
Qed.

Lemma rev_cons a s : String.rev (String a s) = String.rev s +:+ String a "".
Proof. unfold String.rev at 1. simpl. apply rev_app_spec. Qed.

Lemma rev_app_distr s t : String.rev (s +:+ t) = String.rev t +:+ String.rev s.
Proof.
  induction s as [|a s IH].
  - by rewrite app_nil_l, app_nil_r.
  - by rewrite app_cons, !rev_cons, IH, app_assoc.
Qed.

Lemma rev_involutive s : String.rev (String.rev s) = s.
Proof.
  induction s as [|a s IH]; [done|].
  by rewrite rev_cons, rev_app_distr, IH.
Qed.

Lemma lstrip_fixed a s : is_space a = false -> lstrip (String a s) = String a s.
Proof. intros Ha. simpl. by rewrite Ha. Qed.

Lemma lstrip_idemp s : lstrip (lstrip s) = lstrip s.
Proof.
  induction s as [|a s IH]; [done|]. simpl.
  destruct (is_space a) eqn:Ea; [done|]. by apply lstrip_fixed.
Qed.

Lemma lstrip_snoc u a :
  is_space a = false -> exists v, lstrip (u +:+ String a "") = v +:+ String a "".
Proof.
  intros Ha. induction u as [|b u IH].
  - rewrite app_nil_l. simpl. rewrite Ha. by exists "".
  - rewrite app_cons. simpl. destruct (is_space b); [done|]. by exists (String b u).
Qed.

Lemma rstrip_idemp s : rstrip (rstrip s) = rstrip s.
Proof. unfold rstrip. by rewrite rev_involutive, lstrip_idemp. Qed.

(** Stripping on the right leaves a string stripped on the left as it is on
    that side. *)
Lemma lstrip_rstrip s : lstrip s = s -> lstrip (rstrip s) = rstrip s.
Proof.
  destruct s as [|a s]; [done|]. simpl.
  destruct (is_space a) eqn:Ea.
  - intros Hs. exfalso.
    assert (String.length (lstrip s) <= String.length s)%nat as Hlen.
    { clear. induction s as [|b s IH]; simpl; [lia|]. destruct (is_space b); simpl; lia. }
    rewrite Hs in Hlen. simpl in Hlen. lia.
  - intros _. unfold rstrip. rewrite rev_cons.
    destruct (lstrip_snoc (String.rev s) a Ea) as [v ->].
    rewrite rev_app_distr. change (String.rev (String a "")) with (String a "").
    rewrite app_cons. simpl. by rewrite Ea.
Qed.

Lemma strip_idemp s : strip (strip s) = strip s.
Proof.
  unfold strip. rewrite (lstrip_rstrip (lstrip s)) by apply lstrip_idemp.
  apply rstrip_idemp.
Qed.

Lemma is_space_lower_char a : is_space (lower_char a) = is_space a.
Proof. by destruct a as [[] [] [] [] [] [] [] []]. Qed.

Lemma lower_char_idemp a : lower_char (lower_char a) = lower_char a.
Proof. by destruct a as [[] [] [] [] [] [] [] []]. Qed.

Lemma lower_idemp s : lower (lower s) = lower s.
Proof. induction s as [|a s IH]; simpl; [done|]. by rewrite lower_char_idemp, IH. Qed.

Lemma lower_app s t : lower (s +:+ t) = lower s +:+ lower t.
Proof. induction s as [|a s IH]; [done|]. rewrite app_cons. simpl. by rewrite IH. Qed.

Lemma lower_rev s : lower (String.rev s) = String.rev (lower s).
Proof.
  induction s as [|a s IH]; [done|]. simpl lower.
  by rewrite !rev_cons, lower_app, IH.
Qed.

Lemma lstrip_lower s : lstrip (lower s) = lower (lstrip s).
Proof.
  induction s as [|a s IH]; [done|]. simpl.
  rewrite is_space_lower_char. by destruct (is_space a).
Qed.

Lemma strip_lower s : strip (lower s) = lower (strip s).
Proof.
  unfold strip, rstrip. by rewrite lstrip_lower, <- lower_rev, lstrip_lower, lower_rev.
Qed.

(** The length of a stripped string. *)
Lemma lstrip_length s : (String.length (lstrip s) <= String.length s)%nat.
Proof. induction s as [|b s IH]; simpl; [lia|]. destruct (is_space b); simpl; lia. Qed.

(** Numerals hold neither blanks nor capitals. *)
Lemma numeral_char_plain a :
  numeral_char a = true -> is_space a = false /\ lower_char a = a.
Proof. by destruct a as [[] [] [] [] [] [] [] []]. Qed.

Lemma all_numeral_app s t : all_numeral (s +:+ t) = all_numeral s && all_numeral t.
Proof.
  induction s as [|a s IH]; [done|]. rewrite app_cons. simpl.
  by rewrite IH, andb_assoc.
Qed.

Lemma all_numeral_rev s : all_numeral (String.rev s) = all_numeral s.
Proof.
  induction s as [|a s IH]; [done|].
  rewrite rev_cons, all_numeral_app, IH. simpl. rewrite andb_true_r. apply andb_comm.
Qed.

Lemma all_numeral_lstrip s : all_numeral s = true -> lstrip s = s.
Proof.
  destruct s as [|a s]; [done|]. simpl. intros [Ha _]%andb_true_iff.
  by destruct (numeral_char_plain a Ha) as [-> _].
Qed.

Lemma all_numeral_strip s : all_numeral s = true -> strip s = s.
Proof.
  intros Hs. unfold strip, rstrip.
  rewrite (all_numeral_lstrip s Hs), all_numeral_lstrip, rev_involutive;
    [done|by rewrite all_numeral_rev].
Qed.

Lemma all_numeral_lower s : all_numeral s = true -> lower s = s.
Proof.
  induction s as [|a s IH]; [done|]. simpl. intros [Ha Hs]%andb_true_iff.
  destruct (numeral_char_plain a Ha) as [_ ->]. by rewrite IH.
Qed.

Lemma all_numeral_pretty_N_go x s :
  all_numeral s = true -> all_numeral (pretty_N_go x s) = true.
Proof.
  revert s. induction (N.lt_wf_0 x) as [x _ IH]; intros s Hs.
  assert (x = 0 \/ 0 < x)%N as [->|Hx] by lia; [by rewrite pretty_N_go_0|].
  rewrite pretty_N_go_step by done. apply IH; [by apply N.div_lt|].
  simpl. rewrite Hs, andb_true_r.
  unfold pretty_N_char. by repeat case_match.
Qed.

Lemma all_numeral_pretty_N (x : N) : all_numeral (pretty x) = true.
Proof.
  unfold pretty, pretty_N. case_decide; [done|]. by apply all_numeral_pretty_N_go.
Qed.

Lemma all_numeral_pretty (n : Z) : all_numeral (pretty n) = true.
Proof.
  destruct n as [|p|p]; [done| |].
  - apply (all_numeral_pretty_N (Npos p)).
  - change (pretty (Z.neg p)) with ("-" +:+ pretty (Npos p)).
    rewrite all_numeral_app. by rewrite (all_numeral_pretty_N (Npos p)).
Qed.

(** White space around a text is what [strip] removes. *)
Lemma all_space_app s t : all_space (s +:+ t) = all_space s && all_space t.
Proof.
  induction s as [|a s IH]; [done|]. rewrite app_cons. simpl.
  by rewrite IH, andb_assoc.
Qed.

Lemma all_space_rev s : all_space (String.rev s) = all_space s.
Proof.
  induction s as [|a s IH]; [done|].
  rewrite rev_cons, all_space_app, IH. simpl. rewrite andb_true_r. apply andb_comm.
Qed.

Lemma lstrip_all_space s : all_space s = true -> lstrip s = "".
Proof.
  induction s as [|a s IH]; [done|]. simpl. intros [-> Hs]%andb_true_iff. by apply IH.
Qed.

Lemma lstrip_app s t :
  lstrip (s +:+ t) = if all_space s then lstrip t else lstrip s +:+ t.
Proof.
  induction s as [|a s IH]; [done|]. rewrite app_cons. simpl.
  destruct (is_space a); simpl; [apply IH|done].
Qed.

Lemma rstrip_app_space s t : all_space t = true -> rstrip (s +:+ t) = rstrip s.
Proof.
  intros Ht. unfold rstrip. by rewrite rev_app_distr, lstrip_app, all_space_rev, Ht.
Qed.

Lemma strip_padded core s : padded core s -> strip s = strip core.
Proof.
  intros (pre & post & Hpre & Hpost & ->). unfold strip.
  rewrite lstrip_app, Hpre, lstrip_app.
  destruct (all_space core) eqn:E.
  - by rewrite (lstrip_all_space post Hpost), (lstrip_all_space core E).
  - by apply rstrip_app_space.
Qed.

End PyStrFacts.

(** ** Withdrawal records (C3) *)

Section WithdrawalRecords.
Context `{Runtime}.

Lemma fillna_to_numeric_number v : is_number (fillna_zero (to_numeric v)).
Proof.
  destruct v; simpl; try (by exists (NInt 0)); try (by eexists (NInt _)).
  - destruct (to_numeric_str s) as [x|]; simpl; [|by exists (NInt 0)].
    exists x. by destruct x.
  - by eexists (NFloat _).
Qed.

Lemma load_data_withdrawals raw :
  has_column "Withdrawals" (load_data raw) = true ->
  has_column "Withdrawals" raw = true
  /\ (forall r, r ∈ rows (load_data raw) -> exists r0, r0 ∈ rows raw
        /\ cell r "Withdrawals" = fillna_zero (to_numeric (cell r0 "Withdrawals")))
  /\ (forall r0, r0 ∈ rows raw -> exists r, r ∈ rows (load_data raw)
        /\ cell r "Withdrawals" = fillna_zero (to_numeric (cell r0 "Withdrawals"))).
Proof.
  unfold load_data. destruct (normalize raw) as [ds|] eqn:E; simpl; [|done].
  intros Hcol. apply normalize_withdrawals in E as [Hsame Hcells].
  rewrite Hcol in Hsame. symmetry in Hsame. split; [done|]. by apply Hcells.
Qed.

Lemma ne_zero_amount df r :
  has_column "Withdrawals" df = true ->
  is_number (cell r "Withdrawals") ->
  ne_zero (cell r "Withdrawals") = true <-> ~ (withdrawals_of df r == 0)%Q.
Proof.
  intros Hcol [x Hx]. unfold withdrawals_of. rewrite Hcol, Hx.
  destruct x as [n|q]; simpl; rewrite negb_true_iff.
  - rewrite Z.eqb_neq. unfold Qeq. simpl. lia.
  - rewrite <- Qeq_bool_iff. by destruct (Qeq_bool q 0).
Qed.

(** C3.  On every loaded dataset [get_withdrawal_records] returns, and a
    record of the dataset is among the returned rows exactly when its
    withdrawals amount is not zero.  A returned row carries the withdrawals
    cell of its record unchanged, whatever its sign.  Every withdrawals cell
    of the dataset is the loader's coercion of a cell of the file: a number,
    and 0 where the file had no number. *)
Theorem withdrawal_records_are_the_nonzero_ones raw :
  exists res,
    get_withdrawal_records (load_data raw) = Some res
    /\ (forall r, r ∈ rows (load_data raw) ->
          withdrawal_view (load_data raw) r ∈ rows res
          <-> ~ (withdrawals_of (load_data raw) r == 0)%Q)
    /\ (forall r', r' ∈ rows res ->
          exists r, r ∈ rows (load_data raw)
            /\ r' = withdrawal_view (load_data raw) r
            /\ cell r' "Withdrawals" = cell r "Withdrawals"
            /\ ~ (withdrawals_of (load_data raw) r == 0)%Q)
    /\ (forall r, r ∈ rows (load_data raw) ->
          has_column "Withdrawals" (load_data raw) = true ->
          is_number (cell r "Withdrawals")
          /\ exists r0, r0 ∈ rows raw
               /\ cell r "Withdrawals"
                  = fillna_zero (to_numeric (cell r0 "Withdrawals"))).
Proof.
  set (ds := load_data raw).
  assert (forall r, r ∈ rows ds -> has_column "Withdrawals" ds = true ->
            is_number (cell r "Withdrawals")
            /\ exists r0, r0 ∈ rows raw
                 /\ cell r "Withdrawals"
                    = fillna_zero (to_numeric (cell r0 "Withdrawals"))) as Hnum.
  { intros r Hr Hcol. destruct (load_data_withdrawals raw Hcol) as (_ & Hback & _).
    destruct (Hback r Hr) as (r0 & Hr0 & E). split; [|eauto].
    rewrite E. apply fillna_to_numeric_number. }
  destruct (has_column "Withdrawals" ds) eqn:Hcol.
  - destruct (get_withdrawal_records_present ds Hcol) as (res & Hres & _ & Hrows).
    { intros Hg. by apply load_data_ordered. }
    assert (forall r', r' ∈ rows res <-> r' ∈ withdrawal_rows ds) as Hin.
    { intros r'. rewrite Hrows. destruct (has_period_columns ds); [|done].
      apply elem_of_stable_sort. }
    exists res. split_and!; [done| | |done].
    + intros r Hr. rewrite Hin, elem_of_withdrawal_rows.
      rewrite <- (ne_zero_amount ds r Hcol) by (by apply Hnum). split.
      * intros (r1 & _ & Hz & E).
        rewrite <- (cell_withdrawal_view ds r "Withdrawals") by done.
        rewrite E. by rewrite cell_withdrawal_view.
      * intros Hz. eauto.
    + intros r' (r & Hr & Hz & ->)%Hin%elem_of_withdrawal_rows.
      exists r. split_and!; [done|done|by apply cell_withdrawal_view|].
      apply (ne_zero_amount ds r Hcol); [by apply Hnum|done].
  - exists empty_frame.
    split_and!; [unfold get_withdrawal_records; fold ds; by rewrite Hcol| | |done].
    + intros r _. unfold withdrawals_of. rewrite Hcol. split; [by intros ?%elem_of_nil|].
      intros Hz. by destruct Hz.
    + by intros r' ?%elem_of_nil.
Qed.

End WithdrawalRecords.

Lemma withdrawal_records_are_the_nonzero_ones_witness :
  exists res,
    @get_withdrawal_records iso_runtime (@load_data iso_runtime withdrawals_table) = Some res
    /\ project ["Unit Holder ID"; "Withdrawals"] res
       = [[VStr "W1"; VInt 100]; [VStr "W3"; VFloat (-101 # 2)]].
Proof.
  destruct (@withdrawal_records_are_the_nonzero_ones iso_runtime withdrawals_table)
    as (res & Hres & _).
  exists res. split; [exact Hres|].
  assert (Some (project ["Unit Holder ID"; "Withdrawals"] res)
          = Some [[VStr "W1"; VInt 100]; [VStr "W3"; VFloat (-101 # 2)]]) as E.
  { change (Some (project ["Unit Holder ID"; "Withdrawals"] res))
      with (project ["Unit Holder ID"; "Withdrawals"] <$> Some res).
    rewrite <- Hres. vm_compute. reflexivity. }
  by injection E.
Defined.

(** The loader turns the missing and the unreadable amount into 0. *)
Example load_data_coerces_withdrawals :
  project ["Unit Holder ID"; "Withdrawals"] (@load_data iso_runtime withdrawals_table)
  = [[VStr "W1"; VInt 100]; [VStr "W2"; VInt 0]; [VStr "W3"; VFloat (-101 # 2)];
     [VStr "W4"; VInt 0]; [VStr "W5"; VInt 0]].
Proof. vm_compute. reflexivity. Qed.

(** ** Retiree records (C4) *)

Section RetireeRecords.
Context `{Runtime}.

Lemma is_retiree_spec r :
  is_retiree r = true
  <-> exists n, calculate_age (cell r "birth_date") = VInt n /\ 60 <= n.
Proof.
  unfold is_retiree. split.
  - destruct (calculate_age _); try done. intros Hn%Z.leb_le. eauto.
  - intros (n & -> & Hn). by apply Z.leb_le.
Qed.

(** C4.  Every row [get_retiree_records] returns on a loaded dataset is a
    record of the dataset with its age added, the age is an integer of at
    least 60 and the birth date is present.  A record whose computed age is
    the sentinel ["N/A"], in particular one without birth date, is not
    returned.  The comparison with 60 never meets a sentinel: the function
    returns on every loaded dataset that has a row, and on every one without
    [birth_date] column. *)
Theorem retiree_records_are_sixty_or_older raw :
  (rows (load_data raw) ≠ [] \/ has_column "birth_date" (load_data raw) = false ->
   exists res, get_retiree_records (load_data raw) = Some res)
  /\ forall res, get_retiree_records (load_data raw) = Some res ->
       (forall r', r' ∈ rows res ->
          exists r n, r ∈ rows (load_data raw) /\ r' = with_age r
            /\ cell r' "Age" = VInt n /\ 60 <= n
            /\ calculate_age (cell r "birth_date") = VInt n
            /\ isna (cell r "birth_date") = false)
       /\ (forall r, r ∈ rows (load_data raw) ->
             calculate_age (cell r "birth_date") = VStr "N/A"
             \/ isna (cell r "birth_date") = true ->
             with_age r ∉ rows res).
Proof.
  set (ds := load_data raw). split.
  - intros Hdata. destruct (has_column "birth_date" ds) eqn:Hcol.
    + destruct Hdata as [Hne|?]; [|done].
      destruct (get_retiree_records_present ds Hcol) as (res & Hres & _);
        [by left|intros Hg; by apply load_data_ordered|].
      by exists res.
    + exists empty_frame. unfold get_retiree_records. by rewrite Hcol.
  - intros res Hres. destruct (has_column "birth_date" ds) eqn:Hcol.
    + destruct (get_retiree_records_returned ds res Hcol Hres) as (_ & Hrows).
      assert (forall r', r' ∈ rows res <-> r' ∈ retiree_rows ds) as Hin.
      { intros r'. rewrite Hrows. destruct (has_period_columns ds); [|done].
        apply elem_of_stable_sort. }
      assert (forall r', r' ∈ rows res ->
                exists r n, r ∈ rows ds /\ r' = with_age r
                  /\ cell r' "Age" = VInt n /\ 60 <= n
                  /\ calculate_age (cell r "birth_date") = VInt n
                  /\ isna (cell r "birth_date") = false) as Hold.
      { intros r' (r & Hr & (n & Hage & Hn)%is_retiree_spec & ->)%Hin%elem_of_retiree_rows.
        exists r, n. split_and!; try done.
        - unfold with_age. by rewrite cell_insert_eq.
        - destruct (isna (cell r "birth_date")) eqn:Hna; [|done].
          rewrite (calculate_age_missing _ Hna) in Hage. done. }
      split; [done|].
      intros r Hr Hna Hmem. destruct (Hold _ Hmem) as (r1 & n & _ & E & Hcell & _ & _ & _).
      assert (calculate_age (cell r "birth_date") = VInt n) as Hage.
      { rewrite <- Hcell. unfold with_age. by rewrite cell_insert_eq. }
      destruct Hna as [Hna|Hna]; [congruence|].
      rewrite (calculate_age_missing _ Hna) in Hage. done.
    + unfold get_retiree_records in Hres. rewrite Hcol in Hres. injection Hres as <-.
      split; [by intros r' ?%elem_of_nil|by intros r _ _ ?%elem_of_nil].
Qed.

End RetireeRecords.

Lemma retiree_records_are_sixty_or_older_witness :
  rows (@load_data iso_runtime birthdays_table) ≠ []
  /\ exists res,
       @get_retiree_records iso_runtime (@load_data iso_runtime birthdays_table) = Some res
       /\ project ["Unit Holder ID"; "Age"] res
          = [[VStr "R1"; VInt 74]; [VStr "R5"; VInt 60]].
Proof.
  assert (rows (@load_data iso_runtime birthdays_table) ≠ []) as Hne.
  { intros E. apply (f_equal length) in E. vm_compute in E. discriminate E. }
  split; [exact Hne|].
  destruct (@retiree_records_are_sixty_or_older iso_runtime birthdays_table) as [Hret _].
  destruct (Hret (or_introl Hne)) as [res Hres].
  exists res. split; [exact Hres|].
  assert (Some (project ["Unit Holder ID"; "Age"] res)
          = Some [[VStr "R1"; VInt 74]; [VStr "R5"; VInt 60]]) as E.
  { change (Some (project ["Unit Holder ID"; "Age"] res))
      with (project ["Unit Holder ID"; "Age"] <$> Some res).
    rewrite <- Hres. vm_compute. reflexivity. }
  by injection E.
Defined.

(** ** Latest record and history (C1) *)

Section LatestRecord.
Context `{Runtime}.

(** C1, as the code has it.  For a loaded dataset with an identifier column
    and an identifier with at least one matching row, the history is the
    matching rows; when the dataset has both the Year and the Month_numeric
    column they are re-sorted ascending by (year, month rank), otherwise they
    keep the order of the dataset; the latest record is the last row of the
    history. *)
Theorem lookup_latest_is_last_of_history raw uid :
  has_column "Unit Holder ID" (load_data raw) = true ->
  matching_rows (load_data raw) uid ≠ [] ->
  exists latest hist r,
    search_by_unit_holder_id (load_data raw) uid = Some (latest, hist)
    /\ rows hist ≡ₚ matching_rows (load_data raw) uid
    /\ (has_period_columns (load_data raw) = true ->
          rows hist = stable_sort (matching_rows (load_data raw) uid)
          /\ ascending (rows hist))
    /\ (has_period_columns (load_data raw) = false ->
          rows hist = matching_rows (load_data raw) uid)
    /\ last (rows hist) = Some r /\ rows latest = [r].
Proof.
  set (ds := load_data raw). intros Hcol Hne.
  destruct (search_by_unit_holder_id_found ds uid Hcol)
    as (latest & hist & r & Hs & _ & _ & Hrows & Hlast & Hlatest);
    [intros Hg; by apply load_data_ordered|done|].
  exists latest, hist, r. split_and!; try done.
  - rewrite Hrows. destruct (has_period_columns ds); [apply stable_sort_perm|done].
  - intros Hg. rewrite Hrows, Hg. split; [done|apply stable_sort_ascending].
  - intros Hg. by rewrite Hrows, Hg.
Qed.

(** The loader has already put the dataset in order, so that the re-sort of
    the lookup changes nothing: the history is the matching rows in the order
    of the dataset. *)
Lemma lookup_history_in_dataset_order raw uid latest hist :
  has_column "Unit Holder ID" (load_data raw) = true ->
  search_by_unit_holder_id (load_data raw) uid = Some (latest, hist) ->
  rows hist = matching_rows (load_data raw) uid.
Proof.
  set (ds := load_data raw). intros Hcol Hs.
  destruct (matching_rows ds uid) as [|r0 l0] eqn:E.
  { rewrite search_by_unit_holder_id_unfold, E in Hs by done. by injection Hs as _ <-. }
  destruct (search_by_unit_holder_id_found ds uid Hcol)
    as (latest' & hist' & r & Hs' & _ & _ & Hrows & _);
    [intros Hg; by apply load_data_ordered|by rewrite E|].
  rewrite Hs in Hs'. injection Hs' as _ <-. rewrite Hrows, <- E.
  destruct (has_period_columns ds) eqn:Hg; [|done].
  apply stable_sort_fixed. unfold matching_rows.
  apply ascending_fmap; [apply period_trimmed_id|].
  apply ascending_filter. by apply load_data_ordered.
Qed.

End LatestRecord.

(** The scenario of the specification: two rows for "A1", 2021/Jan and
    2022/Dec. *)
Lemma lookup_latest_is_last_of_history_witness :
  has_column "Unit Holder ID" (@load_data iso_runtime scenario_table) = true
  /\ @matching_rows iso_runtime (@load_data iso_runtime scenario_table) (VStr "A1") ≠ []
  /\ exists latest hist r,
       @search_by_unit_holder_id iso_runtime
         (@load_data iso_runtime scenario_table) (VStr "A1") = Some (latest, hist)
       /\ rows hist ≡ₚ @matching_rows iso_runtime (@load_data iso_runtime scenario_table) (VStr "A1")
       /\ (has_period_columns (@load_data iso_runtime scenario_table) = true ->
             rows hist = stable_sort
                (@matching_rows iso_runtime (@load_data iso_runtime scenario_table) (VStr "A1"))
             /\ ascending (rows hist))
       /\ (has_period_columns (@load_data iso_runtime scenario_table) = false ->
             rows hist = @matching_rows iso_runtime (@load_data iso_runtime scenario_table) (VStr "A1"))
       /\ last (rows hist) = Some r /\ rows latest = [r].
Proof.
  assert (has_column "Unit Holder ID" (@load_data iso_runtime scenario_table) = true)
    as H1 by (vm_compute; reflexivity).
  assert (@matching_rows iso_runtime (@load_data iso_runtime scenario_table) (VStr "A1") ≠ [])
    as H2.
  { intros E. apply (f_equal length) in E. vm_compute in E. discriminate. }
  split; [exact H1|]. split; [exact H2|].
  exact (@lookup_latest_is_last_of_history iso_runtime _ _ H1 H2).
Defined.

(** The outcome of the scenario: the latest record is the 2022/Dec row and
    the history reads 2021/Jan, 2022/Dec. *)
Example lookup_scenario :
  prod_map lines lines
    <$> @search_by_unit_holder_id iso_runtime (@load_data iso_runtime scenario_table) (VStr "A1")
  = Some ([[VStr "A1"; VInt 2022; VStr "Dec"; VStr "Dec"; VInt 12]],
          [[VStr "A1"; VInt 2021; VStr "Jan"; VStr "Jan"; VInt 1];
           [VStr "A1"; VInt 2022; VStr "Dec"; VStr "Dec"; VInt 12]]).
Proof. vm_compute. reflexivity. Qed.

(** C1 as the specification states it fails on a file without month column: the loader
    and the lookup both skip the sort, the history reads 2022, 2021 and the
    record shown as latest is the one of 2021. *)
Lemma lookup_history_unsorted_without_month_column :
  prod_map lines lines
    <$> @search_by_unit_holder_id iso_runtime (@load_data iso_runtime yearly_table) (VStr "A1")
  = Some ([[VStr "A1"; VInt 2021]], [[VStr "A1"; VInt 2022]; [VStr "A1"; VInt 2021]])
  /\ forall latest hist,
       @search_by_unit_holder_id iso_runtime (@load_data iso_runtime yearly_table) (VStr "A1")
       = Some (latest, hist) ->
       ~ ascending (rows hist).
Proof.
  split; [vm_compute; reflexivity|].
  intros latest hist Hs Ha%ascending_is_ascending.
  assert (rows hist
          = rows (default empty_frame
                    (snd <$> @search_by_unit_holder_id iso_runtime
                               (@load_data iso_runtime yearly_table) (VStr "A1"))))
    as E by (by rewrite Hs).
  rewrite E in Ha. clear E Hs. vm_compute in Ha. discriminate Ha.
Qed.

(** ** Lookup compares trimmed string forms (C6) *)

Section TrimmedLookup.
Context `{Runtime}.

(** The lookup on any table whose key columns can be ranked. *)
Lemma search_by_unit_holder_id_matches df uid :
  has_column "Unit Holder ID" df = true ->
  (has_period_columns df = true -> sortable (rows df)) ->
  exists latest hist,
    search_by_unit_holder_id df uid = Some (latest, hist)
    /\ (forall r', r' ∈ rows hist
          <-> exists r, r ∈ rows df /\ matches uid r /\ r' = trimmed_id r)
    /\ (rows latest ≠ [] <-> exists r, r ∈ rows df /\ matches uid r).
Proof.
  intros Hcol Hsort.
  destruct (matching_rows df uid) as [|r0 l0] eqn:E.
  - exists empty_frame, empty_frame.
    assert (forall r, r ∈ rows df -> ~ matches uid r) as Hno.
    { intros r Hr Hm.
      assert (trimmed_id r ∈ matching_rows df uid) as Hin
        by (apply elem_of_matching_rows; eauto).
      rewrite E in Hin. by apply elem_of_nil in Hin. }
    split_and!; [apply search_by_unit_holder_id_absent; by right| |].
    + intros r'. split; [by intros ?%elem_of_nil|]. intros (r & Hr & Hm & _). by destruct (Hno r).
    + split; [done|]. intros (r & Hr & Hm). by destruct (Hno r).
  - destruct (search_by_unit_holder_id_found df uid Hcol Hsort)
      as (latest & hist & r & Hs & _ & _ & Hrows & _ & Hlatest); [by rewrite E|].
    exists latest, hist. split_and!; [done| |].
    + intros r'. rewrite <- elem_of_matching_rows, Hrows.
      destruct (has_period_columns df); [apply elem_of_stable_sort|done].
    + rewrite Hlatest. split; [intros _|done].
      assert (r0 ∈ matching_rows df uid) as Hin by (rewrite E; left).
      apply elem_of_matching_rows in Hin as (r1 & Hr1 & Hm & _). eauto.
Qed.

(** The cell the lookup compares is the text of a stored text, trimmed, and
    the text of a stored number. *)
Lemma matches_text (r : Row) a uid :
  cell r "Unit Holder ID" = VStr a ->
  matches uid r <-> PyStr.strip a = PyStr.strip (py_str uid).
Proof.
  intros E. unfold matches. rewrite E. unfold astype_str. simpl.
  split; [by intros [= ->]|by intros ->].
Qed.

Lemma matches_number (r : Row) x uid :
  cell r "Unit Holder ID" = number_value x ->
  matches uid r <-> PyStr.strip (py_str (number_value x)) = PyStr.strip (py_str uid).
Proof.
  intros E. unfold matches. rewrite E. unfold astype_str.
  destruct x; simpl; (split; [by intros [= ->]|by intros ->]).
Qed.

(** C6.  On a loaded dataset with an identifier column the lookup returns,
    the history holds exactly the rows whose identifier, as
    [astype(str).str.strip()] leaves it, is the trimmed string form of the
    query, and a record is found exactly when there is such a row.  A stored
    text and a query that are one text with white space around it match,
    and so do a stored number and its text, whichever side is which.  The
    text of a float is that of the float: a float cell is found by a query
    only when the query has the trimmed text [float_str] gives, which for
    the float 123.0 is not the text of the integer 123. *)
Theorem lookup_compares_trimmed_string_forms raw uid :
  has_column "Unit Holder ID" (load_data raw) = true ->
  (exists latest hist,
     search_by_unit_holder_id (load_data raw) uid = Some (latest, hist)
     /\ (forall r', r' ∈ rows hist
           <-> exists r, r ∈ rows (load_data raw) /\ matches uid r /\ r' = trimmed_id r)
     /\ (rows latest ≠ [] <-> exists r, r ∈ rows (load_data raw) /\ matches uid r))
  /\ (forall (r : Row) core a b, cell r "Unit Holder ID" = VStr a ->
        padded core a -> padded core b -> matches (VStr b) r)
  /\ (forall (r : Row) x b, cell r "Unit Holder ID" = number_value x ->
        padded (py_str (number_value x)) b -> matches (VStr b) r)
  /\ (forall (r : Row) x a, cell r "Unit Holder ID" = VStr a ->
        padded (py_str (number_value x)) a -> matches (number_value x) r)
  /\ (forall (r : Row) q, cell r "Unit Holder ID" = VFloat q ->
        matches uid r <-> PyStr.strip (float_str q) = PyStr.strip (py_str uid)).
Proof.
  intros Hcol. split_and!.
  - apply search_by_unit_holder_id_matches; [done|].
    intros Hg. by apply load_data_ordered.
  - intros r core a b E Ha Hb. apply (matches_text r a _ E). simpl.
    by rewrite (PyStrFacts.strip_padded core a), (PyStrFacts.strip_padded core b).
  - intros r x b E Hb. apply (matches_number r x _ E). simpl.
    by rewrite (PyStrFacts.strip_padded _ b Hb).
  - intros r x a E Ha. apply (matches_text r a _ E).
    by rewrite (PyStrFacts.strip_padded _ a Ha).
  - intros r q E. apply (matches_number r (NFloat q) uid E).
Qed.

End TrimmedLookup.

(** An identifier column read as floats: neither the text "123" nor the
    number 123 finds the record stored as 123.0. *)
Lemma lookup_compares_trimmed_string_forms_witness :
  has_column "Unit Holder ID" (@load_data iso_runtime float_id_table) = true
  /\ (exists latest hist,
        @search_by_unit_holder_id iso_runtime
          (@load_data iso_runtime float_id_table) (VStr "123") = Some (latest, hist)
        /\ rows latest = [] /\ rows hist = [])
  /\ (exists latest hist,
        @search_by_unit_holder_id iso_runtime
          (@load_data iso_runtime float_id_table) (VInt 123) = Some (latest, hist)
        /\ rows latest = [] /\ rows hist = []).
Proof.
  assert (has_column "Unit Holder ID" (@load_data iso_runtime float_id_table) = true)
    as H1 by (vm_compute; reflexivity).
  split; [exact H1|]. split.
  - destruct (@lookup_compares_trimmed_string_forms iso_runtime _ (VStr "123") H1)
      as ((latest & hist & Hs & _) & _).
    exists latest, hist. split; [exact Hs|].
    assert (Some (rows latest) = Some [] /\ Some (rows hist) = Some []) as [E1 E2].
    { change (Some (rows latest)) with ((rows ∘ fst) <$> Some (latest, hist)).
      change (Some (rows hist)) with ((rows ∘ snd) <$> Some (latest, hist)).
      rewrite <- Hs. split; vm_compute; reflexivity. }
    clear Hs H1. split; [exact (inj Some _ _ E1)|exact (inj Some _ _ E2)].
  - destruct (@lookup_compares_trimmed_string_forms iso_runtime _ (VInt 123) H1)
      as ((latest & hist & Hs & _) & _).
    exists latest, hist. split; [exact Hs|].
    assert (Some (rows latest) = Some [] /\ Some (rows hist) = Some []) as [E1 E2].
    { change (Some (rows latest)) with ((rows ∘ fst) <$> Some (latest, hist)).
      change (Some (rows hist)) with ((rows ∘ snd) <$> Some (latest, hist)).
      rewrite <- Hs. split; vm_compute; reflexivity. }
    clear Hs H1. split; [exact (inj Some _ _ E1)|exact (inj Some _ _ E2)].
Defined.

(** Looking up the text " 123 " and the number 123 against the stored text
    "123" both find the record. *)
Example lookup_padded_text_and_number :
  (lines ∘ fst) <$> @search_by_unit_holder_id iso_runtime
                      (@load_data iso_runtime stored_123_table) (VStr " 123 ")
  = Some [[VStr "123"; VInt 2021; VStr "Jan"; VStr "Jan"; VInt 1]]
  /\ (lines ∘ fst) <$> @search_by_unit_holder_id iso_runtime
                         (@load_data iso_runtime stored_123_table) (VInt 123)
     = Some [[VStr "123"; VInt 2021; VStr "Jan"; VStr "Jan"; VInt 1]].
Proof. split; vm_compute; reflexivity. Qed.

(** The record stored as the float 123.0 is found under the text of the
    float only. *)
Example lookup_float_identifier :
  @search_by_unit_holder_id iso_runtime (@load_data iso_runtime float_id_table) (VStr "123")
  = Some (empty_frame, empty_frame)
  /\ @search_by_unit_holder_id iso_runtime (@load_data iso_runtime float_id_table) (VInt 123)
     = Some (empty_frame, empty_frame)
  /\ (lines ∘ fst) <$> @search_by_unit_holder_id iso_runtime
                         (@load_data iso_runtime float_id_table) (VStr "123.0")
     = Some [[VStr "123.0"; VInt 2021; VStr "Jan"; VStr "Jan"; VInt 1]].
Proof. split_and!; vm_compute; reflexivity. Qed.

(** ** Sort order of the dataset and of the query results (C7) *)

Lemma has_null_spec r : has_null r = true <-> null_year r \/ null_month r.
Proof.
  unfold has_null, null_year, null_month.
  destruct ((period r).1), ((period r).2);
    (split; [intros ?; first [by left|by right|done]|intros [?|?]; done]).
Qed.

Lemma nulls_after_all_head a b l :
  nulls_after_all (a :: b :: l) -> has_null a = true -> has_null b = true.
Proof. intros Hn Ha. apply has_null_spec, (Hn [] a [] b l eq_refl), has_null_spec, Ha. Qed.

Lemma ascending_chronological l : ascending l -> chronological l.
Proof.
  intros Ha. split; [done|]. intros l1 a l2 b l3 ->. by apply ascending_nulls_last in Ha.
Qed.

Lemma chronological_nil : chronological [].
Proof. apply ascending_chronological. constructor. Qed.

Section SortOrder.
Context `{Runtime}.

(** C7, as the code has it.  When the loaded dataset has both the Year and
    the Month_numeric column, the dataset, the history of every lookup and
    the results of both filters are sorted ascending by (year, month rank),
    a missing year after every year and, within one year, a missing month
    rank after every month rank.  The lookup and the withdrawal filter
    return on every such dataset, the retiree filter on every one that has a
    row. *)
Theorem loaded_and_queried_tables_are_chronological raw :
  has_period_columns (load_data raw) = true ->
  chronological (rows (load_data raw))
  /\ (forall uid, exists latest hist,
        search_by_unit_holder_id (load_data raw) uid = Some (latest, hist)
        /\ chronological (rows hist))
  /\ (exists res, get_withdrawal_records (load_data raw) = Some res
        /\ chronological (rows res))
  /\ (rows (load_data raw) ≠ [] ->
      exists res, get_retiree_records (load_data raw) = Some res)
  /\ (forall res, get_retiree_records (load_data raw) = Some res ->
        chronological (rows res)).
Proof.
  set (ds := load_data raw). intros Hg.
  destruct (load_data_ordered raw Hg) as [Hsort Hasc]. fold ds in Hsort, Hasc.
  split_and!.
  - by apply ascending_chronological.
  - intros uid. destruct (has_column "Unit Holder ID" ds) eqn:Hcol.
    + destruct (matching_rows ds uid) as [|r0 l0] eqn:E.
      * exists empty_frame, empty_frame. split; [|apply chronological_nil].
        apply search_by_unit_holder_id_absent. right. intros r Hr Hm.
        assert (trimmed_id r ∈ matching_rows ds uid) as Hin
          by (apply elem_of_matching_rows; eauto).
        rewrite E in Hin. by apply elem_of_nil in Hin.
      * destruct (search_by_unit_holder_id_found ds uid Hcol)
          as (latest & hist & r & Hs & _ & _ & Hrows & _); [done|by rewrite E|].
        exists latest, hist. split; [done|]. rewrite Hrows, Hg.
        apply ascending_chronological, stable_sort_ascending.
    + exists empty_frame, empty_frame. split; [|apply chronological_nil].
      apply search_by_unit_holder_id_absent. by left.
  - destruct (has_column "Withdrawals" ds) eqn:Hcol.
    + destruct (get_withdrawal_records_present ds Hcol) as (res & Hres & _ & Hrows); [done|].
      exists res. split; [done|]. rewrite Hrows, Hg.
      apply ascending_chronological, stable_sort_ascending.
    + exists empty_frame. split; [|apply chronological_nil].
      unfold get_withdrawal_records. by rewrite Hcol.
  - intros Hne. destruct (has_column "birth_date" ds) eqn:Hcol.
    + destruct (get_retiree_records_present ds Hcol) as (res & Hres & _);
        [by left|done|].
      by exists res.
    + exists empty_frame. unfold get_retiree_records. by rewrite Hcol.
  - intros res Hres. destruct (has_column "birth_date" ds) eqn:Hcol.
    + destruct (get_retiree_records_returned ds res Hcol Hres) as (_ & Hrows).
      rewrite Hrows, Hg. apply ascending_chronological, stable_sort_ascending.
    + unfold get_retiree_records in Hres. rewrite Hcol in Hres. injection Hres as <-.
      apply chronological_nil.
Qed.

End SortOrder.

Lemma loaded_and_queried_tables_are_chronological_witness :
  has_period_columns (@load_data iso_runtime unknown_month_table) = true
  /\ chronological (rows (@load_data iso_runtime unknown_month_table))
  /\ rows (@load_data iso_runtime unknown_month_table) ≠ []
  /\ exists res,
       @get_retiree_records iso_runtime (@load_data iso_runtime unknown_month_table)
       = Some res.
Proof.
  assert (has_period_columns (@load_data iso_runtime unknown_month_table) = true)
    as Hg by (vm_compute; reflexivity).
  assert (rows (@load_data iso_runtime unknown_month_table) ≠ []) as Hne.
  { intros E. apply (f_equal length) in E. vm_compute in E. discriminate E. }
  destruct (@loaded_and_queried_tables_are_chronological iso_runtime _ Hg)
    as (Hc & _ & _ & Hr & _).
  split; [exact Hg|]. split; [exact Hc|]. split; [exact Hne|]. exact (Hr Hne).
Defined.

(** C7 as the specification states it fails twice.  With both key columns, a record with a
    year and an unreadable month is placed by its year: here the 2020 record
    without month rank precedes the 2021/Jan record.  Without a month column
    the loader does not sort at all: the rows stay 2022, 2021. *)
Lemma sort_order_counterexamples :
  lines (@load_data iso_runtime unknown_month_table)
  = [[VStr "A1"; VInt 2020; VStr "13th"; VStr "13th"; VNaN];
     [VStr "A1"; VInt 2021; VStr "Jan"; VStr "Jan"; VInt 1]]
  /\ ~ nulls_after_all (rows (@load_data iso_runtime unknown_month_table))
  /\ lines (@load_data iso_runtime yearly_table)
     = [[VStr "A1"; VInt 2022]; [VStr "A1"; VInt 2021]]
  /\ ~ ascending (rows (@load_data iso_runtime yearly_table)).
Proof.
  split_and!; [vm_compute; reflexivity| |vm_compute; reflexivity|].
  - intros Hn.
    destruct (rows (@load_data iso_runtime unknown_month_table)) as [|a [|b l]] eqn:E;
      [apply (f_equal length) in E; vm_compute in E; discriminate..|].
    pose proof (nulls_after_all_head _ _ _ Hn) as Hab.
    assert (has_null <$> (a :: b :: l) = [true; false]) as Hk
      by (rewrite <- E; vm_compute; reflexivity).
    injection Hk as Ha Hb _. rewrite Ha, Hb in Hab. by specialize (Hab eq_refl).
  - intros Ha%ascending_is_ascending. vm_compute in Ha. discriminate.
Qed.

(** ** Queries without data (C8) *)

Section NoData.
Context `{Runtime}.

(** An identifier that no row carries, in particular any identifier on an
    empty table or on a table without identifier column, gives two empty
    tables; a table without rows, or without [Withdrawals] column, gives an
    empty withdrawal result; a table without [birth_date] column, or without
    rows and with a [birth_date] column that is not of dtype datetime64,
    gives an empty retiree result. *)
Lemma queries_return_empty_without_data df :
  (forall uid,
     has_column "Unit Holder ID" df = false
     \/ (forall r, r ∈ rows df -> ~ matches uid r) ->
     search_by_unit_holder_id df uid = Some (empty_frame, empty_frame))
  /\ (rows df = [] \/ has_column "Withdrawals" df = false ->
      exists res, get_withdrawal_records df = Some res /\ rows res = [])
  /\ (has_column "birth_date" df = false
      \/ (rows df = [] /\ "birth_date" ∉ datetimes df) ->
      exists res, get_retiree_records df = Some res /\ rows res = []).
Proof.
  split_and!.
  - intros uid. apply search_by_unit_holder_id_absent.
  - intros Hno. destruct (has_column "Withdrawals" df) eqn:Hcol.
    + destruct Hno as [Hrows|?]; [|done].
      destruct (get_withdrawal_records_present df Hcol) as (res & Hres & _ & Hr).
      { intros _. rewrite Hrows. apply sortable_nil. }
      exists res. split; [done|]. rewrite Hr. unfold withdrawal_rows. rewrite Hrows.
      by destruct (has_period_columns df).
    + exists empty_frame. unfold get_withdrawal_records. by rewrite Hcol.
  - intros Hno. destruct (has_column "birth_date" df) eqn:Hcol.
    + destruct Hno as [?|[Hrows Hdt]]; [done|].
      destruct (get_retiree_records_present df Hcol) as (res & Hres & _ & Hr).
      { by right. }
      { intros _. rewrite Hrows. apply sortable_nil. }
      exists res. split; [done|]. rewrite Hr. unfold retiree_rows. rewrite Hrows.
      by destruct (has_period_columns df).
    + exists empty_frame. unfold get_retiree_records. by rewrite Hcol.
Qed.

(** C8, as the code has it.  On the dataset loaded from a file that has a
    date column and no record, the lookup returns two empty tables for
    every identifier and [get_withdrawal_records] returns an empty table,
    but [get_retiree_records] raises: the ages of a table without rows keep
    the dtype datetime64 of the birth dates, and comparing them with 60 is a
    [TypeError]. *)
Theorem retiree_query_raises_without_rows raw c :
  rows raw = [] ->
  birth_column raw = Some c ->
  rows (load_data raw) = []
  /\ has_column "birth_date" (load_data raw) = true
  /\ (forall uid,
        search_by_unit_holder_id (load_data raw) uid = Some (empty_frame, empty_frame))
  /\ (exists res, get_withdrawal_records (load_data raw) = Some res /\ rows res = [])
  /\ get_retiree_records (load_data raw) = None.
Proof.
  intros Hrows Hb.
  destruct (normalize_total raw) as [df Hn]; [intros _; by rewrite Hrows|].
  unfold load_data. rewrite Hn. simpl.
  assert (rows df = []) as Hnil.
  { apply length_zero_iff_nil. by rewrite (normalize_length raw df Hn), Hrows. }
  destruct (normalize_birth_date raw df c Hn Hb) as [Hcol Hdt].
  destruct (queries_return_empty_without_data df) as (Hs & Hw & _).
  split_and!; [done|done| | |].
  - intros uid. apply Hs. right. rewrite Hnil. by intros r ?%elem_of_nil.
  - apply Hw. by left.
  - by apply get_retiree_records_raises.
Qed.

End NoData.

Lemma retiree_query_raises_without_rows_witness :
  rows header_only_table = []
  /\ birth_column header_only_table = Some "DOB"
  /\ @search_by_unit_holder_id iso_runtime (@load_data iso_runtime header_only_table)
       (VStr "A12") = Some (empty_frame, empty_frame)
  /\ (exists res, @get_withdrawal_records iso_runtime
                    (@load_data iso_runtime header_only_table) = Some res
                  /\ rows res = [])
  /\ @get_retiree_records iso_runtime (@load_data iso_runtime header_only_table) = None.
Proof.
  destruct (@retiree_query_raises_without_rows iso_runtime header_only_table "DOB"
              eq_refl eq_refl) as (_ & _ & Hs & Hw & Hr).
  split; [reflexivity|]. split; [reflexivity|].
  split; [apply Hs|]. split; [exact Hw|exact Hr].
Defined.

(** The same queries on the empty table [load_data] answers when there is no
    file: none raises. *)
Example queries_on_the_empty_table :
  @search_by_unit_holder_id iso_runtime empty_frame (VStr "A12")
  = Some (empty_frame, empty_frame)
  /\ @get_withdrawal_records iso_runtime empty_frame = Some empty_frame
  /\ @get_retiree_records iso_runtime empty_frame = Some empty_frame.
Proof. split_and!; reflexivity. Qed.

(** ** The queries do not touch the caller's table (C10) *)

Module ImperativeFacts.
Local Open Scope list_scope.
Local Open Scope nat_scope.

Lemma run_bind {A B} (m : Imperative.St A) (f : A -> Imperative.St B) h :
  (m ≫= f) h
  = match m h with (Some a, h') => f a h' | (None, h') => (None, h') end.
Proof. done. Qed.

Lemma run_ret {A} (a : A) (h : Imperative.Heap) : (mret a : Imperative.St A) h = (Some a, h).
Proof. done. Qed.

Lemma deref_old (h ext : Imperative.Heap) l d :
  h !! l = Some d -> Imperative.deref l (h ++ ext) = (Some d, h ++ ext).
Proof. intros Hl. unfold Imperative.deref. by rewrite (lookup_app_l_Some _ _ _ _ Hl). Qed.

Lemma deref_new (h ext : Imperative.Heap) k :
  Imperative.deref (length h + k) (h ++ ext) = (ext !! k, h ++ ext).
Proof. unfold Imperative.deref. by rewrite lookup_app_r, Nat.add_comm, Nat.add_sub by lia. Qed.

Lemma new_frame_ext (h ext : Imperative.Heap) d :
  Imperative.new_frame d (h ++ ext) = (Some (length h + length ext), h ++ (ext ++ [d])).
Proof. unfold Imperative.new_frame. by rewrite length_app, app_assoc. Qed.

Lemma store_new (h ext : Imperative.Heap) k d :
  Imperative.store (length h + k) d (h ++ ext) = (Some tt, h ++ <[k := d]> ext).
Proof. unfold Imperative.store. by rewrite insert_app_r. Qed.

Lemma lookup_new (h ext : Imperative.Heap) k : (h ++ ext) !! (length h + k) = ext !! k.
Proof. by rewrite lookup_app_r, Nat.add_comm, Nat.add_sub by lia. Qed.

Section Runs.
Context `{Runtime}.

Lemma run_lift {A} (o : option A) (h : Imperative.Heap) : Imperative.lift o h = (o, h).
Proof. done. Qed.

Ltac run_step :=
  first
    [ rewrite run_bind
    | rewrite run_ret
    | rewrite run_lift
    | rewrite deref_new
    | rewrite new_frame_ext
    | rewrite store_new
    | erewrite deref_old by eassumption ];
  cbv beta iota;
  cbn [length app lookup list_lookup insert list_insert Nat.add].

Ltac run_done :=
  intros ->; eexists; split; [reflexivity|]; cbn [fst snd];
  first
    [ reflexivity
    | eexists _, _; split_and!; [reflexivity|rewrite lookup_new; reflexivity..]
    | eexists; split; [reflexivity|rewrite lookup_new; reflexivity] ].

Lemma search_run (h : Imperative.Heap) df d uid :
  h !! df = Some d ->
  exists ext,
    (Imperative.search_by_unit_holder_id df uid h).2 = h ++ ext
    /\ match search_by_unit_holder_id d uid with
       | Some (latest, hist) =>
           exists l1 l2,
             (Imperative.search_by_unit_holder_id df uid h).1 = Some (l1, l2)
             /\ (h ++ ext) !! l1 = Some latest /\ (h ++ ext) !! l2 = Some hist
       | None => (Imperative.search_by_unit_holder_id df uid h).1 = None
       end.
Proof.
  intros Hd.
  set (run := Imperative.search_by_unit_holder_id df uid h).
  assert (run = Imperative.search_by_unit_holder_id df uid (h ++ [])) as Hrun by (by rewrite app_nil_r).
  clearbody run. revert Hrun.
  unfold Imperative.search_by_unit_holder_id, search_by_unit_holder_id.
  unfold Imperative.copy, Imperative.setitem, Imperative.getitem_mask, Imperative.sort_guarded, Imperative.take_last, sort_chronologically.
  repeat run_step.
  destruct (has_column "Unit Holder ID" d) eqn:Hcol; cbn [negb]; cbv iota; repeat run_step;
    [|run_done].
  match goal with |- context [select ?p ?x] => set (sel := select p x) end.
  destruct (length (rows sel) =? 0) eqn:Hlen; repeat run_step; [run_done|].
  destruct (has_period_columns sel) eqn:Hg; repeat run_step.
  - destruct (sort_values sel) as [sorted|] eqn:Hs; repeat run_step; [|run_done].
    cbn [mbind option_bind].
    destruct (iloc_last sorted) as [latest|] eqn:Hl; repeat run_step; run_done.
  - cbn [mbind option_bind].
    destruct (iloc_last sel) as [latest|] eqn:Hl; repeat run_step; run_done.
Qed.

Lemma withdrawal_run (h : Imperative.Heap) df d :
  h !! df = Some d ->
  exists ext,
    (Imperative.get_withdrawal_records df h).2 = h ++ ext
    /\ match get_withdrawal_records d with
       | Some res =>
           exists l, (Imperative.get_withdrawal_records df h).1 = Some l
                     /\ (h ++ ext) !! l = Some res
       | None => (Imperative.get_withdrawal_records df h).1 = None
       end.
Proof.
  intros Hd.
  set (run := Imperative.get_withdrawal_records df h).
  assert (run = Imperative.get_withdrawal_records df (h ++ [])) as Hrun
    by (by rewrite app_nil_r).
  clearbody run. revert Hrun.
  unfold Imperative.get_withdrawal_records, get_withdrawal_records.
  unfold Imperative.copy, Imperative.setitem_apply, Imperative.getitem_mask,
    Imperative.sort_guarded, sort_chronologically.
  cbv zeta. repeat run_step.
  destruct (has_column "Withdrawals" d) eqn:Hcol; cbn [negb]; cbv iota; repeat run_step;
    [|run_done].
  match goal with |- context [select ?p ?x] => set (sel := select p x) end.
  destruct (has_column "birth_date" sel) eqn:Hb; repeat run_step.
  - match goal with
    | |- context [assign_apply ?c ?src ?f ?x] => set (aged := assign_apply c src f x)
    end.
    destruct (has_period_columns aged) eqn:Hg; repeat run_step; [|run_done].
    destruct (sort_values aged) as [sorted|] eqn:Hs; repeat run_step; run_done.
  - destruct (has_period_columns sel) eqn:Hg; repeat run_step; [|run_done].
    destruct (sort_values sel) as [sorted|] eqn:Hs; repeat run_step; run_done.
Qed.

Lemma retiree_run (h : Imperative.Heap) df d :
  h !! df = Some d ->
  exists ext,
    (Imperative.get_retiree_records df h).2 = h ++ ext
    /\ match get_retiree_records d with
       | Some res =>
           exists l, (Imperative.get_retiree_records df h).1 = Some l
                     /\ (h ++ ext) !! l = Some res
       | None => (Imperative.get_retiree_records df h).1 = None
       end.
Proof.
  intros Hd.
  set (run := Imperative.get_retiree_records df h).
  assert (run = Imperative.get_retiree_records df (h ++ [])) as Hrun
    by (by rewrite app_nil_r).
  clearbody run. revert Hrun.
  unfold Imperative.get_retiree_records, get_retiree_records.
  unfold Imperative.copy, Imperative.setitem_apply, Imperative.getitem_mask,
    Imperative.getitem_ge, Imperative.sort_guarded, sort_chronologically.
  cbv zeta. repeat run_step.
  destruct (has_column "birth_date" d) eqn:Hcol; cbn [negb]; cbv iota; repeat run_step;
    [|run_done].
  match goal with
  | |- context [select_ge ?c ?k ?x] => destruct (select_ge c k x) as [kept|] eqn:Hk
  end; repeat run_step; [|run_done].
  cbn [mbind option_bind].
  destruct (has_period_columns kept) eqn:Hg; repeat run_step; [|run_done].
  destruct (sort_values kept) as [sorted|] eqn:Hs; repeat run_step; run_done.
Qed.

(** C10.  Whatever the store holds, running a query on the table at [df]
    leaves every object that was in the store before the call as it was, the
    caller's table among them: the functions write only to objects they have
    created. *)
Theorem queries_leave_the_dataset_unchanged (h : Imperative.Heap) df d uid :
  h !! df = Some d ->
  (forall l x, h !! l = Some x ->
     (Imperative.search_by_unit_holder_id df uid h).2 !! l = Some x)
  /\ (forall l x, h !! l = Some x ->
       (Imperative.get_withdrawal_records df h).2 !! l = Some x)
  /\ (forall l x, h !! l = Some x ->
       (Imperative.get_retiree_records df h).2 !! l = Some x).
Proof.
  intros Hd.
  destruct (search_run h df d uid Hd) as (e1 & -> & _).
  destruct (withdrawal_run h df d Hd) as (e2 & -> & _).
  destruct (retiree_run h df d Hd) as (e3 & -> & _).
  split_and!; intros l x Hl; by apply lookup_app_l_Some.
Qed.

End Runs.

End ImperativeFacts.

Lemma queries_leave_the_dataset_unchanged_witness :
  [@load_data iso_runtime scenario_table] !! 0%nat
  = Some (@load_data iso_runtime scenario_table)
  /\ (@Imperative.search_by_unit_holder_id iso_runtime 0%nat (VStr "A1")
        [@load_data iso_runtime scenario_table]).2 !! 0%nat
     = Some (@load_data iso_runtime scenario_table)
  /\ (@Imperative.get_withdrawal_records iso_runtime 0%nat
        [@load_data iso_runtime scenario_table]).2 !! 0%nat
     = Some (@load_data iso_runtime scenario_table)
  /\ (@Imperative.get_retiree_records iso_runtime 0%nat
        [@load_data iso_runtime scenario_table]).2 !! 0%nat
     = Some (@load_data iso_runtime scenario_table).
Proof.
  pose proof (@ImperativeFacts.queries_leave_the_dataset_unchanged iso_runtime
                [@load_data iso_runtime scenario_table] 0%nat
                (@load_data iso_runtime scenario_table) (VStr "A1") eq_refl)
    as (Hs & Hw & Hr).
  split; [reflexivity|].
  split; [apply Hs; reflexivity|]. split; [apply Hw; reflexivity|apply Hr; reflexivity].
Defined.

(** ** Export (C5) *)

Section ExportBlocks.
Context `{Runtime}.

Lemma cell_restrict (cols : list string) (r : Row) c :
  c ∈ cols -> cell (filter (fun kv : string * Value => kv.1 ∈ cols) r) c = cell r c.
Proof.
  intros Hc. unfold cell. rewrite map_lookup_filter.
  destruct (r !! c); simpl; [|done]. by rewrite option_guard_True.
Qed.

(** Outside ['Month'] an exported row has the cells of the row it is made
    from, and under ['Month'] it has the label kept in ['Month_original']. *)
Lemma cell_export_row df r c :
  c ∈ columns df ->
  cell (export_row df r) c
  = if bool_decide (c = "Month") && has_column "Month_original" df
    then cell r "Month_original" else cell r c.
Proof.
  intros Hc. unfold export_row.
  destruct (has_column "Month_original" df) eqn:Hm.
  - apply bool_decide_eq_true in Hm. case_bool_decide as E; simpl.
    + subst c. by rewrite cell_insert_eq, cell_restrict.
    + rewrite cell_insert_ne by done. by apply cell_restrict.
  - rewrite andb_false_r. by apply cell_restrict.
Qed.

(** The export has the columns of the dataset, in the order of the dataset. *)
Lemma export_frame_Some df records e :
  export_frame df records = Some e ->
  (has_column "Month_original" df = true -> has_column "Month" df = true) ->
  columns e = columns df /\ rows e = export_row df <$> rows records.
Proof.
  unfold export_frame, getitem_columns.
  destruct (forallb _ (columns df)); simpl; [|done].
  set (picked := mkFrame (columns df) _ _).
  assert (has_column "Month_original" picked = has_column "Month_original" df)
    as -> by done.
  unfold export_row. intros [= <-] Hmonth.
  destruct (has_column "Month_original" df) eqn:Hm; simpl; [|done].
  assert (has_column "Month" picked = has_column "Month" df) as -> by done.
  rewrite Hmonth by done. split; [done|]. by rewrite <- list_fmap_compose.
Qed.

(** The export of the withdrawals tab carries, for every selected record, the
    cells of the dataset under every column of the dataset other than
    ['Month'] and ['Age']; the identifier is exported as stored. *)
Lemma withdrawals_tab_export_keeps_cells df keep e :
  (has_column "Month_original" df = true -> has_column "Month" df = true) ->
  withdrawals_tab_export df keep = Some (Some e) ->
  columns e = columns df
  /\ forall r', r' ∈ rows e ->
       exists r, r ∈ rows df
         /\ forall c, c ∈ columns df -> c ≠ "Month" -> c ≠ "Age" ->
              cell r' c = cell r c.
Proof.
  intros Hmonth. unfold withdrawals_tab_export.
  destruct (get_withdrawal_records df) as [wr|] eqn:Hw; simpl; [|done].
  destruct (length (rows wr) =? 0)%nat; [by intros [=]|].
  destruct (0 <? _)%nat; [|by intros [=]].
  destruct (export_frame df (select keep wr)) as [e'|] eqn:He; simpl; [|done].
  intros [= <-]. apply export_frame_Some in He as [Hcols Hrows]; [|done].
  split; [done|]. intros r'. rewrite Hrows. intros (r1 & -> & Hr1)%list_elem_of_fmap.
  simpl in Hr1. apply list_elem_of_In, filter_In in Hr1 as [Hr1%list_elem_of_In _].
  assert (exists r, r ∈ rows df /\ r1 = withdrawal_view df r) as (r & Hr & ->).
  { revert Hw Hr1. unfold get_withdrawal_records.
    destruct (has_column "Withdrawals" df); simpl;
      [|by intros [= <-] ?%elem_of_nil].
    intros (_ & Hp & _)%sort_chronologically_Some. rewrite Hp.
    assert (has_column "birth_date"
              (select (fun r => ne_zero (cell r "Withdrawals")) df)
            = has_column "birth_date" df) as -> by done.
    unfold withdrawal_view.
    destruct (has_column "birth_date" df); simpl.
    - intros (r & -> & Hr%list_elem_of_In%filter_In)%list_elem_of_fmap.
      destruct Hr as [Hr%list_elem_of_In _]. eauto.
    - intros Hr%list_elem_of_In%filter_In.
      destruct Hr as [Hr%list_elem_of_In _]. eauto. }
  exists r. split; [done|]. intros c Hc Hm Ha.
  rewrite cell_export_row by done.
  rewrite (bool_decide_eq_false_2 (c = "Month")) by done. simpl.
  by apply cell_withdrawal_view.
Qed.

End ExportBlocks.

(** C5, the case the lookup tab misses.  A record stored under " A12 " is
    found by looking up "A12"; the table behind the download button has the
    columns of the dataset in their order and the month label under
    ['Month'], but its identifier cell is "A12", the trimmed form the lookup
    wrote into its copy, not the stored " A12 ".  The file stored under
    "A12" exports the same table, so nothing read back from the export can
    tell the two datasets apart. *)
Theorem lookup_export_rewrites_identifier :
  lines (@load_data iso_runtime padded_id_table)
  = [[VStr " A12 "; VInt 2021; VStr "Jan"; VStr "Jan"; VInt 1]]
  /\ (fun e => (columns e, lines e))
       <$> exported_latest
             (@records_lookup_tab iso_runtime (@load_data iso_runtime padded_id_table) "A12")
     = Some (["Unit Holder ID"; "Year"; "Month"; "Month_original"; "Month_numeric"],
             [[VStr "A12"; VInt 2021; VStr "Jan"; VStr "Jan"; VInt 1]])
  /\ exported_latest
       (@records_lookup_tab iso_runtime (@load_data iso_runtime padded_id_table) "A12")
     = exported_latest
         (@records_lookup_tab iso_runtime (@load_data iso_runtime plain_id_table) "A12")
  /\ @load_data iso_runtime padded_id_table ≠ @load_data iso_runtime plain_id_table.
Proof.
  split_and!; [vm_compute; reflexivity..|].
  intros E. apply (f_equal lines) in E. vm_compute in E. discriminate E.
Qed.
(** * Further properties of the program *)

(** ** Which file is loaded *)

Lemma csv_files_spec listing f :
  f ∈ csv_files listing <-> f ∈ listing /\ endswith ".csv" f = true.
Proof. unfold csv_files. by rewrite !list_elem_of_In, filter_In. Qed.

(** The first element a filter keeps, with what precedes it. *)
Lemma filter_head_split (p : string -> bool) l x xs :
  List.filter p l = x :: xs ->
  exists l1 l2, l = (l1 ++ x :: l2)%list /\ (forall y, y ∈ l1 -> p y = false).
Proof.
  induction l as [|a l IH]; simpl; [done|].
  destruct (p a) eqn:Ea.
  - intros [= -> _]. exists [], l. split; [done|]. by intros y ?%elem_of_nil.
  - intros (l1 & l2 & -> & Hl1)%IH. exists (a :: l1), l2. split; [done|].
    intros y [->|Hy]%elem_of_cons; [done|by apply Hl1].
Qed.

(** X1.  [load_data] reads no file exactly when no name of the directory
    ends in [.csv].  Otherwise the file it reads is a name of the directory
    that ends in [.csv]: [Combined.csv] whenever the directory has it, and
    else the first such name of the listing. *)
Theorem file_to_use_spec listing :
  (file_to_use listing = None
   <-> forall f, f ∈ listing -> endswith ".csv" f = false)
  /\ (forall f, file_to_use listing = Some f ->
        f ∈ listing /\ endswith ".csv" f = true
        /\ ("Combined.csv" ∈ listing -> f = "Combined.csv")
        /\ ("Combined.csv" ∉ listing ->
            exists l1 l2, listing = (l1 ++ f :: l2)%list
              /\ forall g, g ∈ l1 -> endswith ".csv" g = false)).
Proof.
  unfold file_to_use. split.
  - destruct (csv_files listing) as [|x xs] eqn:E.
    + split; [intros _ f Hf|done].
      destruct (endswith ".csv" f) eqn:Ef; [|done].
      assert (f ∈ csv_files listing) as Hin by (by apply csv_files_spec).
      rewrite E in Hin. by apply elem_of_nil in Hin.
    + split; [done|]. intros Hno.
      assert (x ∈ csv_files listing) as Hin by (rewrite E; left).
      apply csv_files_spec in Hin as [Hx Hcsv]. rewrite (Hno x Hx) in Hcsv. done.
  - intros f. destruct (csv_files listing) as [|x xs] eqn:E; [done|].
    assert (x ∈ listing /\ endswith ".csv" x = true) as [Hx Hcsv].
    { apply csv_files_spec. rewrite E. left. }
    case_bool_decide as Hc; intros [= <-].
    + rewrite <- E in Hc. apply csv_files_spec in Hc as [Hc1 Hc2].
      split_and!; [done|done|done|done].
    + split_and!; [done|done| |].
      * intros Hin. destruct Hc. rewrite <- E. by apply csv_files_spec.
      * intros _. unfold csv_files in E. by apply filter_head_split in E.
Qed.

(** The loader names the file it read exactly when it returns that file's
    normalised table; every failure gives the empty table and no name. *)
Lemma load_data_from_spec `{Runtime} listing read_csv df name :
  load_data_from listing read_csv = (df, name) ->
  (name = "" /\ df = empty_frame)
  \/ (file_to_use listing = Some name
      /\ exists raw, read_csv name = Some raw /\ normalize raw = Some df).
Proof.
  unfold load_data_from. destruct (file_to_use listing) as [f|]; [|intros [= <- <-]; by left].
  destruct (read_csv f) as [raw|] eqn:Er; simpl; [|intros [= <- <-]; by left].
  destruct (normalize raw) as [d|] eqn:En; intros [= <- <-]; [right|by left].
  eauto.
Qed.

(** ** The sort is stable *)

Lemma period_leb_refl a : period_leb a a = true.
Proof.
  destruct (period_leb a a) eqn:E; [done|].
  pose proof (period_leb_total _ _ E). congruence.
Qed.

Lemma same_period_leb x a b :
  same_period x a = true -> same_period x b = true ->
  period_leb (period a) (period b) = true.
Proof.
  unfold same_period. rewrite !andb_true_iff. intros [_ Hax] [Hxb _].
  by apply period_leb_trans with (period x).
Qed.

Lemma filter_insert_row x r l :
  List.filter (same_period x) (insert_row r l)
  = List.filter (same_period x) (r :: l).
Proof.
  induction l as [|y l IH]; [done|]. simpl insert_row.
  destruct (period_leb (period r) (period y)) eqn:E; [done|].
  simpl in *. rewrite IH.
  destruct (same_period x y) eqn:Ey, (same_period x r) eqn:Er; try done.
  by rewrite (same_period_leb x r y) in E.
Qed.

Lemma stable_sort_stable x l :
  List.filter (same_period x) (stable_sort l) = List.filter (same_period x) l.
Proof.
  induction l as [|r l IH]; [done|]. simpl stable_sort.
  rewrite filter_insert_row. simpl. by rewrite IH.
Qed.

Lemma last_filter (p : Row -> bool) l r :
  last l = Some r -> p r = true -> last (List.filter p l) = Some r.
Proof.
  induction l as [|a [|b l] IH]; [done| |].
  - simpl. intros [= ->] ->. done.
  - intros Hl Hp. specialize (IH Hl Hp).
    change (List.filter p (a :: b :: l))
      with (if p a then a :: List.filter p (b :: l) else List.filter p (b :: l)).
    destruct (p a); [|done].
    destruct (List.filter p (b :: l)) eqn:E; [done|]. done.
Qed.

Lemma ascending_last l r :
  ascending l -> last l = Some r -> forall x, x ∈ l -> row_le x r.
Proof.
  unfold ascending. induction 1 as [|a l Hl IH Ha]; [done|].
  destruct l as [|b l].
  - intros [= ->] x ->%list_elem_of_singleton. apply period_leb_refl.
  - intros Hlast x [->|Hx]%elem_of_cons; [|by apply IH].
    rewrite Forall_forall in Ha. apply Ha.
    apply last_Some_elem_of. exact Hlast.
Qed.

Section TieBreak.
Context `{Runtime}.

(** X2.  When the table has both key columns, the record the lookup returns
    as latest is of the greatest period among the matching rows, and among
    the matching rows of that period it is the last one in the order of the
    table: the sort is stable, so ties are broken by position. *)
Theorem latest_record_breaks_ties_by_position df uid latest hist r :
  has_column "Unit Holder ID" df = true ->
  has_period_columns df = true ->
  search_by_unit_holder_id df uid = Some (latest, hist) ->
  rows latest = [r] ->
  (forall r', r' ∈ matching_rows df uid -> row_le r' r)
  /\ last (List.filter (same_period r) (matching_rows df uid)) = Some r.
Proof.
  intros Hcol Hg Hs Hr. rewrite search_by_unit_holder_id_unfold in Hs by done.
  destruct (matching_rows df uid) as [|r0 l0] eqn:E.
  { injection Hs as <- _. done. }
  rewrite <- E in *. clear E r0 l0.
  destruct (sort_chronologically _) as [all|] eqn:Hsort; simpl in Hs; [|done].
  apply sort_chronologically_Some in Hsort as (_ & _ & Hrows).
  change (has_period_columns (mkFrame (columns df) (matching_rows df uid) _))
    with (has_period_columns df) in Hrows. rewrite Hg in Hrows. simpl in Hrows.
  unfold iloc_last in Hs. destruct (last (rows all)) as [r1|] eqn:Hlast; simpl in Hs; [|done].
  injection Hs as <- <-. simpl in Hr. injection Hr as ->.
  rewrite Hrows in Hlast. split.
  - intros r' Hr'. apply (ascending_last (stable_sort (matching_rows df uid)));
      [apply stable_sort_ascending|done|by apply elem_of_stable_sort].
  - rewrite <- (stable_sort_stable r). apply last_filter; [done|].
    unfold same_period. by rewrite period_leb_refl.
Qed.

End TieBreak.

(** Three records of one month: the lookup returns the third. *)
Lemma latest_record_breaks_ties_by_position_witness :
  exists latest hist r,
    @search_by_unit_holder_id iso_runtime
      (table ["Unit Holder ID"; "Year"; "Month_numeric"; "Note"]
         [[VStr "A1"; VInt 2021; VInt 3; VStr "first"];
          [VStr "A1"; VInt 2021; VInt 3; VStr "second"];
          [VStr "A1"; VInt 2020; VInt 7; VStr "older"];
          [VStr "A1"; VInt 2021; VInt 3; VStr "third"]]) (VStr "A1")
    = Some (latest, hist)
    /\ rows latest = [r] /\ cell r "Note" = VStr "third"
    /\ last (List.filter (same_period r)
               (@matching_rows iso_runtime
                  (table ["Unit Holder ID"; "Year"; "Month_numeric"; "Note"]
                     [[VStr "A1"; VInt 2021; VInt 3; VStr "first"];
                      [VStr "A1"; VInt 2021; VInt 3; VStr "second"];
                      [VStr "A1"; VInt 2020; VInt 7; VStr "older"];
                      [VStr "A1"; VInt 2021; VInt 3; VStr "third"]]) (VStr "A1")))
       = Some r.
Proof.
  set (df := table _ _).
  destruct (@search_by_unit_holder_id iso_runtime df (VStr "A1")) as [[latest hist]|] eqn:Hs;
    [|vm_compute in Hs; discriminate Hs].
  assert ((project ["Note"] ∘ fst) <$> Some (latest, hist) = Some [[VStr "third"]]) as Hn
    by (rewrite <- Hs; vm_compute; reflexivity).
  simpl in Hn. injection Hn as Hn. unfold project in Hn.
  destruct (rows latest) as [|r [|r2 l]] eqn:Hr; try discriminate Hn.
  injection Hn as Hn.
  exists latest, hist, r. split_and!; [done|done|done|].
  by apply (@latest_record_breaks_ties_by_position iso_runtime df (VStr "A1") latest hist r).
Defined.

(** ** Month labels *)

Lemma month_map_names s n : month_map !! s = Some n <-> names_month s n.
Proof.
  split.
  - unfold month_map. intros Hin%elem_of_list_to_map_2.
    repeat (apply elem_of_cons in Hin as [[= -> ->]|Hin];
            [eexists; split; [repeat first [by left | right]|by (left + right)]|]).
    by apply elem_of_nil in Hin.
  - intros (name & Hin & Hs). unfold month_names in Hin.
    repeat (apply elem_of_cons in Hin as [[= -> ->]|Hin];
            [by destruct Hs as [-> | ->]|]).
    by apply elem_of_nil in Hin.
Qed.

Lemma names_month_range s n :
  names_month s n -> 1 <= n <= 12 /\ all_numeral s = false.
Proof.
  intros (name & Hin & Hs). unfold month_names in Hin.
  repeat (apply elem_of_cons in Hin as [[= -> ->]|Hin];
          [by destruct Hs as [-> | ->]|]).
  by apply elem_of_nil in Hin.
Qed.

Section MonthLabels.
Context `{Runtime}.

Lemma py_str_VStr s : py_str (VStr s) = s.
Proof. reflexivity. Qed.

(** The rank in terms of the text of the cell: the texts of a missing cell
    are no month names, so that the rank does not depend on whether
    [astype(str)] keeps the cell missing. *)
Lemma month_rank_py_str v :
  month_rank v
  = match month_map !! PyStr.strip (PyStr.lower (py_str v)) with
    | Some n => VInt n
    | None => VNaN
    end.
Proof.
  unfold month_rank, astype_str.
  destruct (isna v && astype_str_keeps_missing) eqn:E.
  - destruct v; try discriminate E; vm_compute; reflexivity.
  - cbn [str_lower str_strip map_month].
    by destruct (month_map !! PyStr.strip (PyStr.lower (py_str v))).
Qed.

(** X3.  The rank [load_data] gives a month label, read through
    [astype(str).str.lower().str.strip()]: the rank is [n] exactly when the
    label so normalised is the English name of month [n] or its first three
    letters, so it lies between 1 and 12, and every other label has the
    missing rank.  Lowering or trimming the label beforehand changes nothing.
    An integer in the month column, such as 3 for March, has the missing
    rank. *)
Theorem month_rank_spec v :
  (forall n, month_rank v = VInt n
     <-> names_month (PyStr.strip (PyStr.lower (py_str v))) n)
  /\ (month_rank v = VNaN \/ exists n, month_rank v = VInt n /\ 1 <= n <= 12)
  /\ month_rank (VStr (PyStr.lower (py_str v))) = month_rank v
  /\ month_rank (VStr (PyStr.strip (py_str v))) = month_rank v
  /\ (forall k, v = VInt k -> month_rank v = VNaN).
Proof.
  rewrite !month_rank_py_str, !py_str_VStr.
  set (label := PyStr.strip (PyStr.lower (py_str v))).
  assert (forall n, month_map !! label = Some n -> 1 <= n <= 12 /\ all_numeral label = false) as Hrange.
  { intros n E. by apply month_map_names, names_month_range in E. }
  split; [|split; [|split; [|split]]].
  - intros n. rewrite <- month_map_names.
    destruct (month_map !! label) as [m|]; split; congruence.
  - destruct (month_map !! label) as [m|] eqn:E; [right|by left].
    exists m. split; [done|]. by destruct (Hrange m eq_refl).
  - by rewrite PyStrFacts.lower_idemp.
  - by rewrite <- PyStrFacts.strip_lower, PyStrFacts.strip_idemp.
  - intros k Hk. destruct (month_map !! label) as [m|] eqn:E; [|done].
    destruct (Hrange m eq_refl) as [_ E']. clear Hrange E. rename E' into E. subst v label. simpl py_str in E.
    rewrite PyStrFacts.all_numeral_lower, PyStrFacts.all_numeral_strip in E
      by apply PyStrFacts.all_numeral_pretty.
    by rewrite PyStrFacts.all_numeral_pretty in E.
Qed.

End MonthLabels.

(** ** Validation is a projection *)

Section Cleaned.
Context `{Runtime}.

(** X4.  An identifier that [validate_unit_holder_id] has accepted and
    cleaned is accepted again and returned as it is: it has no blank at
    either end and at least three characters.  The lookup tab shows for the
    cleaned identifier what it shows for the text as typed. *)
Theorem validate_unit_holder_id_idempotent input clean :
  validate_unit_holder_id input = (true, clean) ->
  validate_unit_holder_id clean = (true, clean)
  /\ PyStr.strip clean = clean
  /\ 3 <= PyStr.len clean
  /\ forall df, records_lookup_tab df clean = records_lookup_tab df input.
Proof.
  unfold validate_unit_holder_id. case_bool_decide as Hne; [done|].
  destruct (PyStr.len (PyStr.strip input) <? 3) eqn:Hlen; [done|].
  intros [= <-]. apply Z.ltb_ge in Hlen.
  assert (PyStr.strip (PyStr.strip input) = PyStr.strip input) as Hfix
    by apply PyStrFacts.strip_idemp.
  assert (PyStr.strip input ≠ "") as Hne'.
  { intros E. rewrite E in Hlen. unfold PyStr.len in Hlen. simpl in Hlen. lia. }
  assert (validate_unit_holder_id (PyStr.strip input) = (true, PyStr.strip input)) as Hv.
  { unfold validate_unit_holder_id. rewrite bool_decide_eq_false_2 by done.
    rewrite Hfix. by apply Z.ltb_ge in Hlen as ->. }
  split_and!; [exact Hv|done|done|].
  intros df. unfold records_lookup_tab.
  rewrite !bool_decide_eq_false_2 by done. rewrite Hv.
  unfold validate_unit_holder_id. rewrite bool_decide_eq_false_2 by done.
  by apply Z.ltb_ge in Hlen as ->.
Qed.

End Cleaned.

Lemma validate_unit_holder_id_idempotent_witness :
  @validate_unit_holder_id " abc " = (true, "abc")
  /\ @validate_unit_holder_id "abc" = (true, "abc")
  /\ forall df, @records_lookup_tab iso_runtime df "abc"
                = @records_lookup_tab iso_runtime df " abc ".
Proof.
  pose proof (@validate_unit_holder_id_idempotent iso_runtime " abc " "abc" eq_refl)
    as (Hv & _ & _ & Hl).
  split_and!; [reflexivity|exact Hv|exact Hl].
Defined.

(** ** Ages and the clock *)

Lemma calendar_age_mono t1 t2 b :
  date_le t1 t2 -> calendar_age t1 b <= calendar_age t2 b.
Proof.
  unfold date_le, calendar_age. intros Hle.
  repeat case_bool_decide; lia.
Qed.

Lemma calendar_age_negative t b : calendar_age t b < 0 <-> date_lt t b.
Proof. unfold date_lt, calendar_age. case_bool_decide; lia. Qed.

Section AgeFacts.
Context `{Runtime}.

(** X5.  [calculate_age] returns an integer only for a timestamp, or for a
    string the date parser reads as one.  The integer is the difference of
    the years, less one before the birthday of the year; it is negative
    exactly when the birth date is after today. *)
Theorem calculate_age_integer v a :
  calculate_age v = VInt a ->
  exists t,
    (v = VTimestamp t \/ exists s, v = VStr s /\ to_datetime (VStr s) = DtOk t)
    /\ year today - year (ts_date t) - 1 <= a <= year today - year (ts_date t)
    /\ (a = year today - year (ts_date t)
        <-> ~ (month today < month (ts_date t)
               \/ (month today = month (ts_date t) /\ day today < day (ts_date t))))
    /\ (a < 0 <-> date_lt today (ts_date t)).
Proof.
  rewrite calculate_age_table. intros Ha.
  assert (exists t, (v = VTimestamp t
                     \/ exists s, v = VStr s /\ to_datetime (VStr s) = DtOk t)
                    /\ a = calendar_age today (ts_date t)) as (t & Hv & ->).
  { destruct v as [s| | | |t|]; try discriminate Ha.
    - destruct (to_datetime (VStr s)) as [t| |] eqn:E; try discriminate Ha.
      injection Ha as <-. exists t. split; [right; by exists s|done].
    - injection Ha as <-. exists t. split; [by left|done]. }
  exists t. split; [done|]. split_and!.
  - unfold calendar_age. case_bool_decide; lia.
  - unfold calendar_age. case_bool_decide; lia.
  - unfold calendar_age. case_bool_decide; lia.
  - apply calendar_age_negative.
Qed.

End AgeFacts.

Lemma calculate_age_integer_witness :
  @calculate_age iso_runtime (VStr "2030-01-01") = VInt (-6)
  /\ exists t,
       (VStr "2030-01-01" = VTimestamp t
        \/ exists s, VStr "2030-01-01" = VStr s
             /\ @to_datetime iso_runtime (VStr s) = DtOk t)
       /\ (-6 < 0 <-> date_lt (@today iso_runtime) (ts_date t)).
Proof.
  split; [reflexivity|].
  destruct (@calculate_age_integer iso_runtime (VStr "2030-01-01") (-6) eq_refl)
    as (t & Hv & _ & _ & Hneg).
  exists t. split; [exact Hv|exact Hneg].
Defined.

(** X6.  As the clock advances no age decreases: two runs of
    [calculate_age] on one value that read the same dates give ages in the
    order of their clocks. *)
Theorem calculate_age_monotone_in_clock (R1 R2 : Runtime) v a1 a2 :
  @to_datetime R1 = @to_datetime R2 ->
  date_le (@today R1) (@today R2) ->
  @calculate_age R1 v = VInt a1 ->
  @calculate_age R2 v = VInt a2 ->
  a1 <= a2.
Proof.
  intros Hdt Hle. rewrite !calculate_age_table, Hdt.
  destruct v as [s| | | |t|]; try discriminate.
  - destruct (@to_datetime R2 (VStr s)) as [t| |]; try discriminate.
    intros [= <-] [= <-]. by apply calendar_age_mono.
  - intros [= <-] [= <-]. by apply calendar_age_mono.
Qed.

Lemma calculate_age_monotone_in_clock_witness :
  @calculate_age iso_runtime (VStr "2000-06-15") = VInt 23
  /\ @calculate_age iso_runtime_next_day (VStr "2000-06-15") = VInt 24
  /\ 23 <= 24.
Proof.
  split_and!; [reflexivity|reflexivity|].
  apply (calculate_age_monotone_in_clock iso_runtime iso_runtime_next_day
           (VStr "2000-06-15") 23 24).
  - reflexivity.
  - unfold date_le. simpl. lia.
  - reflexivity.
  - reflexivity.
Defined.
(** ** What the loader returns *)

Section LoaderTheorems.
Context `{Runtime}.

Lemma to_numeric_kind v :
  key_kind (key_of (to_numeric v)) = 0%nat \/ key_kind (key_of (to_numeric v)) = 3%nat.
Proof.
  destruct v as [s| | | | |]; simpl; auto.
  destruct (to_numeric_str s) as [[]|]; simpl; auto.
Qed.

Lemma month_rank_kind v :
  key_kind (key_of (month_rank v)) = 0%nat \/ key_kind (key_of (month_rank v)) = 3%nat.
Proof.
  unfold month_rank.
  destruct (map_month_kind (str_strip (str_lower (astype_str v)))) as [->|[n ->]];
    simpl; auto.
Qed.

Lemma key_kind_timestamp v :
  key_kind (key_of v) = 1%nat <-> exists t, v = VTimestamp t.
Proof.
  destruct v; simpl; (split; [intros E; try discriminate E; eauto|by intros [? [=]]]).
Qed.

(** The key columns of the table the loader sorts can be ranked when the
    month ranks the file brings hold no timestamp. *)
Lemma sortable_before_sort raw :
  (forall r t, r ∈ rows raw -> cell r "Month_numeric" ≠ VTimestamp t) ->
  has_column "Year" raw = true ->
  sortable (imap (sorted_row raw) (rows raw)).
Proof.
  intros Hm EY. unfold sortable. rewrite !column_sortable_spec.
  split; apply kinds_agree_no_timestamp;
    intros r (i & r0 & -> & Hi)%elem_of_lookup_imap.
  - rewrite cell_sorted_row_year, EY.
    by destruct (to_numeric_kind (cell r0 "Year")) as [-> | ->].
  - rewrite cell_sorted_row_month_numeric. destruct (has_column "Month" raw).
    + by destruct (month_rank_kind (cell r0 "Month")) as [-> | ->].
    + intros [t Ht]%key_kind_timestamp. apply (Hm r0 t); [|done].
      by apply list_elem_of_lookup_2 with i.
Qed.

(** X7.  The table [load_data] returns.  It keeps the columns of the file in
    their order and appends, of [birth_date], [Month_original] and
    [Month_numeric], those it creates.  It has as many rows as the file:
    they are the rows of the file with their cells cleaned ([loaded_rows]),
    the birth date of a row being the cell that the date column, parsed as a
    whole, has at the position of the row.  The rows are in the order of the
    file unless the table has the columns [Year] and [Month_numeric], in
    which case they are sorted by them, rows of one period keeping the order
    of the file. *)
Theorem load_data_layout_and_order raw df :
  normalize raw = Some df ->
  (exists extra, columns df = (columns raw ++ extra)%list
     /\ extra `sublist_of` ["birth_date"; "Month_original"; "Month_numeric"])
  /\ columns df = loaded_columns raw
  /\ rows df = (if has_period_columns df
                then stable_sort (loaded_rows raw) else loaded_rows raw)
  /\ rows df ≡ₚ loaded_rows raw
  /\ length (rows df) = length (rows raw)
  /\ (forall x, List.filter (same_period x) (rows df)
                = List.filter (same_period x) (loaded_rows raw)).
Proof.
  intros Hn. pose proof (normalize_length raw df Hn) as Hlen.
  apply normalize_rows in Hn as (Hc & _ & Hr).
  assert (rows df ≡ₚ loaded_rows raw) as Hp.
  { rewrite Hr. destruct (has_period_columns df); [apply stable_sort_perm|done]. }
  split_and!; [|done|done|done|done|].
  - rewrite Hc. apply sublist_loaded_columns.
  - intros x. rewrite Hr. destruct (has_period_columns df); [|done].
    apply stable_sort_stable.
Qed.

(** X8.  The cells of the table [load_data] returns.  Every row of it comes
    from a row of the file, at some position: its social security number is
    the trimmed text of the one of the file; the first candidate date column
    of the file holds what the parsed column has at that position, a
    timestamp or [NaT], and [birth_date] holds the same; the year and the
    withdrawals are the numbers read from the file, an unreadable year
    missing and an unreadable amount zero; the month is as in the file, its
    text kept under [Month_original] and its rank under [Month_numeric].
    No other cell differs from the file. *)
Theorem loaded_cells raw df r :
  normalize raw = Some df ->
  r ∈ rows df ->
  exists i r0,
    rows raw !! i = Some r0
    /\ (has_column "Social Security #" raw = true ->
          cell r "Social Security #"
          = str_strip (astype_str (cell r0 "Social Security #")))
    /\ (forall c, birth_column raw = Some c ->
          cell r c = parsed_date c raw i
          /\ cell r "birth_date" = parsed_date c raw i
          /\ ((exists t, cell r "birth_date" = VTimestamp t)
              \/ cell r "birth_date" = VNaT))
    /\ (has_column "Year" raw = true -> cell r "Year" = to_numeric (cell r0 "Year"))
    /\ (has_column "Month" raw = true ->
          cell r "Month" = cell r0 "Month"
          /\ cell r "Month_original" = astype_str (cell r0 "Month")
          /\ cell r "Month_numeric" = month_rank (cell r0 "Month"))
    /\ (has_column "Withdrawals" raw = true ->
          cell r "Withdrawals" = fillna_zero (to_numeric (cell r0 "Withdrawals")))
    /\ (forall col,
          col ∉ ["Social Security #"; "Year"; "Withdrawals"; "birth_date";
                 "Month_original"; "Month_numeric"] ->
          birth_column raw ≠ Some col ->
          cell r col = cell r0 col).
Proof.
  intros Hn Hr. destruct (elem_of_normalize raw df r Hn Hr) as (i & r0 & Hi & ->).
  exists i, r0. split_and!; [done|..].
  - intros E. rewrite cell_loaded_row by done. by apply cell_sorted_row_social_security.
  - intros c Hc. destruct (cell_sorted_row_birth raw i r0 c Hc) as [Hb Hcc].
    pose proof (birth_column_not_withdrawals raw c Hc).
    rewrite !cell_loaded_row, Hb, Hcc by done.
    split_and!; [done|done|apply parsed_date_cases].
  - intros E. by rewrite cell_loaded_row, cell_sorted_row_year, E.
  - intros E. rewrite !cell_loaded_row by done.
    destruct (cell_sorted_row_month raw i r0 E) as (? & ? & ?). done.
  - intros E. by apply cell_loaded_row_withdrawals.
  - intros col Hcol Hb.
    rewrite !not_elem_of_cons in Hcol. destruct Hcol as (?&?&?&?&?&?&_).
    rewrite cell_loaded_row by done.
    apply cell_sorted_row_other; [|done].
    rewrite !not_elem_of_cons. split_and!; [done..|apply not_elem_of_nil].
Qed.

(** X9.  Loading a table that [pd.read_csv] has returned does not raise:
    whatever the cells of the file hold, numbers and texts in one column
    included, [load_data] answers the table of the file cleaned, with as
    many rows.  A table read from a file holds no timestamp; only a month
    rank column with both numbers and timestamps is one the sort cannot
    rank. *)
Theorem load_data_returns raw :
  (forall r t, r ∈ rows raw -> cell r "Month_numeric" ≠ VTimestamp t) ->
  exists df,
    normalize raw = Some df
    /\ load_data raw = df
    /\ columns df = loaded_columns raw
    /\ length (rows df) = length (rows raw).
Proof.
  intros Hm. destruct (normalize_total raw) as [df Hn].
  { intros [EY _]%andb_true_iff. by apply sortable_before_sort. }
  exists df. split_and!; [done|unfold load_data; by rewrite Hn| |].
  - by apply normalize_rows in Hn as (Hc & _).
  - by apply normalize_length.
Qed.

(** X10.  When the file has one of the candidate date columns, the
    [birth_date] cell of every loaded row is a timestamp or [NaT], equal to
    the cell of that column, so that the age computed from it is an integer
    or ["N/A"] and never NaN. *)
Theorem loaded_birth_dates_are_parsed raw c r :
  birth_column raw = Some c ->
  r ∈ rows (load_data raw) ->
  cell r "birth_date" = cell r c
  /\ ((exists t, cell r "birth_date" = VTimestamp t) \/ cell r "birth_date" = VNaT)
  /\ (calculate_age (cell r "birth_date") = VStr "N/A"
      \/ exists n, calculate_age (cell r "birth_date") = VInt n).
Proof.
  intros Hc Hr. unfold load_data in Hr.
  destruct (normalize raw) as [df|] eqn:Hn; simpl in Hr; [|by apply elem_of_nil in Hr].
  destruct (elem_of_normalize raw df r Hn Hr) as (i & r0 & _ & ->).
  destruct (cell_sorted_row_birth raw i r0 c Hc) as [Hb Hcc].
  pose proof (birth_column_not_withdrawals raw c Hc).
  rewrite !cell_loaded_row, Hb, Hcc by done.
  rewrite calculate_age_table.
  destruct (parsed_date_cases c raw i) as [[t ->]| ->];
    (split_and!; [done|eauto|eauto]).
Qed.

End LoaderTheorems.

Lemma load_data_layout_and_order_witness :
  exists df,
    @normalize iso_runtime scenario_table = Some df
    /\ columns df = ["Unit Holder ID"; "Year"; "Month"; "Month_original"; "Month_numeric"]
    /\ length (rows df) = 2%nat.
Proof.
  assert (exists df, @normalize iso_runtime scenario_table = Some df) as [df E]
    by (eexists; reflexivity).
  exists df.
  destruct (@load_data_layout_and_order iso_runtime scenario_table df E)
    as (_ & Hc & _ & _ & Hl & _).
  split_and!; [done| |exact Hl]. rewrite Hc. reflexivity.
Defined.

(** The record of [birthdays_table] whose date cannot be read: the loaded
    row has [NaT] as birth date, the cell of the parsed column at the
    position of the record. *)
Lemma loaded_cells_witness :
  exists df r,
    @normalize iso_runtime birthdays_table = Some df
    /\ rows df !! 3%nat = Some r
    /\ cell r "Unit Holder ID" = VStr "R4"
    /\ cell r "birth_date" = VNaT
    /\ exists i r0,
         rows birthdays_table !! i = Some r0
         /\ cell r "Unit Holder ID" = cell r0 "Unit Holder ID"
         /\ cell r "birth_date" = @parsed_date iso_runtime "DOB" birthdays_table i.
Proof.
  assert (exists df, @normalize iso_runtime birthdays_table = Some df) as [df E]
    by (eexists; reflexivity).
  assert (exists r, (@normalize iso_runtime birthdays_table ≫= fun d => rows d !! 3%nat)
                    = Some r) as [r Er] by (eexists; reflexivity).
  assert (((fun x : Row => (cell x "Unit Holder ID", cell x "birth_date"))
             <$> (@normalize iso_runtime birthdays_table ≫= fun d => rows d !! 3%nat))
          = Some (VStr "R4", VNaT)) as Hcells by (vm_compute; reflexivity).
  rewrite Er in Hcells. rewrite E in Er. simpl in Er, Hcells.
  apply (inj Some) in Hcells.
  exists df, r. split; [exact E|]. split; [exact Er|].
  split; [exact (f_equal fst Hcells)|]. split; [exact (f_equal snd Hcells)|].
  destruct (@loaded_cells iso_runtime birthdays_table df r E)
    as (i & r0 & Hi & _ & Hb & _ & _ & _ & Ho); [by apply list_elem_of_lookup_2 with 3%nat|].
  destruct (Hb "DOB" eq_refl) as (_ & Hbd & _).
  exists i, r0. split; [exact Hi|]. split; [|exact Hbd].
  apply Ho; [|done]. rewrite !not_elem_of_cons.
  split_and!; [done..|apply not_elem_of_nil].
Defined.

(** A table whose month ranks mix a text and a number loads with both its
    rows, the number ranked before the text. *)
Lemma load_data_returns_witness :
  exists df,
    @normalize iso_runtime mixed_rank_table = Some df
    /\ @load_data iso_runtime mixed_rank_table = df
    /\ length (rows df) = 2%nat
    /\ project ["Unit Holder ID"; "Month_numeric"] (@load_data iso_runtime mixed_rank_table)
       = [[VStr "A2"; VInt 1]; [VStr "A1"; VStr "Feb"]].
Proof.
  destruct (@load_data_returns iso_runtime mixed_rank_table) as (df & Hn & Hl & _ & Hlen).
  { intros r t Hr. unfold mixed_rank_table, table in Hr. cbn [rows fmap list_fmap] in Hr.
    repeat (apply elem_of_cons in Hr as [->|Hr]; [by vm_compute|]).
    by apply elem_of_nil in Hr. }
  exists df. split_and!; [exact Hn|exact Hl|exact Hlen|vm_compute; reflexivity].
Defined.

Lemma loaded_birth_dates_are_parsed_witness :
  exists r,
    head (rows (@load_data iso_runtime birthdays_table)) = Some r
    /\ cell r "birth_date" = cell r "DOB"
    /\ (@calculate_age iso_runtime (cell r "birth_date") = VStr "N/A"
        \/ exists n, @calculate_age iso_runtime (cell r "birth_date") = VInt n).
Proof.
  assert (exists r, head (rows (@load_data iso_runtime birthdays_table)) = Some r)
    as [r E] by (eexists; reflexivity).
  exists r.
  destruct (@loaded_birth_dates_are_parsed iso_runtime birthdays_table "DOB" r)
    as (Hc & _ & Ha); [reflexivity|by apply head_Some_elem_of|].
  split_and!; [done|exact Hc|exact Ha].
Defined.

(** ** Queries on the loaded table *)

Section LoadedQueries.
Context `{Runtime}.

Lemma elem_of_load_data raw r :
  r ∈ rows (load_data raw) ->
  columns (load_data raw) = loaded_columns raw
  /\ exists i r0, rows raw !! i = Some r0 /\ r = loaded_row raw i r0.
Proof.
  unfold load_data. destruct (normalize raw) as [df|] eqn:Hn; simpl;
    [|by intros ?%elem_of_nil].
  intros Hr. split; [by apply normalize_rows in Hn as (Hc & _)|].
  by apply elem_of_normalize with df.
Qed.

(** X11.  On the table [load_data] returns no query changes the order of the
    rows: the history of a holder, the withdrawal records and the retiree
    records are the rows the query keeps, in the order of the table, the
    sort inside each query finding them sorted.  The latest record of a
    holder is the last matching row of the table.  The lookup and the
    withdrawal query return on every loaded table, the retiree query on
    every one that has a row. *)
Theorem queries_keep_dataset_order raw :
  (forall uid latest hist,
     has_column "Unit Holder ID" (load_data raw) = true ->
     search_by_unit_holder_id (load_data raw) uid = Some (latest, hist) ->
     rows hist = matching_rows (load_data raw) uid
     /\ rows latest = option_list (last (matching_rows (load_data raw) uid)))
  /\ (has_column "Withdrawals" (load_data raw) = true ->
      exists res, get_withdrawal_records (load_data raw) = Some res
        /\ rows res = withdrawal_rows (load_data raw))
  /\ (has_column "birth_date" (load_data raw) = true ->
      (rows (load_data raw) ≠ [] ->
       exists res, get_retiree_records (load_data raw) = Some res)
      /\ forall res, get_retiree_records (load_data raw) = Some res ->
           rows res = retiree_rows (load_data raw)).
Proof.
  set (ds := load_data raw).
  assert (has_period_columns ds = true -> sortable (rows ds)) as Hsortable.
  { intros Hg. by apply load_data_ordered. }
  split_and!.
  - intros uid latest hist Hcol Hs.
    pose proof (lookup_history_in_dataset_order raw uid latest hist Hcol Hs) as Hh.
    split; [done|]. fold ds in Hh.
    destruct (matching_rows ds uid) as [|r0 l0] eqn:E.
    { rewrite search_by_unit_holder_id_unfold, E in Hs by done. by injection Hs as <- _. }
    destruct (search_by_unit_holder_id_found ds uid Hcol Hsortable)
      as (latest' & hist' & r & Hs' & _ & _ & _ & Hlast & Hl); [by rewrite E|].
    rewrite Hs in Hs'. injection Hs' as <- <-.
    rewrite Hh in Hlast. by rewrite Hl, Hlast.
  - intros Hcol.
    destruct (get_withdrawal_records_present ds Hcol Hsortable) as (res & Hres & _ & Hrows).
    exists res. split; [done|]. rewrite Hrows.
    destruct (has_period_columns ds) eqn:Hg; [|done].
    apply stable_sort_fixed. unfold withdrawal_rows.
    apply ascending_fmap; [apply period_withdrawal_view|].
    apply ascending_filter. by apply load_data_ordered.
  - intros Hcol. split.
    + intros Hne.
      destruct (get_retiree_records_present ds Hcol) as (res & Hres & _);
        [by left|done|].
      by exists res.
    + intros res Hres.
      destruct (get_retiree_records_returned ds res Hcol Hres) as (_ & Hrows).
      rewrite Hrows. destruct (has_period_columns ds) eqn:Hg; [|done].
      apply stable_sort_fixed. unfold retiree_rows.
      apply ascending_fmap; [apply period_with_age|].
      apply ascending_filter. by apply load_data_ordered.
Qed.

Lemma cell_trimmed_id r c :
  c ≠ "Unit Holder ID" -> cell (trimmed_id r) c = cell r c.
Proof. intros Hc. unfold trimmed_id. by rewrite cell_insert_ne. Qed.

Lemma records_lookup_tab_Found df input clean latest hist e_latest e_all :
  records_lookup_tab df input = Some (Found clean latest hist e_latest e_all) ->
  search_by_unit_holder_id df (VStr clean) = Some (latest, hist)
  /\ rows latest ≠ []
  /\ export_frame df latest = Some e_latest
  /\ (forall e, e_all = Some e -> export_frame df hist = Some e).
Proof.
  unfold records_lookup_tab. case_bool_decide as Hin; [done|].
  destruct (validate_unit_holder_id input) as [[] result]; simpl; [|done].
  destruct (search_by_unit_holder_id df (VStr result)) as [[l h]|] eqn:Hs; simpl; [|done].
  destruct (length (rows l) =? 0)%nat eqn:Hlen; [done|].
  apply Nat.eqb_neq in Hlen.
  assert (rows l ≠ []) as Hne by (intros E; by rewrite E in Hlen).
  destruct (export_frame df l) as [el|] eqn:Hel; simpl; [|done].
  destruct (1 <? length (rows h))%nat.
  - destruct (export_frame df h) as [ea|] eqn:Hea; simpl; [|done].
    intros [= <- <- <- <- <-]. split_and!; [done|done|done|by intros e [= <-]].
  - simpl. intros [= <- <- <- <- <-]. by split_and!.
Qed.

(** The rows the lookup tab has found, on a loaded table. *)
Lemma found_rows raw input clean latest hist e_latest e_all :
  records_lookup_tab (load_data raw) input
  = Some (Found clean latest hist e_latest e_all) ->
  has_column "Unit Holder ID" (load_data raw) = true
  /\ columns (load_data raw) = loaded_columns raw
  /\ rows hist = matching_rows (load_data raw) (VStr clean)
  /\ (exists r, last (rows hist) = Some r /\ rows latest = [r])
  /\ forall x, x ∈ rows hist ->
       exists i r0, rows raw !! i = Some r0 /\ x = trimmed_id (loaded_row raw i r0).
Proof.
  set (ds := load_data raw). intros Htab.
  apply records_lookup_tab_Found in Htab as (Hs & Hlen & _ & _).
  assert (has_column "Unit Holder ID" ds = true) as Hcol.
  { destruct (has_column "Unit Holder ID" ds) eqn:E; [done|].
    rewrite search_by_unit_holder_id_absent in Hs by (by left).
    injection Hs as <- _. by destruct Hlen. }
  assert (has_period_columns ds = true -> sortable (rows ds)) as Hsortable.
  { intros Hg. by apply load_data_ordered. }
  pose proof (lookup_history_in_dataset_order raw (VStr clean) latest hist Hcol Hs) as Hh.
  fold ds in Hh.
  assert (matching_rows ds (VStr clean) ≠ []) as Hne.
  { intros E. rewrite search_by_unit_holder_id_unfold, E in Hs by done.
    injection Hs as <- _. by destruct Hlen. }
  destruct (search_by_unit_holder_id_found ds (VStr clean) Hcol Hsortable Hne)
    as (l' & h' & r & Hs' & _ & _ & _ & Hlast & Hl).
  rewrite Hs in Hs'. injection Hs' as <- <-.
  assert (forall x, x ∈ rows hist ->
            columns ds = loaded_columns raw
            /\ exists i r0, rows raw !! i = Some r0
                 /\ x = trimmed_id (loaded_row raw i r0)) as Hrow.
  { intros x Hx. rewrite Hh in Hx.
    apply elem_of_matching_rows in Hx as (r1 & Hr1 & _ & ->).
    apply elem_of_load_data in Hr1 as (Hc & i & r0 & Hr0 & ->). split; [done|]. eauto. }
  split_and!; [done| |done|by exists r|].
  - apply (Hrow r). by apply last_Some_elem_of.
  - intros x Hx. by apply Hrow.
Qed.

(** X12.  The tables behind the two download buttons of the lookup tab, for
    a file with a [Month] column: they have the columns of the loaded table,
    and each of their rows is a row of the file as [load_data] cleaned it,
    with the identifier trimmed and, under [Month], what [astype(str)] makes
    of the month cell of the file: its text, and for a month the file leaves
    empty the text ["nan"] or a missing value, with the version of
    pandas. *)
Theorem lookup_export_rows raw input clean latest hist e_latest e_all :
  has_column "Month" raw = true ->
  records_lookup_tab (load_data raw) input
  = Some (Found clean latest hist e_latest e_all) ->
  columns e_latest = loaded_columns raw
  /\ (forall e, e_all = Some e -> columns e = loaded_columns raw)
  /\ length (rows e_latest) = 1%nat
  /\ forall r', (r' ∈ rows e_latest \/ exists e, e_all = Some e /\ r' ∈ rows e) ->
       exists i r0, rows raw !! i = Some r0
         /\ r' = export_row (load_data raw) (trimmed_id (loaded_row raw i r0))
         /\ cell r' "Month" = astype_str (cell r0 "Month")
         /\ (isna (cell r0 "Month") = false ->
             cell r' "Month" = VStr (py_str (cell r0 "Month")))
         /\ (cell r0 "Month" = VNaN ->
             cell r' "Month"
             = if astype_str_keeps_missing then VNaN else VStr "nan").
Proof.
  set (ds := load_data raw). intros HM Htab.
  destruct (found_rows raw input clean latest hist e_latest e_all Htab)
    as (Hcol & Hc & Hh & (r & Hlast & Hl) & Hrow). fold ds in Hcol, Hc, Hh.
  apply records_lookup_tab_Found in Htab as (Hs & Hlen & Hel & Hea). fold ds in Hel, Hea.
  assert (has_column "Month" ds = true /\ has_column "Month_original" ds = true)
    as [HMd HMo].
  { assert (forall c, has_column c ds = bool_decide (c ∈ loaded_columns raw)) as Hds
      by (intros c; unfold has_column; by rewrite Hc).
    rewrite !Hds, !has_column_loaded_columns, HM.
    split; [done|]. by rewrite !orb_true_r. }
  assert (forall records e, export_frame ds records = Some e ->
            columns e = loaded_columns raw
            /\ rows e = export_row ds <$> rows records) as Hexp.
  { intros records e He. apply export_frame_Some in He as [? ?]; [|done].
    split; [congruence|done]. }
  assert (forall i r0, cell (export_row ds (trimmed_id (loaded_row raw i r0))) "Month"
                       = astype_str (cell r0 "Month")) as Hmonth.
  { intros i r0. rewrite cell_export_row by (by apply bool_decide_eq_true in HMd).
    rewrite HMo. simpl. rewrite cell_trimmed_id, cell_loaded_row by done.
    by destruct (cell_sorted_row_month raw i r0 HM) as (_ & -> & _). }
  destruct (Hexp _ _ Hel) as [Hcl Hrl].
  split_and!; [done| | |].
  - intros e He. by destruct (Hexp _ _ (Hea e He)).
  - by rewrite Hrl, length_fmap, Hl.
  - intros r' Hr'.
    assert (exists x, x ∈ rows hist /\ r' = export_row ds x) as (x & Hx & ->).
    { destruct Hr' as [Hr'|(e & He & Hr')].
      - rewrite Hrl, Hl in Hr'. apply list_elem_of_singleton in Hr' as ->.
        exists r. split; [by apply last_Some_elem_of|done].
      - destruct (Hexp _ _ (Hea e He)) as [_ Hre]. rewrite Hre in Hr'.
        apply list_elem_of_fmap in Hr' as (x & -> & Hx). by exists x. }
    destruct (Hrow x Hx) as (i & r0 & Hr0 & ->). exists i, r0.
    split_and!; [done|done|apply Hmonth| |].
    + intros Hna. rewrite Hmonth. unfold astype_str. by rewrite Hna.
    + intros E. rewrite Hmonth, E. unfold astype_str. simpl.
      by destruct astype_str_keeps_missing.
Qed.

End LoadedQueries.

(** The retiree records of [birthdays_table] are in the order of the loaded
    table. *)
Lemma queries_keep_dataset_order_witness :
  has_column "birth_date" (@load_data iso_runtime birthdays_table) = true
  /\ rows (@load_data iso_runtime birthdays_table) ≠ []
  /\ exists res,
       @get_retiree_records iso_runtime (@load_data iso_runtime birthdays_table)
       = Some res
       /\ rows res = @retiree_rows iso_runtime (@load_data iso_runtime birthdays_table)
       /\ length (rows res) = 2%nat.
Proof.
  assert (has_column "birth_date" (@load_data iso_runtime birthdays_table) = true)
    as Hcol by reflexivity.
  assert (rows (@load_data iso_runtime birthdays_table) ≠ []) as Hne.
  { intros E. apply (f_equal length) in E. vm_compute in E. discriminate E. }
  split; [exact Hcol|]. split; [exact Hne|].
  destruct (@queries_keep_dataset_order iso_runtime birthdays_table) as (_ & _ & Hr).
  destruct (Hr Hcol) as [Hret Hrows]. destruct (Hret Hne) as [res Hres].
  exists res. split; [exact Hres|]. split; [exact (Hrows res Hres)|].
  rewrite (Hrows res Hres). vm_compute. reflexivity.
Defined.

(** A record whose month the file leaves empty: the export has the text
    ["nan"] under [Month] with the [astype(str)] of pandas 2, and a missing
    value with that of pandas 3. *)
Lemma lookup_export_rows_witness :
  (exists clean latest hist e_latest e_all,
     @records_lookup_tab iso_runtime (@load_data iso_runtime missing_month_table) "A12"
     = Some (Found clean latest hist e_latest e_all)
     /\ project ["Unit Holder ID"; "Month"] e_latest = [[VStr "A12"; VStr "nan"]])
  /\ (exists clean latest hist e_latest e_all,
        @records_lookup_tab iso_runtime_pandas3
          (@load_data iso_runtime_pandas3 missing_month_table) "A12"
        = Some (Found clean latest hist e_latest e_all)
        /\ project ["Unit Holder ID"; "Month"] e_latest = [[VStr "A12"; VNaN]]).
Proof.
  split.
  - assert (exists clean latest hist e_latest e_all,
              @records_lookup_tab iso_runtime (@load_data iso_runtime missing_month_table) "A12"
              = Some (Found clean latest hist e_latest e_all))
      as (clean & latest & hist & el & ea & E) by (do 5 eexists; reflexivity).
    exists clean, latest, hist, el, ea. split; [exact E|].
    destruct (@lookup_export_rows iso_runtime missing_month_table "A12" _ _ _ _ _ eq_refl E)
      as (_ & _ & Hlen & Hrows).
    destruct (rows el) as [|r' [|]] eqn:Er; try discriminate Hlen.
    destruct (Hrows r') as (i & r0 & Hr0 & -> & _ & _ & Hnan); [left; left|].
    unfold missing_month_table, table in Hr0. cbn [rows fmap list_fmap] in Hr0.
    destruct i as [|i]; [|destruct i; discriminate Hr0]. injection Hr0 as <-.
    unfold project. rewrite Er. cbn [fmap list_fmap]. rewrite Hnan by reflexivity.
    reflexivity.
  - assert (exists clean latest hist e_latest e_all,
              @records_lookup_tab iso_runtime_pandas3
                (@load_data iso_runtime_pandas3 missing_month_table) "A12"
              = Some (Found clean latest hist e_latest e_all))
      as (clean & latest & hist & el & ea & E) by (do 5 eexists; reflexivity).
    exists clean, latest, hist, el, ea. split; [exact E|].
    destruct (@lookup_export_rows iso_runtime_pandas3 missing_month_table "A12"
                _ _ _ _ _ eq_refl E) as (_ & _ & Hlen & Hrows).
    destruct (rows el) as [|r' [|]] eqn:Er; try discriminate Hlen.
    destruct (Hrows r') as (i & r0 & Hr0 & -> & _ & _ & Hnan); [left; left|].
    unfold missing_month_table, table in Hr0. cbn [rows fmap list_fmap] in Hr0.
    destruct i as [|i]; [|destruct i; discriminate Hr0]. injection Hr0 as <-.
    unfold project. rewrite Er. cbn [fmap list_fmap]. rewrite Hnan by reflexivity.
    reflexivity.
Defined.

(** ** The sidebar and the page *)

Section SidebarFacts.
Context `{Runtime}.

Lemma with_age_rows df :
  rows (assign_apply "Age" "birth_date" calculate_age df) = with_age <$> rows df.
Proof. reflexivity. Qed.

Lemma retiree_count_value df :
  has_column "birth_date" df = true ->
  rows df ≠ [] \/ "birth_date" ∉ datetimes df ->
  retiree_count df = Some (Some (length (List.filter is_retiree (rows df)))).
Proof.
  intros Hcol Hdata. unfold retiree_count, select_ge. rewrite Hcol. cbv zeta.
  rewrite bool_decide_eq_false_2; last first.
  { rewrite age_is_datetime. intros [? ?]. by destruct Hdata. }
  unfold selectM, select. cbn [rows].
  rewrite with_age_rows, retiree_filter. simpl. by rewrite length_fmap.
Qed.

(** The count raises where the query does. *)
Lemma retiree_count_raises df :
  has_column "birth_date" df = true ->
  rows df = [] -> "birth_date" ∈ datetimes df ->
  retiree_count df = None.
Proof.
  intros Hcol Hrows Hdt. unfold retiree_count, select_ge. rewrite Hcol. cbv zeta.
  rewrite bool_decide_eq_true_2; [done|]. by apply age_is_datetime.
Qed.

(** X13.  The two quick statistics of the sidebar, which [main] computes
    once it has found the table not empty.  The withdrawal count is the
    number of rows of the table whose amount is not zero.  On a table that
    has a row the retiree count does not raise and is the number of rows
    whose age is an integer of at least sixty.  Whenever the query behind a
    tab returns, the count of the sidebar is the number of records of the
    tab. *)
Theorem sidebar_counts_match_tabs df :
  rows df ≠ [] ->
  (has_column "Withdrawals" df = true ->
     withdrawal_count df
     = Some (length (List.filter (fun r => ne_zero (cell r "Withdrawals")) (rows df)))
     /\ forall res, get_withdrawal_records df = Some res ->
          withdrawal_count df = Some (length (rows res)))
  /\ (has_column "birth_date" df = true ->
        retiree_count df = Some (Some (length (List.filter is_retiree (rows df))))
        /\ forall res, get_retiree_records df = Some res ->
             retiree_count df = Some (Some (length (rows res))))
  /\ (has_column "Withdrawals" df = false -> withdrawal_count df = None)
  /\ (has_column "birth_date" df = false -> retiree_count df = Some None).
Proof.
  intros Hne. split_and!.
  - intros Hcol. unfold withdrawal_count. rewrite Hcol. split; [done|].
    intros res. unfold get_withdrawal_records. rewrite Hcol. simpl.
    intros (_ & Hp & _)%sort_chronologically_Some. f_equal. rewrite Hp.
    destruct (has_column "birth_date" _); [|done].
    rewrite rows_assign_apply. unfold assign. simpl rows. by rewrite length_fmap.
  - intros Hcol. rewrite retiree_count_value by (done || by left). split; [done|].
    intros res Hres.
    destruct (get_retiree_records_returned df res Hcol Hres) as (_ & Hrows).
    do 2 f_equal. rewrite Hrows. unfold retiree_rows.
    destruct (has_period_columns df); [rewrite stable_sort_perm|]; by rewrite length_fmap.
  - intros Hcol. unfold withdrawal_count. by rewrite Hcol.
  - intros Hcol. unfold retiree_count. by rewrite Hcol.
Qed.

Lemma df_empty_normalize raw df :
  normalize raw = Some df -> df_empty df = df_empty raw.
Proof.
  intros Hn. pose proof (normalize_length raw df Hn) as Hlen.
  apply normalize_rows in Hn as (Hc & _ & Hr). unfold df_empty. f_equal.
  - destruct (sublist_loaded_columns raw) as (extra & He & _).
    rewrite Hc. destruct (columns raw) as [|c cols] eqn:E.
    + assert (loaded_columns raw = []) as ->; [|done].
      unfold loaded_columns, birth_column, has_column. by rewrite E.
    + rewrite He. done.
  - by rewrite Hlen.
Qed.

(** X14.  The page stops at "No data available" exactly when the directory
    has no [.csv] file, or the chosen file cannot be read, or loading it
    raises, or the file has no row or no column. *)
Theorem main_stops_iff listing read_csv :
  main_stops listing read_csv = true
  <-> file_to_use listing = None
      \/ exists file, file_to_use listing = Some file
           /\ (read_csv file = None
               \/ exists raw, read_csv file = Some raw
                    /\ (normalize raw = None \/ rows raw = [] \/ columns raw = [])).
Proof.
  unfold main_stops, load_data_from.
  destruct (file_to_use listing) as [file|]; [|split; [by left|done]].
  destruct (read_csv file) as [raw|] eqn:Er; simpl.
  2:{ split; [|done]. intros _. right. exists file. split; [done|by left]. }
  destruct (normalize raw) as [df|] eqn:En; simpl.
  2:{ split; [|done]. intros _. right. exists file. split; [done|right].
      exists raw. split; [done|by left]. }
  rewrite (df_empty_normalize raw df En). unfold df_empty.
  rewrite orb_true_iff, !Nat.eqb_eq, !length_zero_iff_nil. split.
  - intros Hd. right. exists file. split; [done|right]. exists raw.
    split; [done|]. right. tauto.
  - intros [?|(f & [= <-] & Hf)]; [done|].
    destruct Hf as [Hf|(raw' & Hraw & Hf)]; [congruence|].
    rewrite Er in Hraw. injection Hraw as <-.
    destruct Hf as [?|?]; [congruence|tauto].
Qed.

End SidebarFacts.

Lemma sidebar_counts_match_tabs_witness :
  rows (@load_data iso_runtime withdrawals_table) ≠ []
  /\ rows (@load_data iso_runtime birthdays_table) ≠ []
  /\ @withdrawal_count (@load_data iso_runtime withdrawals_table) = Some 2%nat
  /\ @retiree_count iso_runtime (@load_data iso_runtime birthdays_table) = Some (Some 2%nat).
Proof.
  assert (rows (@load_data iso_runtime withdrawals_table) ≠ []) as Hw.
  { intros E. apply (f_equal length) in E. vm_compute in E. discriminate E. }
  assert (rows (@load_data iso_runtime birthdays_table) ≠ []) as Hb.
  { intros E. apply (f_equal length) in E. vm_compute in E. discriminate E. }
  split; [exact Hw|]. split; [exact Hb|]. split.
  - destruct (@sidebar_counts_match_tabs iso_runtime
                (@load_data iso_runtime withdrawals_table) Hw) as (Hc & _).
    destruct (Hc eq_refl) as [-> _]. reflexivity.
  - destruct (@sidebar_counts_match_tabs iso_runtime
                (@load_data iso_runtime birthdays_table) Hb) as (_ & Hc & _).
    destruct (Hc eq_refl) as [-> _]. reflexivity.
Defined.

(** A directory whose only file has its header line and no record: the page
    stops. *)
Lemma main_stops_iff_witness :
  @main_stops iso_runtime ["notes.txt"; "members.csv"]
    (fun _ => Some header_only_table) = true.
Proof.
  apply (@main_stops_iff iso_runtime). right. exists "members.csv".
  split; [reflexivity|]. right. exists header_only_table. split; [reflexivity|].
  right. left. reflexivity.
Defined.

(** The page goes on to the tabs on a table whose month ranks mix a text and
    a number, and on a file with a row. *)
Example main_goes_on :
  @main_stops iso_runtime ["members.csv"] (fun _ => Some mixed_rank_table) = false
  /\ @main_stops iso_runtime ["members.csv"] (fun _ => Some birthdays_table) = false.
Proof. split; vm_compute; reflexivity. Qed.

(** ** The filters of the tabs *)

Lemma filterM_total (p : Row -> option bool) l :
  (forall r, r ∈ l -> is_Some (p r)) ->
  filterM p l = Some (List.filter (fun r => default false (p r)) l).
Proof.
  induction l as [|r l IH]; intros Hl; [done|]. simpl.
  destruct (Hl r) as [b Hb]; [left|]. rewrite Hb. simpl.
  rewrite IH by (intros r' Hr'; apply Hl; by right). done.
Qed.

Lemma filterM_None (p : Row -> option bool) l :
  filterM p l = None <-> exists r, r ∈ l /\ p r = None.
Proof.
  induction l as [|r l IH]; simpl.
  - split; [done|]. intros (r & Hr & _). by apply elem_of_nil in Hr.
  - destruct (p r) as [b|] eqn:Hb; simpl.
    + destruct (filterM p l) as [rest|]; simpl.
      * split; [done|]. intros (r' & Hr' & Hn).
        apply elem_of_cons in Hr' as [->|Hr']; [congruence|].
        assert (Some rest = None) as Hx by (apply IH; by exists r').
        discriminate Hx.
      * split; [|done]. intros _. destruct IH as [IH _].
        destruct (IH eq_refl) as (r' & Hr' & Hn). exists r'. split; [by right|done].
    + split; [|done]. intros _. exists r. split; [left|done].
Qed.

Lemma filter_sublist (p : Row -> bool) l : List.filter p l `sublist_of` l.
Proof.
  induction l as [|r l IH]; simpl; [done|].
  destruct (p r); [by apply sublist_skip|by apply sublist_cons].
Qed.

Lemma elem_of_List_filter (p : Row -> bool) l r :
  r ∈ List.filter p l <-> r ∈ l /\ p r = true.
Proof. by rewrite !list_elem_of_In, filter_In. Qed.

Lemma filter_complement (p q : Row -> bool) l :
  (forall r, r ∈ l -> q r = negb (p r)) ->
  l ≡ₚ (List.filter p l ++ List.filter q l)%list.
Proof.
  induction l as [|r l IH]; intros Hl; [done|]. simpl.
  rewrite (Hl r) by left.
  assert (l ≡ₚ (List.filter p l ++ List.filter q l)%list) as IH'
    by (apply IH; intros r' Hr'; apply Hl; by right).
  destruct (p r); simpl.
  - by constructor.
  - rewrite <- Permutation_middle. by constructor.
Qed.

(** The amount of a number. *)
Lemma withdrawals_of_number df r x :
  has_column "Withdrawals" df = true ->
  cell r "Withdrawals" = number_value x ->
  withdrawals_of df r = match x with NInt n => inject_Z n | NFloat q => q end.
Proof. intros Hc Hx. unfold withdrawals_of. rewrite Hc, Hx. by destruct x. Qed.

Lemma Qlt_bool_iff (a b : Q) : negb (Qle_bool b a) = true <-> (a < b)%Q.
Proof.
  rewrite negb_true_iff. split.
  - intros Hf. apply Qnot_le_lt. intros Hle. apply Qle_bool_iff in Hle. congruence.
  - intros Hlt. destruct (Qle_bool b a) eqn:E; [|done].
    apply Qle_bool_iff in E. by apply Qlt_not_le in Hlt.
Qed.

Lemma inject_Z_pos n : (0 < inject_Z n)%Q <-> 0 < n.
Proof. unfold Qlt. simpl. lia. Qed.

Lemma inject_Z_neg n : (inject_Z n < 0)%Q <-> n < 0.
Proof. unfold Qlt. simpl. lia. Qed.

Lemma gt_zero_number x :
  exists b, gt_zero (number_value x) = Some b
    /\ (b = true <-> (0 < match x with NInt n => inject_Z n | NFloat q => q end)%Q).
Proof.
  destruct x as [n|q]; simpl; eexists; (split; [done|]).
  - by rewrite Z.ltb_lt, inject_Z_pos.
  - apply Qlt_bool_iff.
Qed.

Lemma lt_zero_number x :
  exists b, lt_zero (number_value x) = Some b
    /\ (b = true <-> (match x with NInt n => inject_Z n | NFloat q => q end < 0)%Q).
Proof.
  destruct x as [n|q]; simpl; eexists; (split; [done|]).
  - by rewrite Z.ltb_lt, inject_Z_neg.
  - apply Qlt_bool_iff.
Qed.

Lemma abs_ge_number x m :
  exists b, abs_ge (number_value x) m = Some b
    /\ (b = true
        <-> (m <= Qabs (match x with NInt n => inject_Z n | NFloat q => q end))%Q).
Proof. destruct x as [n|q]; simpl; eexists; (split; [done|]); apply Qle_bool_iff. Qed.

Section TabFilters.
Context `{Runtime}.
Variable str_contains : string -> option (string -> bool).

Lemma select_on_total c p df :
  has_column c df = true ->
  (forall r, r ∈ rows df -> is_Some (p (cell r c))) ->
  select_on c p df = Some (select (fun r => default false (p (cell r c))) df).
Proof.
  intros Hc Hp. unfold select_on, selectM, select. rewrite Hc.
  by rewrite (filterM_total _ _ Hp).
Qed.

Lemma select_on_Some c p df f :
  select_on c p df = Some f ->
  has_column c df = true
  /\ f = select (fun r => default false (p (cell r c))) df.
Proof.
  unfold select_on, selectM. destruct (has_column c df); [|done].
  destruct (filterM _ _) as [rs|] eqn:E; [|done]. simpl. intros [= <-].
  split; [done|]. unfold select. f_equal.
  assert (forall r, r ∈ rows df -> is_Some (p (cell r c))) as Hp.
  { intros r Hr. destruct (p (cell r c)) eqn:Er; [done|].
    assert (filterM (fun r => p (cell r c)) (rows df) = None) as Hn
      by (apply filterM_None; by exists r).
    congruence. }
  rewrite (filterM_total _ _ Hp) in E. by injection E.
Qed.

(** A table selected from another by a property of the rows. *)
Lemma select_selection (q : Row -> bool) (P : Row -> Prop) df :
  (forall r, r ∈ rows df -> q r = true <-> P r) ->
  columns (select q df) = columns df
  /\ rows (select q df) `sublist_of` rows df
  /\ forall r, r ∈ rows (select q df) <-> r ∈ rows df /\ P r.
Proof.
  intros Hq. split_and!; [done|apply filter_sublist|].
  intros r. unfold select. simpl. rewrite elem_of_List_filter.
  split; intros [Hr Hp]; (split; [done|]); by apply (Hq r Hr).
Qed.

Lemma select_on_selection c p (P : Row -> Prop) df :
  has_column c df = true ->
  (forall r, r ∈ rows df ->
     exists b, p (cell r c) = Some b /\ (b = true <-> P r)) ->
  exists f, select_on c p df = Some f
    /\ columns f = columns df
    /\ rows f `sublist_of` rows df
    /\ forall r, r ∈ rows f <-> r ∈ rows df /\ P r.
Proof.
  intros Hc Hp. eexists. split.
  - apply select_on_total; [done|]. intros r Hr. by destruct (Hp r Hr) as (b & -> & _).
  - apply select_selection. intros r Hr. destruct (Hp r Hr) as (b & -> & Hb). done.
Qed.

Lemma search_holder_selection search df :
  (search ≠ "" -> has_column "Unit Holder ID" df = true /\ is_Some (str_contains search)) ->
  exists f, search_holder str_contains search df = Some f
    /\ columns f = columns df
    /\ rows f `sublist_of` rows df
    /\ forall r, r ∈ rows f <->
         r ∈ rows df
         /\ (forall found, search ≠ "" -> str_contains search = Some found ->
               found_in found (astype_str (cell r "Unit Holder ID")) = true).
Proof.
  intros Hs. unfold search_holder. case_bool_decide as Hne.
  - exists df. split_and!; [done|done|done|]. intros r. split; [|by intros [? _]].
    intros Hr. split; [done|]. by intros found Hx.
  - destruct (Hs Hne) as [-> [found Hf]]. rewrite Hf. simpl. eexists. split; [done|].
    apply select_selection. intros r Hr. split.
    + intros Hq found' _ [= <-]. done.
    + intros Hq. by apply Hq.
Qed.

Lemma search_holder_Some search df f :
  search_holder str_contains search df = Some f ->
  columns f = columns df /\ rows f `sublist_of` rows df.
Proof.
  unfold search_holder. case_bool_decide; [by intros [= <-]|].
  destruct (has_column _ df); [|done].
  destruct (str_contains search) as [found|]; [|done]. simpl. intros [= <-].
  split; [done|apply filter_sublist].
Qed.

Lemma selection_trans (P Q : Row -> Prop) (d0 d1 d2 : DataFrame) :
  (columns d1 = columns d0 /\ rows d1 `sublist_of` rows d0
   /\ forall r, r ∈ rows d1 <-> r ∈ rows d0 /\ P r) ->
  (columns d2 = columns d1 /\ rows d2 `sublist_of` rows d1
   /\ forall r, r ∈ rows d2 <-> r ∈ rows d1 /\ Q r) ->
  columns d2 = columns d0 /\ rows d2 `sublist_of` rows d0
  /\ forall r, r ∈ rows d2 <-> r ∈ rows d0 /\ P r /\ Q r.
Proof.
  intros (Hc1 & Hs1 & Hr1) (Hc2 & Hs2 & Hr2). split_and!.
  - congruence.
  - by etrans.
  - intros r. rewrite Hr2, Hr1. tauto.
Qed.

Lemma selection_refl (P : Row -> Prop) (d : DataFrame) :
  (forall r, r ∈ rows d -> P r) ->
  columns d = columns d /\ rows d `sublist_of` rows d
  /\ forall r, r ∈ rows d <-> r ∈ rows d /\ P r.
Proof. intros HP. split_and!; [done|done|]. intros r. split; [|tauto]. auto. Qed.

(** A filter on the amount. *)
Lemma amount_stage (p : Value -> option bool) (P : Q -> Prop) wr d :
  has_column "Withdrawals" wr = true ->
  columns d = columns wr ->
  (forall r, r ∈ rows d -> is_number (cell r "Withdrawals")) ->
  (forall x, exists b, p (number_value x) = Some b
     /\ (b = true <-> P (match x with NInt n => inject_Z n | NFloat q => q end))) ->
  exists f, select_on "Withdrawals" p d = Some f
    /\ columns f = columns d /\ rows f `sublist_of` rows d
    /\ forall r, r ∈ rows f <-> r ∈ rows d /\ P (withdrawals_of wr r).
Proof.
  intros HW Hc Hnum Hp. apply select_on_selection.
  - by rewrite (has_column_ext _ d wr Hc).
  - intros r Hr. destruct (Hnum r Hr) as [x Hx]. destruct (Hp x) as (b & Hb & HP).
    exists b. rewrite Hx, (withdrawals_of_number wr r x HW Hx). done.
Qed.

(** The filters of the withdrawals tab select among the records. *)
Lemma withdrawal_filters_selection wr search min_amount type :
  has_column "Withdrawals" wr = true ->
  (forall r, r ∈ rows wr -> is_number (cell r "Withdrawals")) ->
  (search ≠ "" ->
     has_column "Unit Holder ID" wr = true /\ is_Some (str_contains search)) ->
  exists f,
    withdrawal_filters str_contains wr search min_amount type = Some f
    /\ columns f = columns wr
    /\ rows f `sublist_of` rows wr
    /\ forall r, r ∈ rows f <->
         r ∈ rows wr
         /\ (forall found, search ≠ "" -> str_contains search = Some found ->
               found_in found (astype_str (cell r "Unit Holder ID")) = true)
         /\ (forall m, min_amount = Some m -> (m <= Qabs (withdrawals_of wr r))%Q)
         /\ ((type = PositiveOnly -> (0 < withdrawals_of wr r)%Q)
             /\ (type = NegativeOnly -> (withdrawals_of wr r < 0)%Q)).
Proof.
  intros HW Hnum Hs. unfold withdrawal_filters.
  destruct (search_holder_selection search wr Hs) as (f1 & -> & H1). simpl.
  assert (forall r, r ∈ rows f1 -> is_number (cell r "Withdrawals")) as Hnum1.
  { intros r Hr. apply Hnum. destruct H1 as (_ & _ & H1). by apply H1 in Hr as [? _]. }
  assert (exists f2,
            match min_amount with
            | Some m => select_on "Withdrawals" (fun v => abs_ge v m) f1
            | None => Some f1
            end = Some f2
            /\ columns f2 = columns f1 /\ rows f2 `sublist_of` rows f1
            /\ forall r, r ∈ rows f2 <-> r ∈ rows f1
                 /\ (forall m, min_amount = Some m
                        -> (m <= Qabs (withdrawals_of wr r))%Q))
    as (f2 & -> & H2).
  { destruct min_amount as [m|].
    - destruct (amount_stage (fun v => abs_ge v m) (fun a => (m <= Qabs a)%Q) wr f1)
        as (f2 & E & Hc & Hsub & Hr); [done|by destruct H1|done| |].
      { intros x. apply abs_ge_number. }
      exists f2. split_and!; [done..|]. intros r. rewrite Hr. split.
      + intros [? ?]. split; [done|]. by intros m' [= <-].
      + intros [? Hm]. split; [done|]. by apply Hm.
    - exists f1. split; [done|]. by apply selection_refl. }
  pose proof (selection_trans _ _ wr f1 f2 H1 H2) as H12. simpl.
  assert (forall r, r ∈ rows f2 -> is_number (cell r "Withdrawals")) as Hnum2.
  { intros r Hr. apply Hnum. destruct H12 as (_ & _ & H12). by apply H12 in Hr as [? _]. }
  assert (exists f3,
            match type with
            | PositiveOnly => select_on "Withdrawals" gt_zero f2
            | NegativeOnly => select_on "Withdrawals" lt_zero f2
            | AllTypes => Some f2
            end = Some f3
            /\ columns f3 = columns f2 /\ rows f3 `sublist_of` rows f2
            /\ forall r, r ∈ rows f3 <-> r ∈ rows f2
                 /\ ((type = PositiveOnly -> (0 < withdrawals_of wr r)%Q)
                     /\ (type = NegativeOnly -> (withdrawals_of wr r < 0)%Q)))
    as (f3 & -> & H3).
  { destruct type.
    - exists f2. split; [done|]. by apply selection_refl.
    - destruct (amount_stage gt_zero (fun a => (0 < a)%Q) wr f2)
        as (f3 & E & Hc & Hsub & Hr); [done|by destruct H12|done| |].
      { intros x. apply gt_zero_number. }
      exists f3. split_and!; [done..|]. intros r. rewrite Hr. split.
      + intros [? ?]. by split_and!.
      + intros [? [Hp _]]. split; [done|]. by apply Hp.
    - destruct (amount_stage lt_zero (fun a => (a < 0)%Q) wr f2)
        as (f3 & E & Hc & Hsub & Hr); [done|by destruct H12|done| |].
      { intros x. apply lt_zero_number. }
      exists f3. split_and!; [done..|]. intros r. rewrite Hr. split.
      + intros [? ?]. by split_and!.
      + intros [? [_ Hn]]. split; [done|]. by apply Hn. }
  exists f3. split; [done|].
  destruct (selection_trans _ _ wr f2 f3 H12 H3) as (Hc & Hsub & Hr).
  split_and!; [done|done|]. intros r. rewrite Hr. tauto.
Qed.

(** X15.  The filters of the withdrawals tab, on records whose amounts are
    numbers, as those of a loaded table are.  The filters keep the columns
    and the order of the records, and keep a record exactly when the text of
    its identifier matches the search pattern, the absolute value of its
    amount is at least the minimum, and its amount has the sign asked for;
    an empty search box and an empty minimum filter nothing.  With an empty
    search box, or with an identifier column and a pattern that is a regular
    expression, the filters do not raise. *)
Theorem withdrawal_filters_spec wr search min_amount type :
  has_column "Withdrawals" wr = true ->
  (forall r, r ∈ rows wr -> is_number (cell r "Withdrawals")) ->
  (search ≠ "" ->
     has_column "Unit Holder ID" wr = true /\ is_Some (str_contains search)) ->
  withdrawal_filters str_contains wr "" None AllTypes = Some wr
  /\ exists f,
    withdrawal_filters str_contains wr search min_amount type = Some f
    /\ columns f = columns wr
    /\ rows f `sublist_of` rows wr
    /\ forall r, r ∈ rows f <->
         r ∈ rows wr
         /\ (forall found, search ≠ "" -> str_contains search = Some found ->
               found_in found (astype_str (cell r "Unit Holder ID")) = true)
         /\ (forall m, min_amount = Some m -> (m <= Qabs (withdrawals_of wr r))%Q)
         /\ ((type = PositiveOnly -> (0 < withdrawals_of wr r)%Q)
             /\ (type = NegativeOnly -> (withdrawals_of wr r < 0)%Q)).
Proof.
  intros HW Hnum Hs. split; [done|].
  by apply withdrawal_filters_selection.
Qed.

Lemma ne_zero_signs v :
  is_number v -> ne_zero v = true ->
  default false (lt_zero v) = negb (default false (gt_zero v)).
Proof.
  intros [[n|q] ->]; simpl.
  - intros Hn. apply negb_true_iff, Z.eqb_neq in Hn.
    destruct (0 <? n) eqn:E1, (n <? 0) eqn:E2; simpl; try done; lia.
  - intros Hq. apply negb_true_iff in Hq. rewrite negb_involutive.
    destruct (Qle_bool 0 q) eqn:E1, (Qle_bool q 0) eqn:E2; simpl; try done.
    + apply Qle_bool_iff in E1, E2.
      assert (Qeq_bool q 0 = true) as Hx by (apply Qeq_bool_iff; by apply Qle_antisym).
      congruence.
    + assert (~ (0 <= q)%Q) as N1 by (intros Hle; apply Qle_bool_iff in Hle; congruence).
      assert (~ (q <= 0)%Q) as N2 by (intros Hle; apply Qle_bool_iff in Hle; congruence).
      apply Qnot_le_lt in N1, N2. exfalso.
      exact (Qlt_irrefl q (Qlt_trans _ _ _ N1 N2)).
Qed.

(** X16.  On records whose amounts are numbers other than zero, as the
    withdrawal records of a loaded table are, the choices "Positive Only"
    and "Negative Only" split the list of the choice "All": whatever the
    search pattern and the minimum, every record listed under "All" is
    listed under exactly one of the two. *)
Theorem withdrawal_types_partition wr search min_amount fa fp fn :
  (forall r, r ∈ rows wr ->
     is_number (cell r "Withdrawals") /\ ne_zero (cell r "Withdrawals") = true) ->
  withdrawal_filters str_contains wr search min_amount AllTypes = Some fa ->
  withdrawal_filters str_contains wr search min_amount PositiveOnly = Some fp ->
  withdrawal_filters str_contains wr search min_amount NegativeOnly = Some fn ->
  rows fa ≡ₚ (rows fp ++ rows fn)%list
  /\ length (rows fa) = (length (rows fp) + length (rows fn))%nat
  /\ (forall r, r ∈ rows fp -> r ∉ rows fn).
Proof.
  intros Hwr. unfold withdrawal_filters.
  destruct (search_holder str_contains search wr) as [f1|] eqn:E1; simpl; [|done].
  apply search_holder_Some in E1 as [_ Hsub1].
  set (stage2 := match min_amount with Some m => _ | None => _ end).
  assert (forall f2, stage2 = Some f2 -> rows f2 `sublist_of` rows f1) as Hsub2.
  { intros f2. unfold stage2. destruct min_amount as [m|]; [|by intros [= <-]].
    intros [_ ->]%select_on_Some. apply filter_sublist. }
  destruct stage2 as [f2|]; simpl; [|done]. specialize (Hsub2 f2 eq_refl).
  intros [= <-] [_ ->]%select_on_Some [_ ->]%select_on_Some.
  assert (forall r, r ∈ rows f2 ->
            is_number (cell r "Withdrawals") /\ ne_zero (cell r "Withdrawals") = true)
    as Hf2.
  { intros r Hr. apply Hwr. apply (elem_of_sublist (rows f2)); [done|by etrans]. }
  assert (rows f2 ≡ₚ (rows (select (fun r => default false (gt_zero (cell r "Withdrawals"))) f2)
                      ++ rows (select (fun r => default false (lt_zero (cell r "Withdrawals"))) f2))%list)
    as Hp.
  { apply filter_complement. intros r Hr. destruct (Hf2 r Hr). by apply ne_zero_signs. }
  split_and!; [done| |].
  - by rewrite Hp at 1; rewrite length_app.
  - intros r. unfold select. simpl. rewrite !elem_of_List_filter.
    intros [Hr Hg] [_ Hl]. destruct (Hf2 r Hr) as [Hn Hz].
    rewrite (ne_zero_signs _ Hn Hz), Hg in Hl. done.
Qed.

End TabFilters.

Section RetireeFilters.
Context `{Runtime}.
Variable str_contains : string -> option (string -> bool).

(** The filters of the retirees tab select among the records. *)
Lemma retiree_filters_selection rr search min_age max_age :
  has_column "Age" rr = true ->
  (forall r, r ∈ rows rr -> exists n, cell r "Age" = VInt n) ->
  (search ≠ "" ->
     has_column "Unit Holder ID" rr = true /\ is_Some (str_contains search)) ->
  exists f,
    retiree_filters str_contains rr search min_age max_age = Some f
    /\ columns f = columns rr
    /\ rows f `sublist_of` rows rr
    /\ (forall r, r ∈ rows f <->
          r ∈ rows rr
          /\ (forall found, search ≠ "" -> str_contains search = Some found ->
                found_in found (astype_str (cell r "Unit Holder ID")) = true)
          /\ exists n, cell r "Age" = VInt n /\ min_age <= n <= max_age).
Proof.
  intros HA Hage Hs. unfold retiree_filters.
  destruct (search_holder_selection str_contains search rr Hs) as (f1 & -> & H1). simpl.
  destruct (select_on_selection "Age"
              (fun v => above ← ge_int v min_age; below ← le_int v max_age;
                        Some (above && below))
              (fun r => exists n, cell r "Age" = VInt n /\ min_age <= n <= max_age) f1)
    as (f & -> & H2).
  { destruct H1 as (Hc & _). by rewrite (has_column_ext _ f1 rr Hc). }
  { intros r Hr. destruct H1 as (_ & _ & H1). apply H1 in Hr as [Hr _].
    destruct (Hage r Hr) as (n & Hn). rewrite Hn. simpl.
    eexists. split; [done|]. rewrite andb_true_iff, !Z.leb_le. split.
    - intros [? ?]. exists n. split; [done|lia].
    - intros (n' & [= <-] & ?). lia. }
  exists f. split; [done|].
  destruct (selection_trans _ _ rr f1 f H1 H2) as (Hc & Hsub & Hr). done.
Qed.

(** X17.  The filters of the retirees tab, on records whose ages are
    integers of at least sixty, as those [get_retiree_records] returns are.
    They keep the columns and the order of the records and keep a record
    exactly when its identifier matches the search pattern and its age lies
    between the two bounds.  The upper bound being at most 120, as its number
    box makes it, no retiree older than 120 is ever listed; and the bounds
    the boxes start with, 60 and 100, leave out exactly the retirees older
    than 100. *)
Theorem retiree_filters_spec rr search min_age max_age :
  has_column "Age" rr = true ->
  (forall r, r ∈ rows rr -> exists n, cell r "Age" = VInt n /\ 60 <= n) ->
  (search ≠ "" ->
     has_column "Unit Holder ID" rr = true /\ is_Some (str_contains search)) ->
  60 <= max_age <= 120 ->
  exists f,
    retiree_filters str_contains rr search min_age max_age = Some f
    /\ columns f = columns rr
    /\ rows f `sublist_of` rows rr
    /\ (forall r, r ∈ rows f <->
          r ∈ rows rr
          /\ (forall found, search ≠ "" -> str_contains search = Some found ->
                found_in found (astype_str (cell r "Unit Holder ID")) = true)
          /\ exists n, cell r "Age" = VInt n /\ min_age <= n <= max_age)
    /\ (forall r n, cell r "Age" = VInt n -> 120 < n -> r ∉ rows f)
    /\ (min_age = 60 -> max_age = 100 -> search = "" ->
        forall r, r ∈ rows f <->
          r ∈ rows rr /\ exists n, cell r "Age" = VInt n /\ n <= 100).
Proof.
  intros HA Hage Hs Hmax.
  destruct (retiree_filters_selection rr search min_age max_age HA)
    as (f & Hf & Hc & Hsub & Hr); [|done|].
  { intros r Hin. destruct (Hage r Hin) as (n & Hn & _). by exists n. }
  exists f. split_and!; [done|done|done|done| |].
  - intros r n Hn Hold Hin. apply Hr in Hin as (_ & _ & n' & Hn' & ?).
    rewrite Hn in Hn'. injection Hn' as <-. lia.
  - intros -> -> -> r. rewrite Hr. split.
    + intros (? & _ & n & Hn & ?). split; [done|]. exists n. split; [done|lia].
    + intros (Hin & n & Hn & ?). split_and!; [done|done|].
      exists n. split; [done|]. destruct (Hage r Hin) as (n' & Hn' & ?).
      rewrite Hn in Hn'. injection Hn' as <-. lia.
Qed.

End RetireeFilters.

(** ** The listings of the tabs *)

Lemma forallb_false {A} (p : A -> bool) (l : list A) :
  forallb p l = false <-> exists x, x ∈ l /\ p x = false.
Proof.
  induction l as [|a l IH]; simpl.
  - split; [done|]. intros (x & Hx & _). by apply elem_of_nil in Hx.
  - rewrite andb_false_iff, IH. split.
    + intros [Ha|(x & Hx & Hp)]; [exists a; split; [left|done]|].
      exists x. split; [by right|done].
    + intros (x & [->|Hx]%elem_of_cons & Hp); [by left|right; by exists x].
Qed.

Section Listings.
Context `{Runtime}.

Lemma has_column_display c f :
  has_column c (if has_column "Month_original" f
                then copy_column "Month" "Month_original" f else f)
  = has_column c f || bool_decide (c = "Month") && has_column "Month_original" f.
Proof.
  destruct (has_column "Month_original" f).
  - by rewrite has_column_copy_column, andb_true_r.
  - by rewrite andb_false_r, orb_false_r.
Qed.

Lemma listing_None display_columns f :
  listing display_columns f = None
  <-> exists c, c ∈ (str_replace "Month_original" "Month" <$> display_columns)
        /\ has_column c f = false
        /\ (c = "Month" -> has_column "Month_original" f = false).
Proof.
  unfold listing, getitem_columns.
  destruct (forallb _ _) eqn:E.
  - split; [done|]. intros (c & Hc & Hf & Hm).
    rewrite forallb_forall in E. apply list_elem_of_In, E in Hc.
    rewrite has_column_display, Hf in Hc. simpl in Hc.
    apply andb_true_iff in Hc as [->%bool_decide_eq_true Hmo]. by rewrite Hm in Hmo.
  - split; [|done]. intros _. apply forallb_false in E as (c & Hc & Hf).
    exists c. split; [done|]. rewrite has_column_display in Hf.
    apply orb_false_iff in Hf as [? Hf]. split; [done|].
    intros ->. by rewrite bool_decide_eq_true_2 in Hf.
Qed.

Lemma listing_Some display_columns f d :
  listing display_columns f = Some d ->
  columns d = str_replace "Month_original" "Month" <$> display_columns
  /\ length (rows d) = length (rows f)
  /\ Forall2 (fun r r' : Row =>
                forall c, c ∈ columns d ->
                  cell r' c = if bool_decide (c = "Month")
                                 && has_column "Month_original" f
                              then cell r "Month_original" else cell r c)
       (rows f) (rows d).
Proof.
  unfold listing, getitem_columns. destruct (forallb _ _); [|done]. intros [= <-].
  simpl. split; [done|].
  destruct (has_column "Month_original" f) eqn:Hmo.
  - unfold copy_column. simpl. rewrite !length_fmap. split; [done|].
    rewrite <- list_fmap_compose. apply Forall2_fmap_r, Forall_Forall2_diag, Forall_forall.
    intros r _ c Hc. simpl. rewrite cell_restrict by done.
    case_bool_decide as Hm; simpl.
    + subst c. by rewrite cell_insert_eq.
    + by rewrite cell_insert_ne.
  - rewrite length_fmap. split; [done|].
    apply Forall2_fmap_r, Forall_Forall2_diag, Forall_forall.
    intros r _ c Hc. rewrite cell_restrict by done. by rewrite andb_false_r.
Qed.

Lemma withdrawals_shown_columns f :
  str_replace "Month_original" "Month" <$> withdrawals_display_columns f
  = if has_column "Age" f
    then ["Contributor Name"; "Unit Holder ID"; "Withdrawals"; "Year"; "Month"; "Age"]
    else ["Contributor Name"; "Unit Holder ID"; "Withdrawals"; "Year"; "Month"].
Proof. unfold withdrawals_display_columns. by destruct (has_column "Age" f). Qed.

Lemma retirees_shown_columns :
  str_replace "Month_original" "Month" <$> retirees_display_columns
  = ["Contributor Name"; "Unit Holder ID"; "Age"; "birth_date"; "Year"; "Month"].
Proof. reflexivity. Qed.

Lemma withdrawals_listing_None f :
  listing (withdrawals_display_columns f) f = None
  <-> (exists c, c ∈ ["Contributor Name"; "Unit Holder ID"; "Withdrawals"; "Year"]
                 /\ has_column c f = false)
      \/ (has_column "Month" f = false /\ has_column "Month_original" f = false).
Proof.
  rewrite listing_None, withdrawals_shown_columns. split.
  - intros (c & Hc & Hf & Hm).
    destruct (has_column "Age" f) eqn:HA;
      repeat (apply elem_of_cons in Hc as [->|Hc]);
      try (by apply elem_of_nil in Hc);
      try (left; eexists; split; [|exact Hf]; by repeat first [left|right]);
      try congruence.
    all: right; split; [done|by apply Hm].
  - intros [(c & Hc & Hf)|[Hm Hmo]].
    + exists c. split_and!; [|done|].
      * destruct (has_column "Age" f);
          repeat (apply elem_of_cons in Hc as [->|Hc]);
          try (by apply elem_of_nil in Hc); by repeat first [left|right].
      * intros ->. repeat (apply elem_of_cons in Hc as [Hc|Hc]; [discriminate Hc|]).
        by apply elem_of_nil in Hc.
    + exists "Month". split_and!; [|done|done].
      destruct (has_column "Age" f); by repeat first [left|right].
Qed.

Lemma retirees_listing_None f :
  listing retirees_display_columns f = None
  <-> (exists c, c ∈ ["Contributor Name"; "Unit Holder ID"; "Age"; "birth_date"; "Year"]
                 /\ has_column c f = false)
      \/ (has_column "Month" f = false /\ has_column "Month_original" f = false).
Proof.
  rewrite listing_None, retirees_shown_columns. split.
  - intros (c & Hc & Hf & Hm).
    repeat (apply elem_of_cons in Hc as [->|Hc]);
      try (by apply elem_of_nil in Hc);
      try (left; eexists; split; [|exact Hf]; by repeat first [left|right]).
    right. split; [done|by apply Hm].
  - intros [(c & Hc & Hf)|[Hm Hmo]].
    + exists c. split_and!; [|done|].
      * repeat (apply elem_of_cons in Hc as [->|Hc]);
          try (by apply elem_of_nil in Hc); by repeat first [left|right].
      * intros ->. repeat (apply elem_of_cons in Hc as [Hc|Hc]; [discriminate Hc|]).
        by apply elem_of_nil in Hc.
    + exists "Month". split_and!; [|done|done]. by repeat first [left|right].
Qed.

(** X18.  The tables the two tabs display.  Displaying raises a [KeyError]
    exactly when the filtered records lack one of the columns named in the
    tab or have neither a [Month] nor a [Month_original] column: the columns
    are not filtered to the existing ones.  Otherwise the table shown has
    the named columns, with [Month] in the place of [Month_original], and
    the rows of the filtered records in their order; under [Month] it shows
    the text kept in [Month_original] when there is such a column. *)
Theorem tab_listings_spec f :
  (listing (withdrawals_display_columns f) f = None
   <-> (exists c, c ∈ ["Contributor Name"; "Unit Holder ID"; "Withdrawals"; "Year"]
                  /\ has_column c f = false)
       \/ (has_column "Month" f = false /\ has_column "Month_original" f = false))
  /\ (listing retirees_display_columns f = None
      <-> (exists c, c ∈ ["Contributor Name"; "Unit Holder ID"; "Age"; "birth_date"; "Year"]
                     /\ has_column c f = false)
          \/ (has_column "Month" f = false /\ has_column "Month_original" f = false))
  /\ (forall dc d,
        dc = withdrawals_display_columns f \/ dc = retirees_display_columns ->
        listing dc f = Some d ->
        columns d
        = (if bool_decide (dc = retirees_display_columns)
           then ["Contributor Name"; "Unit Holder ID"; "Age"; "birth_date"; "Year"; "Month"]
           else if has_column "Age" f
                then ["Contributor Name"; "Unit Holder ID"; "Withdrawals"; "Year"; "Month"; "Age"]
                else ["Contributor Name"; "Unit Holder ID"; "Withdrawals"; "Year"; "Month"])
        /\ length (rows d) = length (rows f)
        /\ Forall2 (fun r r' : Row =>
                      cell r' "Month"
                      = (if has_column "Month_original" f
                         then cell r "Month_original" else cell r "Month")
                      /\ forall c, c ∈ columns d -> c ≠ "Month" -> cell r' c = cell r c)
             (rows f) (rows d)).
Proof.
  split_and!; [apply withdrawals_listing_None|apply retirees_listing_None|].
  - intros dc d Hdc (Hc & Hl & Hrows)%listing_Some.
    assert (columns d
            = (if bool_decide (dc = retirees_display_columns)
               then ["Contributor Name"; "Unit Holder ID"; "Age"; "birth_date"; "Year"; "Month"]
               else if has_column "Age" f
                    then ["Contributor Name"; "Unit Holder ID"; "Withdrawals"; "Year"; "Month"; "Age"]
                    else ["Contributor Name"; "Unit Holder ID"; "Withdrawals"; "Year"; "Month"]))
      as Hcols.
    { rewrite Hc. destruct Hdc as [-> | ->].
      - rewrite withdrawals_shown_columns. rewrite bool_decide_eq_false_2; [done|].
        unfold withdrawals_display_columns. by destruct (has_column "Age" f).
      - by rewrite retirees_shown_columns. }
    split_and!; [done|done|].
    assert ("Month" ∈ columns d) as HM.
    { rewrite Hcols. case_bool_decide; [|destruct (has_column "Age" f)];
        by repeat first [left|right]. }
    eapply Forall2_impl; [exact Hrows|]. intros r r' Hr. simpl in Hr. split.
    + by rewrite (Hr "Month" HM).
    + intros c Hcin Hne. rewrite (Hr c Hcin).
      by rewrite bool_decide_eq_false_2.
Qed.

End Listings.

(** ** The tabs on a loaded table *)

Section TabsOnLoadedTable.
Context `{Runtime}.
Variable str_contains : string -> option (string -> bool).

Lemma get_withdrawal_records_Some df wr :
  get_withdrawal_records df = Some wr ->
  rows wr ≠ [] ->
  has_column "Withdrawals" df = true
  /\ columns wr = (if has_column "birth_date" df
                   then add_column "Age" (columns df) else columns df)
  /\ rows wr ≡ₚ withdrawal_rows df.
Proof.
  unfold get_withdrawal_records.
  destruct (has_column "Withdrawals" df) eqn:HW; simpl; [|by intros [= <-]].
  intros (Hc & Hp & _)%sort_chronologically_Some _. split; [done|].
  rewrite Hc, Hp. unfold withdrawal_rows, withdrawal_view.
  change (has_column "birth_date" (select _ df)) with (has_column "birth_date" df).
  destruct (has_column "birth_date" df); [done|]. simpl. by rewrite list_fmap_id.
Qed.

Lemma get_retiree_records_Some df rr :
  get_retiree_records df = Some rr ->
  rows rr ≠ [] ->
  has_column "birth_date" df = true
  /\ columns rr = add_column "Age" (columns df)
  /\ rows rr ≡ₚ retiree_rows df.
Proof.
  unfold get_retiree_records, select_ge.
  destruct (has_column "birth_date" df) eqn:HB; [|by intros [= <-]].
  cbn [negb]. cbv zeta. case_bool_decide; [done|].
  unfold selectM, select. cbn [rows].
  rewrite with_age_rows, retiree_filter. simpl.
  intros (Hc & Hp & _)%sort_chronologically_Some _. by rewrite Hc, Hp.
Qed.

Lemma export_frame_total df records :
  (forall c, c ∈ columns df -> has_column c records = true) ->
  is_Some (export_frame df records).
Proof.
  intros Hc. unfold export_frame, getitem_columns.
  rewrite (proj2 (forallb_forall _ _)); [done|].
  intros c Hin. apply Hc. by apply list_elem_of_In.
Qed.

Lemma export_frame_length df records e :
  export_frame df records = Some e -> length (rows e) = length (rows records).
Proof.
  unfold export_frame, getitem_columns. destruct (forallb _ _); [|done]. simpl.
  intros [= <-].
  destruct (has_column "Month_original" _); unfold assign; simpl;
    by rewrite !length_fmap.
Qed.

(** Lines 473-509: what a tab does with the filtered records. *)
Lemma tab_results_cases df display_columns f :
  (forall c, c ∈ columns df -> has_column c f = true) ->
  (rows f = [] -> tab_results df display_columns f = Some NoMatch)
  /\ (rows f ≠ [] ->
      (tab_results df display_columns f = None <-> listing display_columns f = None)
      /\ forall shown, listing display_columns f = Some shown ->
           exists exported,
             tab_results df display_columns f
             = Some (Listed (length (rows f)) shown exported)
             /\ export_frame df f = Some exported).
Proof.
  intros Hc. unfold tab_results. split.
  - by intros ->.
  - intros Hne. destruct (rows f) as [|r l] eqn:E; [done|]. simpl.
    destruct (export_frame_total df f Hc) as [e He]. rewrite He.
    destruct (listing display_columns f) as [shown|]; simpl.
    + split; [done|]. intros ? [= <-]. by exists e.
    + done.
Qed.

Lemma has_column_add_column c c' df cols :
  columns df = add_column c cols ->
  has_column c' df = bool_decide (c' ∈ cols) || bool_decide (c' = c).
Proof.
  intros E. unfold has_column. rewrite E. apply eq_true_iff_eq.
  by rewrite orb_true_iff, !bool_decide_eq_true, elem_of_add_column.
Qed.

(** The columns a tab needs, in terms of the file. *)
Lemma loaded_display_columns raw (ds f : DataFrame) :
  columns ds = loaded_columns raw ->
  (columns f = columns ds \/ columns f = add_column "Age" (columns ds)) ->
  (forall c, c ∈ columns ds -> has_column c f = true)
  /\ (forall c, c ∈ ["Contributor Name"; "Unit Holder ID"; "Year"] ->
        has_column c f = has_column c raw)
  /\ (has_column "Month" f = false /\ has_column "Month_original" f = false
      <-> has_column "Month" raw = false /\ has_column "Month_original" raw = false).
Proof.
  intros Hds Hf.
  assert (forall c, c ≠ "Age" -> has_column c f = bool_decide (c ∈ loaded_columns raw))
    as Hcol.
  { intros c Hc. destruct Hf as [Hf|Hf].
    - unfold has_column. by rewrite Hf, Hds.
    - rewrite (has_column_add_column "Age" c f _ Hf), Hds.
      by rewrite (bool_decide_eq_false_2 (c = "Age")), orb_false_r. }
  split_and!.
  - intros c Hc. destruct Hf as [Hf|Hf].
    + unfold has_column. rewrite Hf. by apply bool_decide_eq_true_2.
    + rewrite (has_column_add_column "Age" c f _ Hf).
      by rewrite (bool_decide_eq_true_2 (c ∈ columns ds)).
  - intros c Hc.
    repeat (apply elem_of_cons in Hc as [->|Hc]); [..|by apply elem_of_nil in Hc];
      rewrite Hcol, has_column_loaded_columns by done;
      rewrite !(bool_decide_eq_false_2 (_ = _)) by done;
      by rewrite andb_false_r, !orb_false_r.
  - rewrite !Hcol, !has_column_loaded_columns by done.
    rewrite !(bool_decide_eq_false_2 (_ = "birth_date")) by done.
    rewrite !(bool_decide_eq_false_2 ("Month" = _)) by done.
    rewrite (bool_decide_eq_true_2 ("Month_original" = "Month_original")) by done.
    destruct (has_column "Month" raw), (has_column "Month_original" raw); simpl; tauto.
Qed.

(** X19.  The withdrawals tab from its filters on, the summary apart, on a
    loaded table that has withdrawal records, with an empty search box or
    with an identifier column and a pattern that is a regular expression.
    The filters do not raise.  When they leave no
    record the tab says so.  When they leave at least one, the tab raises a
    [KeyError] exactly when the file lacks one of the columns
    [Contributor Name], [Unit Holder ID], [Year], or both [Month] and
    [Month_original]; otherwise it lists and exports as many rows as the
    filters left. *)
Theorem withdrawals_tab_on_loaded_table raw wr search min_amount type :
  get_withdrawal_records (load_data raw) = Some wr ->
  rows wr ≠ [] ->
  (search ≠ "" ->
     has_column "Unit Holder ID" raw = true /\ is_Some (str_contains search)) ->
  exists f,
    withdrawal_filters str_contains wr search min_amount type = Some f
    /\ (rows f = [] ->
        withdrawals_results str_contains (load_data raw) wr search min_amount type
        = Some NoMatch)
    /\ (rows f ≠ [] ->
        (withdrawals_results str_contains (load_data raw) wr search min_amount type = None
         <-> (exists c, c ∈ ["Contributor Name"; "Unit Holder ID"; "Year"]
                /\ has_column c raw = false)
             \/ (has_column "Month" raw = false
                 /\ has_column "Month_original" raw = false))
        /\ forall view,
             withdrawals_results str_contains (load_data raw) wr search min_amount type
             = Some view ->
             exists shown exported,
               view = Listed (length (rows f)) shown exported
               /\ length (rows shown) = length (rows f)
               /\ length (rows exported) = length (rows f)).
Proof.
  set (ds := load_data raw). intros Hwr Hne Hs.
  destruct (get_withdrawal_records_Some ds wr Hwr Hne) as (HW & Hcw & Hp).
  assert (exists r, r ∈ rows wr) as [r0 Hr0].
  { destruct (rows wr) as [|r l]; [done|]. exists r. left. }
  assert (forall r, r ∈ rows wr ->
            columns ds = loaded_columns raw /\ is_number (cell r "Withdrawals")) as Hrow.
  { intros r Hr. rewrite Hp in Hr.
    apply elem_of_withdrawal_rows in Hr as (r1 & Hr1 & _ & ->).
    rewrite cell_withdrawal_view by done.
    destruct (elem_of_load_data raw r1 Hr1) as [Hc _]. split; [done|].
    destruct (load_data_withdrawals raw HW) as (_ & Hcell & _).
    destruct (Hcell r1 Hr1) as (r2 & _ & ->). apply fillna_to_numeric_number. }
  destruct (Hrow r0 Hr0) as [Hds _].
  assert (columns wr = columns ds \/ columns wr = add_column "Age" (columns ds)) as Hcols.
  { rewrite Hcw. destruct (has_column "birth_date" ds); auto. }
  destruct (loaded_display_columns raw ds wr Hds Hcols) as (Hall & Hnamed & Hmonth).
  assert (has_column "Withdrawals" wr = true) as HWw.
  { apply Hall. by apply bool_decide_eq_true in HW. }
  destruct (withdrawal_filters_selection str_contains wr search min_amount type HWw)
    as (f & Hf & Hcf & _ & _).
  { intros r Hr. by apply Hrow. }
  { intros Hsn. destruct (Hs Hsn) as [Hu ?]. split; [|done].
    rewrite Hnamed; [done|]. right. left. }
  exists f. split; [done|]. unfold withdrawals_results. rewrite Hf. simpl.
  assert (forall c, has_column c f = has_column c wr) as Hfw
    by (intros c; by apply has_column_ext).
  destruct (tab_results_cases ds (withdrawals_display_columns f) f) as [Hnil Hcons].
  { intros c Hc. rewrite Hfw. by apply Hall. }
  split; [done|]. intros Hnef. destruct (Hcons Hnef) as [Hnone Hsome].
  assert (listing (withdrawals_display_columns f) f = None
          <-> (exists c, c ∈ ["Contributor Name"; "Unit Holder ID"; "Year"]
                 /\ has_column c raw = false)
              \/ (has_column "Month" raw = false
                  /\ has_column "Month_original" raw = false)) as Hlist.
  { rewrite withdrawals_listing_None, !Hfw, Hmonth. split.
    - intros [(c & Hc & Hmiss)|?]; [left|by right]. rewrite Hfw in Hmiss.
      exists c. apply elem_of_cons in Hc as [->|Hc].
      { split; [left|]. rewrite <- Hnamed; [done|left]. }
      apply elem_of_cons in Hc as [->|Hc].
      { split; [right; left|]. rewrite <- Hnamed; [done|right; left]. }
      apply elem_of_cons in Hc as [->|Hc]; [congruence|].
      apply list_elem_of_singleton in Hc as ->.
      split; [right; right; left|]. rewrite <- Hnamed; [done|right; right; left].
    - intros [(c & Hc & Hmiss)|?]; [left|by right].
      exists c. rewrite Hfw, Hnamed by done. split; [|done].
      repeat (apply elem_of_cons in Hc as [->|Hc]); [..|by apply elem_of_nil in Hc];
        by repeat first [left|right]. }
  split; [by rewrite Hnone|].
  intros view Hview.
  destruct (listing (withdrawals_display_columns f) f) as [shown|] eqn:Hl.
  - destruct (Hsome shown eq_refl) as (exported & Hres & Hexp).
    rewrite Hview in Hres. injection Hres as ->.
    exists shown, exported. split; [done|].
    apply listing_Some in Hl as (_ & Hlen & _). split; [done|].
    by apply export_frame_length in Hexp.
  - destruct Hnone as [_ Hnone]. rewrite Hnone in Hview by done. done.
Qed.

(** X20.  The retirees tab from its filters on, the summary apart, on a
    loaded table that has retiree records, with an empty search box or with
    an identifier column and a pattern that is a regular expression.  The
    filters do not raise.  When they leave no record
    the tab says so.  When they leave at least one, the tab raises a
    [KeyError] exactly when the file lacks one of the columns
    [Contributor Name], [Unit Holder ID], [Year], or both [Month] and
    [Month_original]; otherwise it lists and exports as many rows as the
    filters left. *)
Theorem retirees_tab_on_loaded_table raw rr search min_age max_age :
  get_retiree_records (load_data raw) = Some rr ->
  rows rr ≠ [] ->
  (search ≠ "" ->
     has_column "Unit Holder ID" raw = true /\ is_Some (str_contains search)) ->
  exists f,
    retiree_filters str_contains rr search min_age max_age = Some f
    /\ (rows f = [] ->
        retirees_results str_contains (load_data raw) rr search min_age max_age
        = Some NoMatch)
    /\ (rows f ≠ [] ->
        (retirees_results str_contains (load_data raw) rr search min_age max_age = None
         <-> (exists c, c ∈ ["Contributor Name"; "Unit Holder ID"; "Year"]
                /\ has_column c raw = false)
             \/ (has_column "Month" raw = false
                 /\ has_column "Month_original" raw = false))
        /\ forall view,
             retirees_results str_contains (load_data raw) rr search min_age max_age
             = Some view ->
             exists shown exported,
               view = Listed (length (rows f)) shown exported
               /\ length (rows shown) = length (rows f)
               /\ length (rows exported) = length (rows f)).
Proof.
  set (ds := load_data raw). intros Hrr Hne Hs.
  destruct (get_retiree_records_Some ds rr Hrr Hne) as (HB & Hcr & Hp).
  assert (exists r, r ∈ rows rr) as [r0 Hr0].
  { destruct (rows rr) as [|r l]; [done|]. exists r. left. }
  assert (forall r, r ∈ rows rr ->
            columns ds = loaded_columns raw /\ exists n, cell r "Age" = VInt n) as Hrow.
  { intros r Hr. rewrite Hp in Hr.
    apply elem_of_retiree_rows in Hr as (r1 & Hr1 & Hret & ->).
    destruct (elem_of_load_data raw r1 Hr1) as [Hc _]. split; [done|].
    apply is_retiree_spec in Hret as (n & Hn & _). exists n.
    unfold with_age. by rewrite cell_insert_eq. }
  destruct (Hrow r0 Hr0) as [Hds _].
  destruct (loaded_display_columns raw ds rr Hds (or_intror Hcr))
    as (Hall & Hnamed & Hmonth).
  assert (has_column "Age" rr = true /\ has_column "birth_date" rr = true) as [HA HBr].
  { split.
    - rewrite (has_column_add_column "Age" "Age" rr _ Hcr).
      by rewrite (bool_decide_eq_true_2 ("Age" = "Age")), orb_true_r.
    - apply Hall. by apply bool_decide_eq_true in HB. }
  destruct (retiree_filters_selection str_contains rr search min_age max_age HA)
    as (f & Hf & Hcf & _ & _).
  { intros r Hr. by apply Hrow. }
  { intros Hsn. destruct (Hs Hsn) as [Hu ?]. split; [|done].
    rewrite Hnamed; [done|]. right. left. }
  exists f. split; [done|]. unfold retirees_results. rewrite Hf. simpl.
  assert (forall c, has_column c f = has_column c rr) as Hfw
    by (intros c; by apply has_column_ext).
  destruct (tab_results_cases ds retirees_display_columns f) as [Hnil Hcons].
  { intros c Hc. rewrite Hfw. by apply Hall. }
  split; [done|]. intros Hnef. destruct (Hcons Hnef) as [Hnone Hsome].
  assert (listing retirees_display_columns f = None
          <-> (exists c, c ∈ ["Contributor Name"; "Unit Holder ID"; "Year"]
                 /\ has_column c raw = false)
              \/ (has_column "Month" raw = false
                  /\ has_column "Month_original" raw = false)) as Hlist.
  { rewrite retirees_listing_None, !Hfw, Hmonth. split.
    - intros [(c & Hc & Hmiss)|?]; [left|by right]. rewrite Hfw in Hmiss.
      exists c. apply elem_of_cons in Hc as [->|Hc].
      { split; [left|]. rewrite <- Hnamed; [done|left]. }
      apply elem_of_cons in Hc as [->|Hc].
      { split; [right; left|]. rewrite <- Hnamed; [done|right; left]. }
      apply elem_of_cons in Hc as [->|Hc]; [congruence|].
      apply elem_of_cons in Hc as [->|Hc]; [congruence|].
      apply list_elem_of_singleton in Hc as ->.
      split; [right; right; left|]. rewrite <- Hnamed; [done|right; right; left].
    - intros [(c & Hc & Hmiss)|?]; [left|by right].
      exists c. rewrite Hfw, Hnamed by done. split; [|done].
      repeat (apply elem_of_cons in Hc as [->|Hc]); [..|by apply elem_of_nil in Hc];
        by repeat first [left|right]. }
  split; [by rewrite Hnone|].
  intros view Hview.
  destruct (listing retirees_display_columns f) as [shown|] eqn:Hl.
  - destruct (Hsome shown eq_refl) as (exported & Hres & Hexp).
    rewrite Hview in Hres. injection Hres as ->.
    exists shown, exported. split; [done|].
    apply listing_Some in Hl as (_ & Hlen & _). split; [done|].
    by apply export_frame_length in Hexp.
  - destruct Hnone as [_ Hnone]. rewrite Hnone in Hview by done. done.
Qed.

End TabsOnLoadedTable.

Lemma amounts_table_numbers r :
  r ∈ rows amounts_table ->
  is_number (cell r "Withdrawals") /\ ne_zero (cell r "Withdrawals") = true.
Proof.
  unfold amounts_table, table. simpl rows. intros Hr.
  repeat (apply elem_of_cons in Hr as [->|Hr]); [..|by apply elem_of_nil in Hr].
  - split; [by exists (NInt 100)|reflexivity].
  - split; [by exists (NFloat (-101 # 2))|reflexivity].
  - split; [by exists (NInt 20)|reflexivity].
Qed.

(** Searching ["w1"] with a minimum of 50 keeps W1; W10 is below the
    minimum. *)
Lemma withdrawal_filters_spec_witness :
  exists f,
    @withdrawal_filters iso_runtime literal_contains amounts_table "w1" (Some (50 # 1)) AllTypes
    = Some f
    /\ columns f = ["Unit Holder ID"; "Withdrawals"]
    /\ project ["Unit Holder ID"] f = [[VStr "W1"]].
Proof.
  destruct (@withdrawal_filters_spec iso_runtime literal_contains amounts_table "w1"
              (Some (50 # 1)) AllTypes) as (_ & f & Hf & Hc & _).
  - reflexivity.
  - intros r Hr. by destruct (amounts_table_numbers r Hr).
  - intros _. split; [reflexivity|]. eexists. reflexivity.
  - exists f. split_and!; [exact Hf|exact Hc|].
    assert (project ["Unit Holder ID"] <$> Some f = Some [[VStr "W1"]]) as Hp
      by (rewrite <- Hf; reflexivity).
    by injection Hp.
Defined.

(** Of the three records two are positive and one is negative. *)
Lemma withdrawal_types_partition_witness :
  exists fa fp fn,
    @withdrawal_filters iso_runtime literal_contains amounts_table "" None AllTypes = Some fa
    /\ @withdrawal_filters iso_runtime literal_contains amounts_table "" None PositiveOnly = Some fp
    /\ @withdrawal_filters iso_runtime literal_contains amounts_table "" None NegativeOnly = Some fn
    /\ length (rows fa) = (length (rows fp) + length (rows fn))%nat
    /\ project ["Unit Holder ID"] fp = [[VStr "W1"]; [VStr "W10"]]
    /\ project ["Unit Holder ID"] fn = [[VStr "W3"]].
Proof.
  do 3 eexists. split_and!; [reflexivity|reflexivity|reflexivity| |reflexivity|reflexivity].
  eapply (@withdrawal_types_partition iso_runtime literal_contains amounts_table "" None).
  - apply amounts_table_numbers.
  - reflexivity.
  - reflexivity.
  - reflexivity.
Defined.

Lemma ages_table_ages r :
  r ∈ rows ages_table -> exists n, cell r "Age" = VInt n /\ 60 <= n.
Proof.
  unfold ages_table, table. simpl rows. intros Hr.
  repeat (apply elem_of_cons in Hr as [->|Hr]); [..|by apply elem_of_nil in Hr].
  - exists 74. by split.
  - exists 124. by split.
  - exists 60. by split.
Qed.

(** With the bounds the boxes start with, the retiree of 124 is left out. *)
Lemma retiree_filters_spec_witness :
  exists f,
    @retiree_filters iso_runtime literal_contains ages_table "" 60 100 = Some f
    /\ project ["Unit Holder ID"; "Age"] f = [[VStr "R1"; VInt 74]; [VStr "R5"; VInt 60]].
Proof.
  destruct (@retiree_filters_spec iso_runtime literal_contains ages_table "" 60 100)
    as (f & Hf & _).
  - reflexivity.
  - apply ages_table_ages.
  - done.
  - lia.
  - exists f. split; [exact Hf|].
    assert (project ["Unit Holder ID"; "Age"] <$> Some f
            = Some [[VStr "R1"; VInt 74]; [VStr "R5"; VInt 60]]) as Hp
      by (rewrite <- Hf; reflexivity).
    by injection Hp.
Defined.

(** The withdrawal records of [withdrawals_table], which has no
    [Contributor Name] column, cannot be displayed. *)
Lemma tab_listings_spec_witness :
  listing (withdrawals_display_columns amounts_table) amounts_table = None.
Proof.
  apply (@tab_listings_spec amounts_table). left.
  exists "Contributor Name". split; [left|reflexivity].
Defined.

(** On the file of [withdrawals_table], which has no [Contributor Name]
    column, the withdrawals tab raises. *)
Lemma withdrawals_tab_on_loaded_table_witness :
  @withdrawals_results iso_runtime literal_contains (@load_data iso_runtime withdrawals_table)
    (default empty_frame
       (@get_withdrawal_records iso_runtime (@load_data iso_runtime withdrawals_table)))
    "" None AllTypes
  = None.
Proof.
  set (wr := default empty_frame _).
  destruct (@withdrawals_tab_on_loaded_table iso_runtime literal_contains
              withdrawals_table wr "" None AllTypes)
    as (f & Hf & _ & Hraise).
  - reflexivity.
  - intros Hn. apply (f_equal length) in Hn. vm_compute in Hn. discriminate Hn.
  - done.
  - assert (length ∘ rows <$> Some f = Some 2%nat) as Hl
      by (rewrite <- Hf; reflexivity).
    injection Hl as Hl.
    destruct Hraise as [Hraise _]; [intros Hn; by rewrite Hn in Hl|].
    apply Hraise. left. exists "Contributor Name". split; [left|reflexivity].
Defined.

(** On the file of [members_table] the retirees tab, with the bounds it
    starts with, lists one of the two retirees. *)
Lemma retirees_tab_on_loaded_table_witness :
  exists shown exported,
    @retirees_results iso_runtime literal_contains (@load_data iso_runtime members_table)
      (default empty_frame
         (@get_retiree_records iso_runtime (@load_data iso_runtime members_table)))
      "" 60 100
    = Some (Listed 1 shown exported)
    /\ length (rows shown) = 1%nat
    /\ length (rows exported) = 1%nat.
Proof.
  set (rr := default empty_frame _).
  destruct (@retirees_tab_on_loaded_table iso_runtime literal_contains
              members_table rr "" 60 100)
    as (f & Hf & _ & Hlist).
  - reflexivity.
  - intros Hn. apply (f_equal length) in Hn. vm_compute in Hn. discriminate Hn.
  - done.
  - assert (length ∘ rows <$> Some f = Some 1%nat) as Hl
      by (rewrite <- Hf; reflexivity).
    injection Hl as Hl.
    destruct Hlist as [_ Hlist]; [intros Hn; by rewrite Hn in Hl|].
    assert (is_Some (@retirees_results iso_runtime literal_contains
                       (@load_data iso_runtime members_table) rr "" 60 100))
      as [view Hview] by (apply (bool_decide_unpack _); vm_compute; exact I).
    destruct (Hlist view Hview) as (shown & exported & -> & Hs & He).
    exists shown, exported. rewrite Hl in *. by split_and!.
Defined.
(** ** The lookup tab on a loaded table *)

Section LookupTabTotal.
Context `{Runtime}.

(** X21.  On a loaded table the lookup tab, the rendering of the card apart,
    never raises, whatever is typed.
    It shows nothing for an empty box, the reason for a text that is too
    short, "no record found" when the table has no identifier column or no
    row matches the trimmed text, and otherwise the matching rows in the
    order of the table, with the second download button exactly when there
    is more than one. *)
Theorem lookup_tab_on_loaded_table raw input :
  exists view,
    records_lookup_tab (load_data raw) input = Some view
    /\ match view with
       | Idle => input = ""
       | Rejected reason =>
           input ≠ "" /\ PyStr.len (PyStr.strip input) < 3
           /\ reason = too_short_reason input
       | NotFound clean =>
           clean = PyStr.strip input /\ 3 <= PyStr.len clean
           /\ (has_column "Unit Holder ID" (load_data raw) = false
               \/ matching_rows (load_data raw) (VStr clean) = [])
       | Found clean latest hist e_latest e_all =>
           clean = PyStr.strip input /\ 3 <= PyStr.len clean
           /\ rows hist = matching_rows (load_data raw) (VStr clean)
           /\ rows latest = option_list (last (rows hist))
           /\ rows hist ≠ []
           /\ (is_Some e_all <-> (1 < length (rows hist))%nat)
       end.
Proof.
  pose proof (load_data_ordered raw) as Hordered.
  pose proof (lookup_history_in_dataset_order raw) as Horder.
  remember (load_data raw) as ds eqn:Hds. clear Hds.
  unfold records_lookup_tab.
  case_bool_decide as Hin; [by exists Idle|].
  unfold validate_unit_holder_id. rewrite bool_decide_eq_false_2 by done.
  destruct (PyStr.len (PyStr.strip input) <? 3) eqn:Hlen; simpl.
  { apply Z.ltb_lt in Hlen. eexists. split; [done|]. by split_and!. }
  apply Z.ltb_ge in Hlen. set (clean := PyStr.strip input) in *.
  destruct (has_column "Unit Holder ID" ds) eqn:Hcol.
  2:{ rewrite search_by_unit_holder_id_absent by (by left). simpl.
      eexists. split; [done|]. split_and!; [done|done|by left]. }
  assert (has_period_columns ds = true -> sortable (rows ds)) as Hsortable.
  { intros Hg. by apply Hordered. }
  destruct (matching_rows ds (VStr clean)) as [|r0 l0] eqn:E.
  { rewrite search_by_unit_holder_id_unfold, E by done. simpl.
    eexists. split; [done|]. split_and!; [done|done|by right]. }
  destruct (search_by_unit_holder_id_found ds (VStr clean) Hcol Hsortable)
    as (latest & hist & r & Hs & Hch & Hcl & _ & Hlast & Hl); [by rewrite E|].
  pose proof (Horder (VStr clean) latest hist eq_refl Hs) as Hh.
  rewrite Hs. simpl. rewrite Hl. simpl.
  destruct (export_frame_total ds latest) as [el Hel].
  { intros c Hc. unfold has_column. rewrite Hcl. by apply bool_decide_eq_true_2. }
  destruct (export_frame_total ds hist) as [ea Hea].
  { intros c Hc. unfold has_column. rewrite Hch. by apply bool_decide_eq_true_2. }
  rewrite Hel, Hea. simpl.
  destruct (1 <? length (rows hist))%nat eqn:Hmany; simpl.
  - eexists. split; [done|]. apply Nat.ltb_lt in Hmany.
    split_and!; [done|done|by rewrite Hh, E|by rewrite Hl, Hlast| |done].
    intros Hn. rewrite Hn in Hmany. simpl in Hmany. lia.
  - eexists. split; [done|]. apply Nat.ltb_ge in Hmany.
    split_and!; [done|done|by rewrite Hh, E|by rewrite Hl, Hlast| |].
    + intros Hn. by rewrite Hn in Hlast.
    + split; [by intros [? [=]]|lia].
Qed.

End LookupTabTotal.

Lemma lookup_tab_on_loaded_table_witness :
  exists latest hist e_latest,
    @records_lookup_tab iso_runtime (@load_data iso_runtime stored_123_table) " 123 "
    = Some (Found "123" latest hist e_latest None).
Proof.
  destruct (@lookup_tab_on_loaded_table iso_runtime stored_123_table " 123 ")
    as (view & Hview & _).
  assert (exists latest hist e_latest,
            Some view = Some (Found "123" latest hist e_latest None))
    as (latest & hist & el & Hv)
    by (rewrite <- Hview; do 3 eexists; reflexivity).
  exists latest, hist, el. by rewrite Hview, Hv.
Defined.

(** ** Further examples *)

Lemma file_to_use_spec_witness :
  file_to_use ["notes.txt"; "b.csv"; "Combined.csv"] = Some "Combined.csv"
  /\ file_to_use ["notes.txt"; "b.csv"; "a.csv"] = Some "b.csv"
  /\ file_to_use ["notes.txt"; "data.CSV"] = None.
Proof.
  split_and!; [reflexivity|reflexivity|].
  apply (file_to_use_spec ["notes.txt"; "data.CSV"]).
  intros f Hf. repeat (apply elem_of_cons in Hf as [->|Hf]); [reflexivity..|].
  by apply elem_of_nil in Hf.
Defined.

Lemma month_rank_spec_witness :
  @month_rank iso_runtime (VInt 3) = VNaN
  /\ @month_rank iso_runtime (VStr " SEP ") = VInt 9.
Proof.
  split.
  - by apply (@month_rank_spec iso_runtime (VInt 3)) with (k := 3).
  - destruct (@month_rank_spec iso_runtime (VStr " SEP ")) as (Hn & _).
    apply Hn. exists "september". split; [by repeat first [left|right]|by right].
Defined.

(** ** The record card *)

Section RecordCardFacts.
Context `{Runtime}.

Lemma shown_Some c record r l :
  rows record = r :: l ->
  shown c record = Some (if has_column c record then py_str (cell r c) else "N/A").
Proof. intros E. unfold shown. rewrite E. by destruct (has_column c record). Qed.

Lemma shown_unless_missing_Some c record r l :
  rows record = r :: l ->
  shown_unless_missing c record
  = Some (if has_column c record && negb (isna (cell r c))
          then py_str (cell r c) else "N/A").
Proof.
  intros E. unfold shown_unless_missing. rewrite E.
  destruct (has_column c record); [|done]. simpl. by destruct (isna (cell r c)).
Qed.

(** The card of a table with at least one row. *)
Lemma display_record_Some record r l :
  rows record = r :: l ->
  exists fields,
    display_record record = Some fields
    /\ length fields = 16%nat
    /\ ("Unit Holder ID",
        if has_column "Unit Holder ID" record
        then py_str (cell r "Unit Holder ID") else "N/A") ∈ fields
    /\ ("Month",
        if has_column "Month_original" record && negb (isna (cell r "Month_original"))
        then py_str (cell r "Month_original") else "N/A") ∈ fields
    /\ ("Age",
        if has_column "birth_date" record
        then py_str (calculate_age (cell r "birth_date")) else "N/A") ∈ fields.
Proof.
  intros E. unfold display_record.
  rewrite !(shown_Some _ record r l E), !(shown_unless_missing_Some _ record r l E).
  rewrite E. simpl.
  destruct (has_column "birth_date" record); simpl;
    (eexists; split; [done|]; split_and!; [done|..];
     by repeat first [left|right]).
Qed.

(** The latest record the lookup tab found in a loaded table. *)
Lemma found_latest_row raw input clean latest hist e_latest e_all :
  records_lookup_tab (load_data raw) input
  = Some (Found clean latest hist e_latest e_all) ->
  columns latest = loaded_columns raw
  /\ has_column "Unit Holder ID" latest = true
  /\ PyStr.strip clean = clean
  /\ exists i r0, rows raw !! i = Some r0
       /\ rows latest = [trimmed_id (loaded_row raw i r0)]
       /\ matches (VStr clean) (loaded_row raw i r0).
Proof.
  pose proof (load_data_ordered raw) as Hordered.
  pose proof (@elem_of_load_data _ raw) as Hload.
  remember (load_data raw) as ds eqn:Hds. clear Hds. intros Htab.
  assert (PyStr.strip clean = clean) as Hclean.
  { unfold records_lookup_tab in Htab. case_bool_decide; [done|].
    unfold validate_unit_holder_id in Htab. rewrite bool_decide_eq_false_2 in Htab by done.
    destruct (PyStr.len _ <? 3); [done|]. simpl in Htab.
    destruct (search_by_unit_holder_id _ _) as [[l h]|]; [|done]. simpl in Htab.
    destruct (length (rows l) =? 0)%nat; [done|].
    destruct (export_frame ds l); [|done]. simpl in Htab.
    destruct (if (1 <? _)%nat then _ else _); [|done]. simpl in Htab.
    injection Htab as <- _ _ _ _. apply PyStrFacts.strip_idemp. }
  apply records_lookup_tab_Found in Htab as (Hs & Hne & _ & _).
  assert (has_column "Unit Holder ID" ds = true) as Hcol.
  { destruct (has_column "Unit Holder ID" ds) eqn:E; [done|].
    rewrite search_by_unit_holder_id_absent in Hs by (by left).
    injection Hs as <- _. by destruct Hne. }
  assert (has_period_columns ds = true -> sortable (rows ds)) as Hsortable.
  { intros Hg. by apply Hordered. }
  assert (matching_rows ds (VStr clean) ≠ []) as Hm.
  { intros E. rewrite search_by_unit_holder_id_unfold, E in Hs by done.
    injection Hs as <- _. by destruct Hne. }
  destruct (search_by_unit_holder_id_found ds (VStr clean) Hcol Hsortable Hm)
    as (l' & h' & r & Hs' & _ & Hcl & Hrows & Hlast & Hl).
  rewrite Hs in Hs'. injection Hs' as <- <-.
  assert (r ∈ matching_rows ds (VStr clean)) as Hr.
  { apply last_Some_elem_of in Hlast. rewrite Hrows in Hlast.
    destruct (has_period_columns ds); [|done]. by rewrite elem_of_stable_sort in Hlast. }
  apply elem_of_matching_rows in Hr as (r1 & Hr1 & Hmatch & ->).
  destruct (Hload r1 Hr1) as (Hc & i & r0 & Hr0 & ->).
  split_and!; [congruence| |done|]; [|by exists i, r0].
  by rewrite (has_column_ext _ latest ds Hcl).
Qed.

(** X22.  The card of the record the lookup tab found in a loaded table.
    Building it does not raise and gives sixteen lines.  The identifier it
    shows is the cleaned text that was searched.  When the file has a
    [Month] column, the month it shows is the text of the month cell of the
    file; for a month the file leaves empty it shows what [astype(str)] left
    of it, ["N/A"] where the cell stayed missing and ["nan"] where it became
    that text, which the guard against a missing value does not see.  When
    the file has one of the candidate date columns, the age it shows is an
    integer or ["N/A"]. *)
Theorem record_card_on_loaded_table raw input clean latest hist e_latest e_all :
  records_lookup_tab (load_data raw) input
  = Some (Found clean latest hist e_latest e_all) ->
  exists i r0 fields,
    rows raw !! i = Some r0
    /\ rows latest = [trimmed_id (loaded_row raw i r0)]
    /\ display_record latest = Some fields
    /\ length fields = 16%nat
    /\ ("Unit Holder ID", clean) ∈ fields
    /\ (has_column "Month" raw = true ->
        (isna (cell r0 "Month") = false ->
         ("Month", py_str (cell r0 "Month")) ∈ fields)
        /\ (cell r0 "Month" = VNaN ->
            ("Month", if astype_str_keeps_missing then "N/A" else "nan") ∈ fields))
    /\ (forall c, birth_column raw = Some c ->
        exists age, ("Age", age) ∈ fields
          /\ (age = "N/A" \/ exists n : Z, age = pretty n)).
Proof.
  intros (Hc & Hid & Hclean & i & r0 & Hr0 & Hl & Hmatch)%found_latest_row.
  destruct (display_record_Some latest _ _ Hl) as (fields & Hf & Hlen & Hu & Hm & Ha).
  assert (forall c, has_column c latest = bool_decide (c ∈ loaded_columns raw)) as Hcol
    by (intros c; unfold has_column; by rewrite Hc).
  exists i, r0, fields. split_and!; [done|done|done|done| | |].
  - unfold matches in Hmatch. cbn [py_str] in Hmatch. rewrite Hclean in Hmatch.
    rewrite Hid in Hu. unfold trimmed_id in Hu. rewrite cell_insert_eq in Hu.
    by rewrite Hmatch in Hu.
  - intros HM.
    rewrite Hcol, has_column_loaded_columns, HM in Hm.
    rewrite (bool_decide_eq_true_2 ("Month_original" = "Month_original")) in Hm by done.
    rewrite orb_true_r in Hm.
    rewrite cell_trimmed_id, cell_loaded_row in Hm by done.
    destruct (cell_sorted_row_month raw i r0 HM) as (_ & Ho & _).
    rewrite Ho in Hm. unfold astype_str in Hm. split.
    + intros Hna. by rewrite Hna in Hm.
    + intros E. rewrite E in Hm. cbn [isna andb] in Hm.
      by destruct astype_str_keeps_missing.
  - intros c Hb. eexists. split; [exact Ha|].
    rewrite Hcol, has_column_loaded_columns, Hb.
    rewrite (bool_decide_eq_true_2 ("birth_date" = "birth_date")) by done.
    rewrite (bool_decide_eq_true_2 (is_Some (Some c))) by done.
    rewrite orb_true_r. cbv iota.
    rewrite cell_trimmed_id, cell_loaded_row by done.
    destruct (cell_sorted_row_birth raw i r0 c Hb) as [-> _].
    rewrite calculate_age_table.
    destruct (parsed_date_cases c raw i) as [[t ->]| ->]; simpl; eauto.
Qed.

End RecordCardFacts.

(** A record whose month the file leaves empty: the card shows ["nan"] with
    the [astype(str)] of pandas 2, and ["N/A"] with that of pandas 3. *)
Lemma record_card_on_loaded_table_witness :
  (exists latest hist e_latest e_all fields,
     @records_lookup_tab iso_runtime (@load_data iso_runtime missing_month_table) " A12"
     = Some (Found "A12" latest hist e_latest e_all)
     /\ @display_record iso_runtime latest = Some fields
     /\ ("Unit Holder ID", "A12") ∈ fields
     /\ ("Month", "nan") ∈ fields)
  /\ (exists latest hist e_latest e_all fields,
        @records_lookup_tab iso_runtime_pandas3
          (@load_data iso_runtime_pandas3 missing_month_table) " A12"
        = Some (Found "A12" latest hist e_latest e_all)
        /\ @display_record iso_runtime_pandas3 latest = Some fields
        /\ ("Unit Holder ID", "A12") ∈ fields
        /\ ("Month", "N/A") ∈ fields).
Proof.
  split.
  - assert (exists latest hist e_latest e_all,
              @records_lookup_tab iso_runtime (@load_data iso_runtime missing_month_table) " A12"
              = Some (Found "A12" latest hist e_latest e_all))
      as (latest & hist & el & ea & E) by (do 4 eexists; reflexivity).
    destruct (@record_card_on_loaded_table iso_runtime missing_month_table " A12" _ _ _ _ _ E)
      as (i & r0 & fields & Hr0 & _ & Hf & _ & Hu & Hm & _).
    exists latest, hist, el, ea, fields. split_and!; [exact E|exact Hf|exact Hu|].
    unfold missing_month_table, table in Hr0. cbn [rows fmap list_fmap] in Hr0.
    destruct i as [|i]; [|destruct i; discriminate Hr0]. injection Hr0 as <-.
    by apply Hm.
  - assert (exists latest hist e_latest e_all,
              @records_lookup_tab iso_runtime_pandas3
                (@load_data iso_runtime_pandas3 missing_month_table) " A12"
              = Some (Found "A12" latest hist e_latest e_all))
      as (latest & hist & el & ea & E) by (do 4 eexists; reflexivity).
    destruct (@record_card_on_loaded_table iso_runtime_pandas3 missing_month_table " A12"
                _ _ _ _ _ E)
      as (i & r0 & fields & Hr0 & _ & Hf & _ & Hu & Hm & _).
    exists latest, hist, el, ea, fields. split_and!; [exact E|exact Hf|exact Hu|].
    unfold missing_month_table, table in Hr0. cbn [rows fmap list_fmap] in Hr0.
    destruct i as [|i]; [|destruct i; discriminate Hr0]. injection Hr0 as <-.
    by apply Hm.
Defined.
